(** * Plan API: write-propagation pipeline

    A shallow embedding of the plan service: the controller
    ([controllers/plan_controller.py]), the fan-out indexer
    ([services/elasticsearch_service.py]), the queue client
    ([services/queue_service.py]), the key-value store wrapper
    ([services/redis_service.py]) and the worker ([worker.py]).

    JSON values are a first-order datatype; a Python [dict] is an
    association list in insertion order whose keys are pairwise distinct.
    Code that talks to Elasticsearch, RabbitMQ or Redis is written in a
    state-and-exception monad over an explicit world. *)

From Stdlib Require Import ZArith Ascii String List Permutation Lia.
From stdpp Require Import base option list strings gmap pretty.

Set Warnings "-register-all".

Local Open Scope string_scope.
Local Open Scope Z_scope.

(** ** JSON values as Python sees them after [json.loads] *)

Inductive json : Type :=
| JNull
| JBool (b : bool)
| JNum (n : Z)
| JStr (s : string)
| JArr (items : list json)
| JObj (fields : list (string * json)).

(** Python truthiness of a decoded JSON value ([bool(x)], [not x],
    [x or y]). *)
Definition truthy (v : json) : bool :=
  match v with
  | JNull => false
  | JBool b => b
  | JNum n => negb (n =? 0)
  | JStr s => negb (String.eqb s "")
  | JArr l => match l with [] => false | _ => true end
  | JObj l => match l with [] => false | _ => true end
  end.

(** [x or d] *)
Definition py_or (x d : json) : json := if truthy x then x else d.

(** *** Dictionaries in insertion order *)

Fixpoint dict_get (kvs : list (string * json)) (k : string) : option json :=
  match kvs with
  | [] => None
  | (k', v) :: rest => if String.eqb k' k then Some v else dict_get rest k
  end.

(** [d[k] = v]: an existing key keeps its position, a new key goes last. *)
Fixpoint dict_set (kvs : list (string * json)) (k : string) (v : json)
  : list (string * json) :=
  match kvs with
  | [] => [(k, v)]
  | (k', v') :: rest =>
      if String.eqb k' k then (k, v) :: rest else (k', v') :: dict_set rest k v
  end.

(** [{**a, **b}] *)
Definition dict_merge (a b : list (string * json)) : list (string * json) :=
  fold_left (fun acc kv => dict_set acc (fst kv) (snd kv)) b a.

Definition dict_has (kvs : list (string * json)) (k : string) : bool :=
  match dict_get kvs k with Some _ => true | None => false end.

Definition keys (kvs : list (string * json)) : list string := map fst kvs.

(** Well-formed values: every dictionary has pairwise distinct keys, at
    every depth.  Every value built by [json.loads] or by dict literals
    satisfies this. *)
Fixpoint wf_json (v : json) : Prop :=
  match v with
  | JArr l => (fix all (l : list json) : Prop :=
                 match l with [] => True | x :: r => wf_json x /\ all r end) l
  | JObj kvs =>
      NoDup (map fst kvs) /\
      (fix all (l : list (string * json)) : Prop :=
         match l with [] => True | kv :: r => wf_json (snd kv) /\ all r end) kvs
  | _ => True
  end.

(** ** [json.dumps(payload, sort_keys=True)] *)

Definition dquote : string := String "034"%char EmptyString.
Definition backslash : string := String "092"%char EmptyString.

Definition hex_digit (n : N) : ascii :=
  ascii_of_N (if (n <? 10)%N then 48 + n else 87 + n)%N.

(** One character of [py_encode_basestring_ascii]: the short escapes,
    [\u00xx] for everything outside [' '..'~'], the character itself
    otherwise.  Characters are the 8-bit code points of [ascii]. *)
Definition escape_char (c : ascii) : string :=
  let n := N_of_ascii c in
  if (n =? 34)%N then backslash ++ dquote
  else if (n =? 92)%N then backslash ++ backslash
  else if (n =? 8)%N then backslash ++ "b"
  else if (n =? 12)%N then backslash ++ "f"
  else if (n =? 10)%N then backslash ++ "n"
  else if (n =? 13)%N then backslash ++ "r"
  else if (n =? 9)%N then backslash ++ "t"
  else if ((n <? 32) || (126 <? n))%N then
    backslash ++ "u00" ++
      String (hex_digit (n / 16)) (String (hex_digit (n mod 16)) EmptyString)
  else String c EmptyString.

Fixpoint escape_body (s : string) : string :=
  match s with
  | EmptyString => EmptyString
  | String c r => escape_char c ++ escape_body r
  end.

Definition encode_str (s : string) : string := dquote ++ escape_body s ++ dquote.

(** Key order of [sorted(dct.items())]: code-point order on the keys; the
    values are never compared because the keys of a dict are distinct. *)
Definition key_le (a b : string) : bool := String.leb a b.

Fixpoint insert_item {A} (kv : string * A) (l : list (string * A)) : list (string * A) :=
  match l with
  | [] => [kv]
  | x :: r => if key_le (fst kv) (fst x) then kv :: x :: r else x :: insert_item kv r
  end.

Fixpoint sort_items {A} (l : list (string * A)) : list (string * A) :=
  match l with
  | [] => []
  | kv :: r => insert_item kv (sort_items r)
  end.

Fixpoint join (sep : string) (l : list string) : string :=
  match l with
  | [] => ""
  | [x] => x
  | x :: r => x ++ sep ++ join sep r
  end.

(** The encoder with the default separators [", "] and [": "].  The items
    are rendered first and then ordered by key, which yields the same text
    as ordering the items and rendering them in that order. *)
Fixpoint dumps_sorted (v : json) : string :=
  match v with
  | JNull => "null"
  | JBool true => "true"
  | JBool false => "false"
  | JNum n => pretty n
  | JStr s => encode_str s
  | JArr l => "[" ++ join ", " (map dumps_sorted l) ++ "]"
  | JObj kvs =>
      "{" ++ join ", "
        (map (fun kv => encode_str (fst kv) ++ ": " ++ snd kv)
           (sort_items (map (fun kv => (fst kv, dumps_sorted (snd kv))) kvs)))
      ++ "}"
  end.

(** What [json.loads(json.dumps(value, sort_keys=True))] returns: the same
    value with every dictionary in key order. *)
Fixpoint canon (v : json) : json :=
  match v with
  | JArr l => JArr (map canon l)
  | JObj kvs => JObj (sort_items (map (fun kv => (fst kv, canon (snd kv))) kvs))
  | _ => v
  end.

(** ** The same logical record under another insertion order

    [reordered r r'] holds when [r'] lists the fields of [r], and of every
    dictionary nested inside it, in some other order. *)
Inductive reordered : json -> json -> Prop :=
| reordered_refl v : reordered v v
| reordered_arr l l' :
    Forall2 reordered l l' -> reordered (JArr l) (JArr l')
| reordered_obj kvs mid kvs' :
    Forall2 (fun a b => fst a = fst b /\ reordered (snd a) (snd b)) kvs mid ->
    Permutation mid kvs' ->
    reordered (JObj kvs) (JObj kvs').

(** ** Optimistic concurrency guard: the fingerprint *)

Section Fingerprint.

(** [hashlib.md5(bytes).hexdigest()]; the digest algorithm belongs to the
    Python standard library and is taken as given. *)
Variable md5_hexdigest : string -> string.

Definition _etag (payload : json) : string :=
  md5_hexdigest (dumps_sorted payload).

End Fingerprint.

(** ** Python-level operations on decoded JSON *)

Inductive value_error : Type :=
| ObjectIdRequired              (* "index_plan: objectId (plan id) is required" *)
| UnknownJobType (t : json).    (* f"Unknown job type {t}" *)

(** The exception classes that occur.  [ESConnError] and [TransportError]
    are the two classes the worker treats as transient; [NotFoundError] is
    the client's 404, [AMQPError] any failure of the broker connection. *)
Inductive exn : Type :=
| ESConnError
| TransportError
| NotFoundError
| AMQPError
| ValueError (why : value_error)
| KeyError (key : string)
| AttributeError
| TypeError.

Definition result (A : Type) : Type := exn + A.

(** [v.get(k)]: [None] for a missing key, [AttributeError] when [v] is not
    a dict. *)
Definition py_get (v : json) (k : string) : result json :=
  match v with
  | JObj kvs => inr (default JNull (dict_get kvs k))
  | _ => inl AttributeError
  end.

(** [v.get(k, d)] *)
Definition py_get_default (v : json) (k : string) (d : json) : result json :=
  match v with
  | JObj kvs => inr (default d (dict_get kvs k))
  | _ => inl AttributeError
  end.

(** [v[k]] with a string key. *)
Definition py_item (v : json) (k : string) : result json :=
  match v with
  | JObj kvs => match dict_get kvs k with Some x => inr x | None => inl (KeyError k) end
  | _ => inl TypeError
  end.

(** [v.items()] *)
Definition py_items (v : json) : result (list (string * json)) :=
  match v with
  | JObj kvs => inr kvs
  | _ => inl AttributeError
  end.

(** [**v] inside a dict display. *)
Definition py_splat (v : json) : result (list (string * json)) :=
  match v with
  | JObj kvs => inr kvs
  | _ => inl TypeError
  end.

Fixpoint chars (s : string) : list json :=
  match s with
  | EmptyString => []
  | String c r => JStr (String c EmptyString) :: chars r
  end.

(** [for item in v]: the elements of a list, the keys of a dict, the
    characters of a string; anything else is not iterable. *)
Definition py_iter (v : json) : result (list json) :=
  match v with
  | JArr l => inr l
  | JObj kvs => inr (map (fun kv => JStr (fst kv)) kvs)
  | JStr s => inr (chars s)
  | _ => inl TypeError
  end.

(** [v == "s"] for a string literal. *)
Definition is_str (v : json) (s : string) : bool :=
  match v with JStr x => String.eqb x s | _ => false end.

(** [{k: d.get(k) for k in ks if k in d}] for a dict [d]. *)
Definition pick_fields (ks : list string) (d : list (string * json))
  : list (string * json) :=
  fold_left
    (fun acc k => match dict_get d k with Some v => dict_set acc k v | None => acc end)
    ks [].

(** ** State and exceptions *)

Definition M (W A : Type) : Type := W -> W * result A.

Definition ret {W A} (a : A) : M W A := fun w => (w, inr a).

Definition bind {W A B} (m : M W A) (k : A -> M W B) : M W B :=
  fun w => match m w with
           | (w', inr a) => k a w'
           | (w', inl e) => (w', inl e)
           end.

Definition raise {W A} (e : exn) : M W A := fun w => (w, inl e).

Definition lift {W A} (r : result A) : M W A :=
  fun w => (w, r).

(** [try: m  except <classes selected by handles>: h e] *)
Definition try_except {W A} (m : M W A) (handles : exn -> bool) (h : exn -> M W A)
  : M W A :=
  fun w => match m w with
           | (w', inl e) => if handles e then h e w' else (w', inl e)
           | r => r
           end.

Declare Scope py_scope.
Delimit Scope py_scope with py.
Notation "x <- m ;; k" := (bind m (fun x => k))
  (at level 100, m at next level, right associativity) : py_scope.
Notation "m ;; k" := (bind m (fun _ => k))
  (at level 100, right associativity) : py_scope.
Local Open Scope py_scope.

(** [for x in xs: body x] *)
Fixpoint for_each {W A} (xs : list A) (body : A -> M W unit) : M W unit :=
  match xs with
  | [] => ret tt
  | x :: r => body x ;; for_each r body
  end.

(** Run a computation on a component of a larger world. *)
Definition zoom {W V A} (get : W -> V) (set : V -> W -> W) (m : M V A) : M W A :=
  fun w => let (v', r) := m (get w) in (set v' w, r).

(** ** The search index as the indexer sees it *)

(** Bodies of the two [delete_by_query] calls. *)
Inductive query : Type :=
| HasParent (parent_type : string) (id : json)
    (* {"query": {"has_parent": {"parent_type": .., "query": {"term": {"_id": id}}}}} *)
| TermRouting (routing : json).
    (* {"query": {"term": {"_routing": routing}}} *)

(** Requests sent through the Elasticsearch client; the index name is the
    constant [INDEX], [refresh] is ["wait_for"] for [EsIndex] and
    [EsDelete] and [True] for [EsDeleteByQuery]. *)
Inductive es_request : Type :=
| EsIndex (id document routing : json)
| EsDelete (id routing : json)
| EsDeleteByQuery (q : query).

Module elasticsearch_service.

Section Client.

(** The client and the cluster behind it: a request changes the
    cluster state and either returns or raises. *)
Context {S : Type}.
Variable es_exec : es_request -> S -> S * option exn.

Record EsWorld : Type := mkEsWorld {
  es_state : S;
  es_calls : list es_request       (* requests issued so far, oldest first *)
}.

Definition es_call (r : es_request) : M EsWorld unit :=
  fun w =>
    let (s', failure) := es_exec r (es_state w) in
    ({| es_state := s'; es_calls := es_calls w ++ [r] |},
     match failure with Some e => inl e | None => inr tt end).

(** [_routing(pid)] is inlined: it supplies [routing=pid]. *)

Definition _upsert_parent (plan_id : json) (fields : list (string * json))
  : M EsWorld unit :=
  if negb (truthy (JObj fields)) then ret tt
  else
    let doc := dict_merge
                 [("objectId", plan_id); ("objectType", JStr "plan");
                  ("rel", JStr "plan")] fields in
    es_call (EsIndex plan_id (JObj doc) plan_id).

Definition _upsert_child (parent_id child_id : json) (rel_name : string)
           (doc : json) : M EsWorld unit :=
  fields <- lift (py_splat doc) ;;
  let payload :=
    dict_merge fields
      [("rel", JObj [("name", JStr rel_name); ("parent", parent_id)])] in
  es_call (EsIndex child_id (JObj payload) parent_id).

(** [x = holder.get(field) or {}; if x.get("objectId"):
    _upsert_child(plan_id, x["objectId"], rel_name, x)] *)
Definition upsert_identified (plan_id : json) (rel_name : string) (x : json)
  : M EsWorld unit :=
  oid <- lift (py_get x "objectId") ;;
  if truthy oid then
    child_id <- lift (py_item x "objectId") ;;
    _upsert_child plan_id child_id rel_name x
  else ret tt.

(** Body of the loop over [linkedPlanServices], shared by [index_plan]
    and [patch_plan]. *)
Definition fan_out_item (plan_id : json) (item : json) : M EsWorld unit :=
  svc <- lift (py_get item "linkedService") ;;
  upsert_identified plan_id "linkedPlanServices" (py_or svc (JObj [])) ;;
  pscs <- lift (py_get item "planserviceCostShares") ;;
  upsert_identified plan_id "planserviceCostShares" (py_or pscs (JObj [])).

Definition index_plan (plan_doc : json) : M EsWorld unit :=
  plan_id <- lift (py_get plan_doc "objectId") ;;
  if negb (truthy plan_id) then raise (ValueError ObjectIdRequired)
  else
    fields <- lift (py_items plan_doc) ;;
    let parent_fields := pick_fields ["_org"; "planType"; "creationDate"] fields in
    _upsert_parent plan_id parent_fields ;;
    pcs <- lift (py_get plan_doc "planCostShares") ;;
    upsert_identified plan_id "planCostShares" (py_or pcs (JObj [])) ;;
    services <- lift (py_get_default plan_doc "linkedPlanServices" (JArr [])) ;;
    items <- lift (py_iter (py_or services (JArr []))) ;;
    for_each items (fan_out_item plan_id).

Definition patch_plan (plan_id : json) (updates : json) : M EsWorld unit :=
  fields <- lift (py_items updates) ;;
  let parent_fields :=
    List.filter (fun kv => negb (String.eqb (fst kv) "planCostShares"
                                 || String.eqb (fst kv) "linkedPlanServices")) fields in
  _upsert_parent plan_id parent_fields ;;
  (if dict_has fields "planCostShares" then
     pcs <- lift (py_get updates "planCostShares") ;;
     upsert_identified plan_id "planCostShares" (py_or pcs (JObj []))
   else ret tt) ;;
  services <- lift (py_get_default updates "linkedPlanServices" (JArr [])) ;;
  items <- lift (py_iter (py_or services (JArr []))) ;;
  for_each items (fan_out_item plan_id).

Definition delete_plan_from_index (plan_id : json) : M EsWorld unit :=
  try_except (es_call (EsDelete plan_id plan_id))
    (fun e => match e with NotFoundError => true | _ => false end)
    (fun _ => ret tt) ;;
  es_call (EsDeleteByQuery (HasParent "plan" plan_id)) ;;
  es_call (EsDeleteByQuery (TermRouting plan_id)).

End Client.

Arguments EsWorld : clear implicits.
Arguments mkEsWorld {S}.
Arguments es_state {S}.
Arguments es_calls {S}.

End elasticsearch_service.

(** ** An in-memory index

    A one-shard index (the settings [ensure_index] creates it with), used
    to observe the contents the requests leave behind.  A document is found
    by its [_id]; it remembers the routing value it was written with. *)

Fixpoint json_eqb (a b : json) : bool :=
  match a, b with
  | JNull, JNull => true
  | JBool x, JBool y => Bool.eqb x y
  | JNum x, JNum y => (x =? y)
  | JStr x, JStr y => String.eqb x y
  | JArr l, JArr l' =>
      (fix go (l l' : list json) : bool :=
         match l, l' with
         | [], [] => true
         | x :: r, y :: r' => json_eqb x y && go r r'
         | _, _ => false
         end) l l'
  | JObj l, JObj l' =>
      (fix go (l l' : list (string * json)) : bool :=
         match l, l' with
         | [], [] => true
         | kx :: r, ky :: r' =>
             String.eqb (fst kx) (fst ky) && json_eqb (snd kx) (snd ky) && go r r'
         | _, _ => false
         end) l l'
  | _, _ => false
  end.

Record stored : Type := mkStored { st_routing : json; st_source : json }.

Definition Index : Type := json -> option stored.

Definition empty_index : Index := fun _ => None.

Definition index_put (idx : Index) (id : json) (d : option stored) : Index :=
  fun i => if json_eqb i id then d else idx i.

(** The join field [rel] of a document: a parent carries the relation name,
    a child carries [{"name": .., "parent": ..}]. *)
Definition rel_name (src : json) : option string :=
  match src with
  | JObj kvs =>
      match dict_get kvs "rel" with
      | Some (JStr n) => Some n
      | Some (JObj r) => match dict_get r "name" with Some (JStr n) => Some n | _ => None end
      | _ => None
      end
  | _ => None
  end.

Definition rel_parent (src : json) : option json :=
  match src with
  | JObj kvs =>
      match dict_get kvs "rel" with
      | Some (JObj r) => dict_get r "parent"
      | _ => None
      end
  | _ => None
  end.

(** Does the stored document [d] match the query?  [has_parent] joins a
    child to a parent document that is present in the index and has the
    asked relation name. *)
Definition matches (q : query) (idx : Index) (d : stored) : bool :=
  match q with
  | TermRouting r => json_eqb (st_routing d) r
  | HasParent parent_type pid =>
      match rel_parent (st_source d) with
      | Some p =>
          json_eqb p pid &&
          match idx pid with
          | Some parent =>
              match rel_name (st_source parent) with
              | Some n => String.eqb n parent_type
              | None => false
              end
          | None => false
          end
      | None => false
      end
  end.

Definition mem_exec (r : es_request) (idx : Index) : Index * option exn :=
  match r with
  | EsIndex id document routing =>
      (index_put idx id (Some (mkStored routing document)), None)
  | EsDelete id _ =>
      match idx id with
      | Some _ => (index_put idx id None, None)
      | None => (idx, Some NotFoundError)
      end
  | EsDeleteByQuery q =>
      (fun i => match idx i with
                | Some d => if matches q idx d then None else Some d
                | None => None
                end, None)
  end.

(** A cluster that cannot be reached: every request raises the client's
    connection error and changes nothing. *)
Definition down_exec (r : es_request) (idx : Index) : Index * option exn :=
  (idx, Some ESConnError).

(** ** The worker: retry, backoff and dead-letter *)

(** Body published to the dead-letter queue:
    [{"error": str(err), "job": job}]. *)
Record dead_letter : Type := mkDeadLetter { dl_error : exn; dl_job : json }.

(** What the worker does besides calling the index, in program order. *)
Inductive effect : Type :=
| Ack (delivery_tag : Z)
| Sleep (seconds : Z)
| Republish (job : json)
| DeadLetter (d : dead_letter).

Module worker.

Import elasticsearch_service.

Definition MAX_ATTEMPTS : Z := 5.

(** The two classes named by [except (ESConnError, TransportError)]. *)
Definition is_transient (e : exn) : bool :=
  match e with
  | ESConnError | TransportError => true
  | _ => false
  end.

(** [job.get("attempt", 0) + 1]; a [bool] counts as 0 or 1, any other
    non-number cannot be added to. *)
Definition next_attempt (job : json) : result Z :=
  match py_get_default job "attempt" (JNum 0) with
  | inr (JNum n) => inr (n + 1)
  | inr (JBool b) => inr ((if b then 1 else 0) + 1)
  | inr _ => inl TypeError
  | inl e => inl e
  end.

(** [job[k] = v] *)
Definition py_setitem (job : json) (k : string) (v : json) : result json :=
  match job with
  | JObj kvs => inr (JObj (dict_set kvs k v))
  | _ => inl TypeError
  end.

(** [min(2 ** attempt, 30)], for a counter that is not negative (for a
    negative one Python computes a fraction of a second; the counter
    starts at 0 and only grows). *)
Definition backoff (attempt : Z) : Z := Z.min (2 ^ attempt) 30.

(** The job as the worker republishes it: [job["attempt"] = attempt]. *)
Definition with_attempt (fields : list (string * json)) (attempt : Z) : json :=
  JObj (dict_set fields "attempt" (JNum attempt)).

(** The effects of [retries] failing deliveries in a row, the first with
    delivery tag [tag] and counter [attempt] on arrival. *)
Fixpoint retry_effects (retries : nat) (tag attempt : Z)
         (fields : list (string * json)) : list effect :=
  match retries with
  | O => []
  | Datatypes.S k =>
      Ack tag :: Sleep (backoff (attempt + 1))
        :: Republish (with_attempt fields (attempt + 1))
        :: retry_effects k (tag + 1) (attempt + 1) fields
  end.

Section Consumer.

Context {S : Type}.
Variable es_exec : es_request -> S -> S * option exn.

Record World : Type := mkWorld {
  es : EsWorld S;
  queue : list json;            (* QUEUE, oldest first *)
  dlq : list dead_letter;       (* QUEUE.dlq *)
  effects : list effect
}.

Definition on_es {A} (m : M (EsWorld S) A) : M World A :=
  zoom es (fun v w => mkWorld v (queue w) (dlq w) (effects w)) m.

Definition emit (x : effect) (w : World) : World :=
  mkWorld (es w) (queue w) (dlq w) (effects w ++ [x]).

Definition basic_ack (delivery_tag : Z) : M World unit :=
  fun w => (emit (Ack delivery_tag) w, inr tt).

Definition sleep (seconds : Z) : M World unit :=
  fun w => (emit (Sleep seconds) w, inr tt).

Definition republish (job : json) : M World unit :=
  fun w =>
    (emit (Republish job) (mkWorld (es w) (queue w ++ [job]) (dlq w) (effects w)),
     inr tt).

Definition to_dlq (job : json) (err : exn) : M World unit :=
  fun w =>
    let d := mkDeadLetter err job in
    (emit (DeadLetter d) (mkWorld (es w) (queue w) (dlq w ++ [d]) (effects w)),
     inr tt).

(** The [if]/[elif] chain on [job.get("type")]. *)
Definition dispatch (job : json) : M (EsWorld S) unit :=
  t <- lift (py_get job "type") ;;
  if is_str t "index" then
    doc <- lift (py_item job "doc") ;;
    index_plan es_exec doc
  else if is_str t "patch" then
    id <- lift (py_item job "id") ;;
    doc <- lift (py_item job "doc") ;;
    patch_plan es_exec id doc
  else if is_str t "delete" then
    id <- lift (py_item job "id") ;;
    delete_plan_from_index es_exec id
  else raise (ValueError (UnknownJobType t)).

Definition retry_or_bury (delivery_tag : Z) (job : json) (e : exn) : M World unit :=
  attempt <- lift (next_attempt job) ;;
  job' <- lift (py_setitem job "attempt" (JNum attempt)) ;;
  basic_ack delivery_tag ;;
  if attempt <=? MAX_ATTEMPTS then
    sleep (backoff attempt) ;;
    republish job'
  else to_dlq job' e.

Definition bury (delivery_tag : Z) (job : json) (e : exn) : M World unit :=
  basic_ack delivery_tag ;;
  to_dlq job e.

(** [on_msg] after [job = json.loads(body)]. *)

Definition on_msg (delivery_tag : Z) (job : json) : M World unit :=
  try_except
    (on_es (dispatch job) ;; basic_ack delivery_tag)
    (fun _ => true)
    (fun e => if is_transient e then retry_or_bury delivery_tag job e
              else bury delivery_tag job e).

(** The world after the permanent-failure handler: the delivery is
    acknowledged and the job, as received, is on the dead-letter queue
    (also the outcome of the transient handler past the ceiling, with the
    job carrying its new counter). *)
Definition buried (tag : Z) (job : json) (e : exn) (v : EsWorld S) (w : World)
  : World :=
  mkWorld v (queue w) (dlq w ++ [mkDeadLetter e job])
    (effects w ++ [Ack tag; DeadLetter (mkDeadLetter e job)]).

(** The world after a retry: acknowledged, slept, republished. *)
Definition retried (tag : Z) (job' : json) (attempt : Z) (v : EsWorld S) (w : World)
  : World :=
  mkWorld v (queue w ++ [job']) (dlq w)
    (effects w ++ [Ack tag; Sleep (backoff attempt); Republish job']).

(** Processing the job raises one of the transient classes, whatever the
    index holds at the time. *)
Definition fails_transiently (job : json) : Prop :=
  forall v : EsWorld S, exists v' e,
    dispatch job v = (v', inl e) /\ is_transient e = true.

(** [start_consuming] with [prefetch_count=1]: deliveries are handed to
    [on_msg] one at a time, oldest first, with increasing delivery
    tags; an exception that escapes [on_msg] stops the consumer. *)
Fixpoint consume (deliveries : nat) (delivery_tag : Z) (w : World)
  : World * result unit :=
  match deliveries with
  | O => (w, inr tt)
  | Datatypes.S n =>
      match queue w with
      | [] => (w, inr tt)
      | job :: rest =>
          match on_msg delivery_tag job
                  (mkWorld (es w) rest (dlq w) (effects w)) with
          | (w', inr _) => consume n (delivery_tag + 1) w'
          | (w', inl e) => (w', inl e)
          end
      end
  end.

End Consumer.

Arguments World : clear implicits.
Arguments mkWorld {S}.
Arguments es {S}.
Arguments queue {S}.
Arguments dlq {S}.
Arguments effects {S}.

End worker.

(** ** The synchronous API layer *)

(** The system of record, the job queue as the producer sees it, and
    whether the broker can be reached. *)
Record ApiWorld : Type := mkApi {
  kv : gmap string json;
  jobs : list json;               (* bodies published to QUEUE, oldest first *)
  broker_up : bool
}.

Module redis_service.

(** [rdb.set(key, json.dumps(value, separators=(",", ":"), sort_keys=True))];
    the store is modelled by the value that decoding the text gives
    back. *)
Definition set_data (key : string) (value : json) : M ApiWorld unit :=
  fun w => (mkApi (<[key := canon value]> (kv w)) (jobs w) (broker_up w), inr tt).

(** [json.loads(raw) if raw else None] *)
Definition get_data (key : string) : M ApiWorld json :=
  fun w => (w, inr (default JNull (kv w !! key))).

(** [rdb.delete(key) > 0] *)
Definition delete_data (key : string) : M ApiWorld bool :=
  fun w =>
    (mkApi (delete key (kv w)) (jobs w) (broker_up w),
     inr (bool_decide (is_Some (kv w !! key)))).

End redis_service.

Module queue_service.

(** Opens a connection, publishes one persistent message to [QUEUE] and
    closes; raises when the broker cannot be reached. *)
Definition publish (job : json) : M ApiWorld unit :=
  fun w =>
    if broker_up w then (mkApi (kv w) (jobs w ++ [job]) (broker_up w), inr tt)
    else (w, inl AMQPError).

End queue_service.

(** What the handlers read from the Flask request. *)
Record request : Type := mkRequest {
  get_json : json;                (* [request.get_json()], [JNull] for None *)
  if_match : option string        (* [request.headers.get("If-Match")] *)
}.

Inductive resp_body : Type :=
| Empty                                          (* "" *)
| Message (message : string)                     (* {"message": ..} *)
| MessageErrors (message : string) (errors : json)
| MessageError (message : string) (error : exn)  (* .., "error": str(e) *)
| Created (message : string) (objectId : string)
| Patched (planId : string) (applied : list json).

Record response : Type := mkResponse {
  status : Z;
  body : resp_body;
  etag : option string            (* the [ETag] header *)
}.

Module plan_controller.

Import redis_service queue_service.

Section Handlers.

(** [hashlib.md5(..).hexdigest()] *)
Variable md5_hexdigest : string -> string.

(** [validate_schema(plan_schema, data)] from [utils.schema_validator]
    and [constants.schema]: whether the data is valid, and the errors
    reported when it is not. *)
Variable validate_schema : json -> bool * json.

Definition _key (object_id : string) : string := "plan_" ++ object_id.

Definition _publish_safe (job : json) : M ApiWorld (option response) :=
  try_except
    (publish job ;; ret None)
    (fun _ => true)
    (fun e => ret (Some (mkResponse 503 (MessageError "Queue unavailable" e) None))).

(** [h and h != digest] for the [If-Match] header. *)
Definition stale (h : option string) (digest : string) : bool :=
  match h with
  | Some s => negb (String.eqb s "") && negb (String.eqb s digest)
  | None => false
  end.

Definition put_plan (object_id : string) (req : request) : M ApiWorld response :=
  let payload := py_or (get_json req) (JObj []) in
  let (valid, error) := validate_schema payload in
  if negb valid then ret (mkResponse 400 (MessageErrors "Invalid data" error) None)
  else
    existing <- get_data (_key object_id) ;;
    if truthy existing && stale (if_match req) (_etag md5_hexdigest existing)
    then ret (mkResponse 412 (Message "Resource changed") None)
    else
      set_data (_key object_id) payload ;;
      err <- _publish_safe
               (JObj [("type", JStr "index"); ("id", JStr object_id);
                      ("doc", payload)]) ;;
      match err with
      | Some r => ret r
      | None =>
          ret (mkResponse 201 (Created "Plan created successfully" object_id)
                 (Some (_etag md5_hexdigest payload)))
      end.

(** One pass of the loop over [updates.get("linkedPlanServices", [])]:
    extends [child_ops] and [applied]. *)
Definition summarize_child (object_id : string) (type_ : string) (x : json)
           (acc : list json * list json) : result (list json * list json) :=
  match py_get x "objectId" with
  | inl e => inl e
  | inr oid =>
      if truthy oid then
        match py_item x "objectId", py_splat x with
        | inr id, inr fields =>
            inr ((fst acc ++
                    [JObj [("type", JStr type_); ("parentId", JStr object_id);
                           ("id", id); ("doc", x)]])%list,
                 (snd acc ++
                    [JObj (dict_merge [("type", JStr type_)] fields)])%list)
        | inl e, _ => inl e
        | _, inl e => inl e
        end
      else inr acc
  end.

Definition summarize_item (object_id : string) (item : json)
           (acc : list json * list json) : result (list json * list json) :=
  match py_get item "linkedService" with
  | inl e => inl e
  | inr svc =>
      match summarize_child object_id "linkedService" (py_or svc (JObj [])) acc with
      | inl e => inl e
      | inr acc' =>
          match py_get item "planserviceCostShares" with
          | inl e => inl e
          | inr cost =>
              summarize_child object_id "planserviceCostShares"
                (py_or cost (JObj [])) acc'
          end
      end
  end.

Fixpoint summarize_items (object_id : string) (items : list json)
         (acc : list json * list json) : result (list json * list json) :=
  match items with
  | [] => inr acc
  | item :: rest =>
      match summarize_item object_id item acc with
      | inl e => inl e
      | inr acc' => summarize_items object_id rest acc'
      end
  end.

(** [{"type": "plan", fld: updates[fld]}] for each plan-level field
    present in [updates]. *)
Definition plan_level_applied (updates : list (string * json)) : list json :=
  flat_map
    (fun fld => match dict_get updates fld with
                | Some v => [JObj (dict_set [("type", JStr "plan")] fld v)]
                | None => []
                end)
    ["planType"; "_org"; "creationDate"].

Definition patch_plan (object_id : string) (req : request) : M ApiWorld response :=
  let key := _key object_id in
  existing <- get_data key ;;
  if negb (truthy existing) then ret (mkResponse 404 (Message "Not found") None)
  else if stale (if_match req) (_etag md5_hexdigest existing)
  then ret (mkResponse 412 (Message "Resource changed") None)
  else
    let updates := py_or (get_json req) (JObj []) in
    old <- lift (py_splat existing) ;;
    upd <- lift (py_items updates) ;;
    let merged :=
      dict_merge old
        (List.filter (fun kv => negb (String.eqb (fst kv) "linkedPlanServices")) upd) in
    let merged :=
      match dict_get upd "linkedPlanServices" with
      | Some v => dict_set merged "linkedPlanServices" v
      | None => merged
      end in
    let (valid, error) := validate_schema (JObj merged) in
    if negb valid then ret (mkResponse 400 (MessageErrors "Invalid data" error) None)
    else
      set_data key (JObj merged) ;;
      services <- lift (py_get_default updates "linkedPlanServices" (JArr [])) ;;
      items <- lift (py_iter services) ;;
      ops <- lift (summarize_items object_id items ([], plan_level_applied upd)) ;;
      let job :=
        JObj [("type", JStr "patch"); ("id", JStr object_id);
              ("plan_doc",
               JObj (pick_fields ["planType"; "_org"; "creationDate"] upd));
              ("child_ops", JArr (fst ops))] in
      err <- _publish_safe job ;;
      match err with
      | Some r => ret r
      | None =>
          ret (mkResponse 200 (Patched object_id (snd ops))
                 (Some (_etag md5_hexdigest (JObj merged))))
      end.

Definition delete_plan (object_id : string) : M ApiWorld response :=
  let key := _key object_id in
  stored_doc <- get_data key ;;
  let existed := truthy stored_doc in
  delete_data key ;;
  err <- _publish_safe (JObj [("type", JStr "delete"); ("id", JStr object_id)]) ;;
  match err with
  | Some r => ret r
  | None =>
      if negb existed then ret (mkResponse 404 (Message "Plan not found") None)
      else ret (mkResponse 202 Empty None)
  end.

End Handlers.

End plan_controller.

(** ** Sample data for the worked examples *)

(** Any function can stand for the digest; the examples take the text
    itself, so that different canonical texts have different digests. *)
Definition sample_digest (s : string) : string := s.

(** A validator that rejects data without an [objectId]; it stands for
    [plan_schema], which is not among the sources. *)
Definition sample_validate (data : json) : bool * json :=
  match data with
  | JObj kvs =>
      if dict_has kvs "objectId" then (true, JNull)
      else (false, JStr "'objectId' is a required property")
  | _ => (false, JStr "not an object")
  end.

Definition sample_plan : json :=
  JObj [("objectId", JStr "p1"); ("_org", JStr "example.com");
        ("planType", JStr "inNetwork");
        ("planCostShares",
         JObj [("objectId", JStr "c1"); ("copay", JNum 23)]);
        ("linkedPlanServices",
         JArr [JObj [("linkedService", JObj [("objectId", JStr "s1")]);
                     ("planserviceCostShares",
                      JObj [("objectId", JStr "sc1"); ("copay", JNum 0)])]])].

(** The record of the scenario: no plan-level field, one linked service. *)
Definition bare_plan : json :=
  JObj [("objectId", JStr "p1");
        ("linkedPlanServices",
         JArr [JObj [("linkedService", JObj [("objectId", JStr "s1")])]])].

(** A worker that has just received one [delete] job while the cluster is
    unreachable. *)
Definition delete_job : list (string * json) :=
  [("type", JStr "delete"); ("id", JStr "p1")].

Definition fresh_world (job : json) : worker.World Index :=
  worker.mkWorld (elasticsearch_service.mkEsWorld empty_index []) [job] [] [].

(** A store holding [sample_plan] under the key of id [p1], and a request
    whose body has no [objectId] and whose [If-Match] is not the record's
    digest. *)
Definition sample_store : ApiWorld :=
  mkApi (<[plan_controller._key "p1" := sample_plan]> ∅) [] true.

Definition stale_invalid_put : request :=
  mkRequest (JObj [("planType", JStr "inNetwork")]) (Some "0123456789abcdef").

(** ** Properties of the requests a computation issues *)

(** [plan_doc.get("objectId")] when [plan_doc] is a dict. *)
Definition record_id (plan_doc : json) : json :=
  match plan_doc with
  | JObj kvs => default JNull (dict_get kvs "objectId")
  | _ => JNull
  end.

Definition child_relations : list string :=
  ["planCostShares"; "linkedPlanServices"; "planserviceCostShares"].

(** [r] writes a child document of [plan_id]: its routing value is
    [plan_id] and its join field names [plan_id] as the parent. *)
Definition child_upsert_of (plan_id : json) (r : es_request) : Prop :=
  exists child_id payload rel,
    r = EsIndex child_id (JObj payload) plan_id /\
    dict_get payload "rel" = Some (JObj [("name", JStr rel); ("parent", plan_id)]) /\
    In rel child_relations.

(** [p] is what [_upsert_parent] issues: nothing, or one write of the
    document [plan_id] routed to itself. *)
Definition parent_upsert_of (plan_id : json) (p : list es_request) : Prop :=
  p = [] \/ exists doc, p = [EsIndex plan_id doc plan_id].

(** Every request the computation issues, from any world and whether it
    returns or raises, satisfies [P]. *)
Definition emits {S A} (P : es_request -> Prop)
           (m : M (elasticsearch_service.EsWorld S) A) : Prop :=
  forall w, exists c,
    elasticsearch_service.es_calls (fst (m w))
    = (elasticsearch_service.es_calls w ++ c)%list /\ Forall P c.

(** ** The fan-out of a record, read off the record *)

Definition plan_level_fields : list string := ["_org"; "planType"; "creationDate"].

Definition parent_tags : list string := ["objectId"; "objectType"; "rel"].

(** A value that [x or {}] followed by [.get] accepts: a dict, or anything
    falsy. *)
Definition sub_document (x : json) : bool :=
  match x with
  | JObj _ => true
  | _ => negb (truthy x)
  end.

Definition item_shaped (item : json) : bool :=
  match item with
  | JObj fields =>
      sub_document (default JNull (dict_get fields "linkedService")) &&
      sub_document (default JNull (dict_get fields "planserviceCostShares"))
  | _ => false
  end.

(** The shape of a record that went through schema validation, as far as
    the indexer looks at it: the cost share is an object (or absent), the
    linked services are a list (or absent) of objects whose service and
    cost share are objects (or absent). *)
Definition plan_shaped (kvs : list (string * json)) : bool :=
  sub_document (default JNull (dict_get kvs "planCostShares")) &&
  match default (JArr []) (dict_get kvs "linkedPlanServices") with
  | JArr items => forallb item_shaped items
  | x => negb (truthy x)
  end.

(** A child is identified when it is an object with a truthy [objectId];
    it is listed with the relation it is indexed under. *)
Definition identified (rel : string) (x : json)
  : list (string * list (string * json)) :=
  match x with
  | JObj fields =>
      if truthy (default JNull (dict_get fields "objectId")) then [(rel, fields)]
      else []
  | _ => []
  end.

Definition identified_in_item (item : json) : list (string * list (string * json)) :=
  match item with
  | JObj fields =>
      (identified "linkedPlanServices" (default JNull (dict_get fields "linkedService")) ++
       identified "planserviceCostShares"
         (default JNull (dict_get fields "planserviceCostShares")))%list
  | _ => []
  end.

(** The identified children of a record: the cost share, then for each
    linked-service entry its service and its cost share. *)
Definition identified_children (kvs : list (string * json))
  : list (string * list (string * json)) :=
  (identified "planCostShares" (default JNull (dict_get kvs "planCostShares")) ++
   flat_map identified_in_item
     (match default (JArr []) (dict_get kvs "linkedPlanServices") with
      | JArr items => items
      | _ => []
      end))%list.

(** The write of one identified child of [plan_id]. *)
Definition child_request (plan_id : json) (c : string * list (string * json))
  : es_request :=
  EsIndex (default JNull (dict_get (snd c) "objectId"))
    (JObj (dict_merge (snd c)
             [("rel", JObj [("name", JStr (fst c)); ("parent", plan_id)])]))
    plan_id.

(** The computation returns [a] from any world after issuing exactly the
    requests [c]. *)
Definition runs {S A} (m : M (elasticsearch_service.EsWorld S) A) (a : A)
           (c : list es_request) : Prop :=
  forall w, exists v,
    m w = (v, inr a) /\
    elasticsearch_service.es_calls v = (elasticsearch_service.es_calls w ++ c)%list.

(** ** Replaying requests on the in-memory index *)

Definition apply_all (c : list es_request) (idx : Index) : Index :=
  fold_left (fun s r => fst (mem_exec r s)) c idx.

Definition is_upsert (r : es_request) : Prop :=
  match r with EsIndex _ _ _ => True | _ => False end.

(** The document the writes in [c] leave under [id], if any of them writes
    [id]: the last one wins. *)
Fixpoint written (c : list es_request) (id : json) : option stored :=
  match c with
  | [] => None
  | r :: rest =>
      match written rest id with
      | Some d => Some d
      | None =>
          match r with
          | EsIndex i document routing =>
              if json_eqb id i then Some (mkStored routing document) else None
          | _ => None
          end
      end
  end.

(** On the in-memory index the computation issues the same writes [c] and
    ends the same way from every world. *)
Definition uniform {A} (m : M (elasticsearch_service.EsWorld Index) A) : Prop :=
  exists c res,
    Forall is_upsert c /\
    forall w,
      m w = (elasticsearch_service.mkEsWorld
               (apply_all c (elasticsearch_service.es_state w))
               (elasticsearch_service.es_calls w ++ c)%list,
             res).

(** A PATCH of [planType] on the stored [sample_plan], without [If-Match]. *)
Definition sample_patch : request :=
  mkRequest (JObj [("planType", JStr "outOfNetwork")]) None.

Definition sample_patch_job : json :=
  JObj [("type", JStr "patch"); ("id", JStr "p1");
        ("plan_doc", JObj [("planType", JStr "outOfNetwork")]);
        ("child_ops", JArr [])].

(** ** The remaining handlers of the controller *)

(** A response in full: the status, the body handed to [jsonify] (or no
    body), and the headers the handler sets. *)
Inductive reply_body : Type :=
| NoBody                                         (* "" *)
| JsonBody (j : json)                            (* jsonify(j) *)
| ErrorBody (message : string) (error : exn).    (* {"message": .., "error": str(e)} *)

Record reply : Type := mkReply {
  reply_status : Z;
  reply_content : reply_body;
  reply_headers : list (string * string)
}.

(** The same response written as a [reply]. *)
Definition reply_of (r : response) : reply :=
  mkReply (status r)
    (match body r with
     | Empty => NoBody
     | Message m => JsonBody (JObj [("message", JStr m)])
     | MessageErrors m errors =>
         JsonBody (JObj [("message", JStr m); ("errors", errors)])
     | MessageError m e => ErrorBody m e
     | Created m object_id =>
         JsonBody (JObj [("message", JStr m); ("objectId", JStr object_id)])
     | Patched plan_id applied =>
         JsonBody (JObj [("planId", JStr plan_id); ("applied", JArr applied)])
     end)
    (match etag r with Some e => [("ETag", e)] | None => [] end).

Module plan_handlers.

Import redis_service queue_service.

Section Handlers.

Variable md5_hexdigest : string -> string.
Variable validate_schema : json -> bool * json.

(** [repr] of a list or a dict, which is what an f-string prints for
    them. *)
Variable container_repr : json -> string.

(** [f"{v}"] *)
Definition py_str (v : json) : string :=
  match v with
  | JNull => "None"
  | JBool true => "True"
  | JBool false => "False"
  | JNum n => pretty n
  | JStr s => s
  | _ => container_repr v
  end.

(** [create_plan] of [controllers/plan_controller.py]; [body] is
    [request.get_json()]. *)
Definition create_plan (body : json) : M ApiWorld reply :=
  let data := py_or body (JObj []) in
  let (valid, error) := validate_schema data in
  if negb valid then
    ret (mkReply 400
           (JsonBody (JObj [("message", JStr "Invalid data"); ("errors", error)])) [])
  else
    object_id <- lift (py_get data "objectId") ;;
    if negb (truthy object_id) then
      ret (mkReply 400 (JsonBody (JObj [("message", JStr "objectId is required")])) [])
    else
      let key := plan_controller._key (py_str object_id) in
      set_data key data ;;
      err <- plan_controller._publish_safe
               (JObj [("type", JStr "index"); ("id", object_id); ("doc", data)]) ;;
      match err with
      | Some r => ret (reply_of r)
      | None =>
          ret (mkReply 201
                 (JsonBody (JObj [("message", JStr "Plan created successfully");
                                  ("objectId", object_id)]))
                 [("ETag", _etag md5_hexdigest data);
                  ("Location", "/api/v1/plan/" ++ py_str object_id)])
      end.

(** [get_plan] of [controllers/plan_controller.py]; [if_none_match] is
    [request.headers.get("If-None-Match")]. *)
Definition get_plan (object_id : string) (if_none_match : option string)
  : M ApiWorld reply :=
  data <- get_data (plan_controller._key object_id) ;;
  if negb (truthy data) then
    ret (mkReply 404 (JsonBody (JObj [("message", JStr "Not found")])) [])
  else
    let etag := _etag md5_hexdigest data in
    if match if_none_match with Some h => String.eqb h etag | None => false end
    then ret (mkReply 304 NoBody [])
    else ret (mkReply 200 (JsonBody data) [("ETag", etag)]).

End Handlers.

End plan_handlers.

(** Whether the items are in key order. *)
Fixpoint keys_sorted {A} (l : list (string * A)) : bool :=
  match l with
  | [] => true
  | x :: r =>
      match r with
      | [] => true
      | y :: _ => key_le (fst x) (fst y) && keys_sorted r
      end
  end.

(** ** Requests and their outcomes *)

(** Send the requests in order until one raises: the state reached, the
    exception if any, and the requests that were not sent. *)
Fixpoint replay {S} (es_exec : es_request -> S -> S * option exn)
         (c : list es_request) (s : S) : S * option exn * list es_request :=
  match c with
  | [] => (s, None, [])
  | r :: rest =>
      let (s', failure) := es_exec r s in
      match failure with
      | Some e => (s', Some e, rest)
      | None => replay es_exec rest s'
      end
  end.

(** The computation sends its requests one after the other and stops at
    the first one that raises, raising the same exception: the requests it
    issued, replayed from the state it started in, all run (none is left
    unsent), reach the state it ended in, and a failure among them is the
    computation's own. *)
Definition fail_fast {S A} (es_exec : es_request -> S -> S * option exn)
           (m : M (elasticsearch_service.EsWorld S) A) : Prop :=
  forall w, exists c failure,
    elasticsearch_service.es_calls (fst (m w))
    = (elasticsearch_service.es_calls w ++ c)%list /\
    replay es_exec c (elasticsearch_service.es_state w)
    = (elasticsearch_service.es_state (fst (m w)), failure, []) /\
    forall e, failure = Some e -> snd (m w) = inl e.

(** [r] writes a document with routing value [plan_id]. *)
Definition routed_to (plan_id : json) (r : es_request) : Prop :=
  exists id document, r = EsIndex id document plan_id.

(** An index that already holds one document of another plan. *)
Definition other_index : Index :=
  index_put empty_index (JStr "x1")
    (Some (mkStored (JStr "q1") (JObj [("objectId", JStr "x1")]))).

(** A linked service of plan [p1] as [index_plan] writes it: the join
    relation names [p1] as the parent and the document is routed to [p1]. *)
Definition routed_child : stored :=
  mkStored (JStr "p1")
    (JObj [("objectId", JStr "s1");
           ("rel", JObj [("name", JStr "linkedPlanServices");
                         ("parent", JStr "p1")])]).

(** The same document written by someone else with another routing key. *)
Definition misrouted_child : stored :=
  mkStored (JStr "q1") (st_source routed_child).

Definition plan_document : stored :=
  mkStored (JStr "p1")
    (JObj [("objectId", JStr "p1"); ("objectType", JStr "plan");
           ("rel", JStr "plan"); ("_org", JStr "example.com")]).

(** Plan [p1] with its linked service, beside the unrelated [x1]. *)
Definition family_index : Index :=
  index_put (index_put other_index (JStr "p1") (Some plan_document))
    (JStr "s1") (Some routed_child).

(** No document [p1]; the linked service alone, routed to [q1]. *)
Definition misrouted_index : Index :=
  index_put empty_index (JStr "s1") (Some misrouted_child).

(** ** Authentication in front of the handlers *)

Module auth.

(** What [_verify_google_jwt] can raise, by the [except] clause of
    [require_auth] that catches it: the three JWT errors with a clause of
    their own, any other [PyJWTError], a [requests.RequestException] from
    the key download, anything else. *)
Inductive verify_error : Type :=
| RequestException
| ExpiredSignatureError
| InvalidAudienceError
| InvalidIssuerError
| OtherJWTError
| OtherException.

(** The answer of the decorator: a refusal built by the decorator itself
    ([{"error": True, "message": .., "detail": str(e)}], the detail being
    the exception it caught), or the user it stored in [g.user] and the
    answer of the handler. *)
Inductive outcome (R : Type) : Type :=
| Denied (status : Z) (message : string) (detail : option (verify_error + exn))
| Passed (user : json) (response : R).

Arguments Denied {R}.
Arguments Passed {R}.

(** [str.isspace] on the 8-bit code points. *)
Definition is_space (c : ascii) : bool :=
  let n := N_of_ascii c in
  ((9 <=? n) && (n <=? 13) || (28 <=? n) && (n <=? 32) || (n =? 133) || (n =? 160))%N.

Fixpoint lstrip (s : string) : string :=
  match s with
  | String c r => if is_space c then lstrip r else s
  | EmptyString => EmptyString
  end.

(** Drop the trailing white space. *)
Fixpoint rstrip (s : string) : string :=
  match s with
  | EmptyString => EmptyString
  | String c r =>
      match rstrip r with
      | EmptyString => if is_space c then EmptyString else String c EmptyString
      | r' => String c r'
      end
  end.

(** [s.strip()] *)
Definition py_strip (s : string) : string := rstrip (lstrip s).

(** [s.split(" ", 1)[1]] when [s] has a space. *)
Fixpoint after_first_space (s : string) : option string :=
  match s with
  | EmptyString => None
  | String c r => if Ascii.eqb c " " then Some r else after_first_space r
  end.

Definition demo_user : json :=
  JObj [("sub", JStr "demo"); ("iss", JStr "local"); ("aud", JStr "demo");
        ("scopes", JArr [JStr "*"])].

Section Decorator.

(** [os.getenv("API_BEARER_TOKEN")] *)
Variable DEMO_BEARER : option string.

(** The outcome of [_verify_google_jwt(token)]: the claims, or the class of
    the exception it raised. *)
Variable _verify_google_jwt : string -> verify_error + json.

(** The token read from the [Authorization] header; the header starts
    with ["Bearer "] where this is used, so the split has a second part. *)
Definition bearer_token (authorization : string) : string :=
  py_strip (default ""%string (after_first_space authorization)).

(** [DEMO_BEARER and token == DEMO_BEARER] *)
Definition is_demo (token : string) : bool :=
  match DEMO_BEARER with
  | Some d => negb (String.eqb d "") && String.eqb token d
  | None => false
  end.

(** The [except] clauses after the call of [_verify_google_jwt]. *)
Definition refuse {R} (e : verify_error) : outcome R :=
  match e with
  | RequestException => Denied 503 "IdP unavailable" (Some (inl e))
  | ExpiredSignatureError => Denied 401 "Token expired" None
  | InvalidAudienceError => Denied 401 "Invalid audience" None
  | InvalidIssuerError => Denied 401 "Invalid issuer" None
  | OtherJWTError => Denied 401 "Invalid token" (Some (inl e))
  | OtherException => Denied 401 "Auth error" (Some (inl e))
  end.

(** [require_auth(fn)] called with the request's [Authorization] header
    ([""] when absent).  On the demo path the handler runs outside the
    [try]; on the verified path it runs inside it, so an exception of the
    handler is caught by the last clause. *)
Definition require_auth {R} (fn : M ApiWorld R) (authorization : string)
  : M ApiWorld (outcome R) :=
  if negb (String.prefix "Bearer " authorization) then
    ret (Denied 401 "Missing bearer token" None)
  else
    let token := bearer_token authorization in
    if is_demo token then
      fun w => match fn w with
               | (w', inr r) => (w', inr (Passed demo_user r))
               | (w', inl e) => (w', inl e)
               end
    else
      match _verify_google_jwt token with
      | inl e => ret (refuse e)
      | inr claims =>
          fun w => match fn w with
                   | (w', inr r) => (w', inr (Passed claims r))
                   | (w', inl e) =>
                       (w', inr (Denied 401 "Auth error" (Some (inr e))))
                   end
      end.

End Decorator.

End auth.

(** The five routes of [routes/plan_routes.py]: each handler behind
    [require_auth]. *)
Module plan_routes.

Section Routes.

Variable md5_hexdigest : string -> string.
Variable validate_schema : json -> bool * json.
Variable container_repr : json -> string.
Variable DEMO_BEARER : option string.
Variable _verify_google_jwt : string -> auth.verify_error + json.

Definition create (body : json) :=
  auth.require_auth DEMO_BEARER _verify_google_jwt
    (plan_handlers.create_plan md5_hexdigest validate_schema container_repr body).

Definition get_ (object_id : string) (if_none_match : option string) :=
  auth.require_auth DEMO_BEARER _verify_google_jwt
    (plan_handlers.get_plan md5_hexdigest object_id if_none_match).

Definition put_ (object_id : string) (req : request) :=
  auth.require_auth DEMO_BEARER _verify_google_jwt
    (plan_controller.put_plan md5_hexdigest validate_schema object_id req).

Definition patch_ (object_id : string) (req : request) :=
  auth.require_auth DEMO_BEARER _verify_google_jwt
    (plan_controller.patch_plan md5_hexdigest validate_schema object_id req).

Definition delete_ (object_id : string) :=
  auth.require_auth DEMO_BEARER _verify_google_jwt
    (plan_controller.delete_plan object_id).

End Routes.

End plan_routes.

(** ** Index set-up *)

(** The calls on [ES.indices]; the index is [INDEX] and the alias [ALIAS]
    throughout.  [IndicesPutAlias] is made with [ignore=[400, 404]]. *)
Inductive admin_request : Type :=
| IndicesExists
| IndicesCreate (body : json)
| IndicesPutAlias.

Module index_setup.

Section Client.

(** The cluster as the set-up code sees it: a request changes its state
    and returns (for [IndicesExists], whether the index exists) or
    raises. *)
Context {A : Type}.
Variable admin_exec : admin_request -> A -> A * result bool.

Record AdminWorld : Type := mkAdminWorld {
  admin_state : A;
  admin_calls : list admin_request
}.

Definition admin_call (r : admin_request) : M AdminWorld bool :=
  fun w =>
    let (s', res) := admin_exec r (admin_state w) in
    ({| admin_state := s'; admin_calls := admin_calls w ++ [r] |}, res).

Definition _ensure_alias : M AdminWorld unit :=
  admin_call IndicesPutAlias ;; ret tt.

(** The [body] of [ES.indices.create]. *)
Definition index_body : json :=
  JObj [("settings",
         JObj [("index", JObj [("number_of_shards", JNum 1);
                               ("number_of_replicas", JNum 0)])]);
        ("mappings",
         JObj [("properties",
                JObj [("rel",
                       JObj [("type", JStr "join");
                             ("relations",
                              JObj [("plan",
                                     JArr [JStr "planCostShares";
                                           JStr "linkedPlanServices";
                                           JStr "planserviceCostShares"])]);
                             ("eager_global_ordinals", JBool true)]);
                      ("_org", JObj [("type", JStr "keyword")]);
                      ("objectId", JObj [("type", JStr "keyword")]);
                      ("objectType", JObj [("type", JStr "keyword")]);
                      ("planType", JObj [("type", JStr "keyword")]);
                      ("creationDate",
                       JObj [("type", JStr "date");
                             ("format",
                              JStr "yyyy-MM-dd||strict_date_optional_time")]);
                      ("name", JObj [("type", JStr "text")]);
                      ("copay", JObj [("type", JStr "float")]);
                      ("deductible", JObj [("type", JStr "float")])])])].

Definition ensure_index : M AdminWorld unit :=
  present <- admin_call IndicesExists ;;
  if present then _ensure_alias
  else
    admin_call (IndicesCreate index_body) ;;
    _ensure_alias.

End Client.

Arguments AdminWorld : clear implicits.
Arguments mkAdminWorld {A}.
Arguments admin_state {A}.
Arguments admin_calls {A}.

End index_setup.

(** A cluster reduced to what the set-up asks about: whether the index
    exists and whether it has the alias.  Creating an index that exists is
    refused; adding the alias to a missing index answers 404, which the
    call ignores. *)
Record cluster : Type := mkCluster { has_index : bool; has_alias : bool }.

Definition cluster_exec (r : admin_request) (c : cluster) : cluster * result bool :=
  match r with
  | IndicesExists => (c, inr (has_index c))
  | IndicesCreate _ =>
      if has_index c then (c, inl TransportError)
      else (mkCluster true false, inr true)
  | IndicesPutAlias =>
      if has_index c then (mkCluster true true, inr true) else (c, inr false)
  end.

(** ** Reading several keys *)

Module redis_reads.

(** [rdb.exists(key) == 1] *)
Definition exists_ (key : string) : M ApiWorld bool :=
  fun w => (w, inr (bool_decide (is_Some (kv w !! key)))).

(** [mget]: [rdb.mget(keys)] answers with one value per key, in order, and
    the comprehension over [zip(keys, vals)] builds the dict (a key listed
    twice is set twice). *)
Definition mget (keys : list string) : M ApiWorld (list (string * json)) :=
  fun w =>
    let vals := map (fun k => kv w !! k) keys in
    (w, inr (fold_left
               (fun acc kv0 => dict_set acc (fst kv0) (default JNull (snd kv0)))
               (combine keys vals) [])).

End redis_reads.
Example dumps_sorted_ex :
  dumps_sorted (JObj [("b", JNum 2); ("a", JArr [JStr "x"; JNull])])
  = "{" ++ dquote ++ "a" ++ dquote ++ ": [" ++ dquote ++ "x" ++ dquote
    ++ ", null], " ++ dquote ++ "b" ++ dquote ++ ": 2}".
Proof. vm_compute. reflexivity. Qed.

(** ** Facts about key order and sorting *)

Section KeyOrder.

Lemma key_le_total a b : key_le a b = true \/ key_le b a = true.
Proof. apply String.leb_total. Qed.

Lemma key_le_antisym a b : key_le a b = true -> key_le b a = true -> a = b.
Proof. apply String.leb_antisym. Qed.

Lemma string_compare_lt_trans a : forall b c,
  String.compare a b = Lt -> String.compare b c = Lt -> String.compare a c = Lt.
Proof.
  induction a as [|x a IH]; intros [|y b] [|z c]; simpl; try congruence.
  unfold Ascii.compare.
  destruct (N.compare_spec (N_of_ascii x) (N_of_ascii y)) as [Exy|Lxy|Gxy];
    destruct (N.compare_spec (N_of_ascii y) (N_of_ascii z)) as [Eyz|Lyz|Gyz];
    try congruence; intros H1 H2.
  - rewrite Exy, Eyz, N.compare_refl. eauto.
  - rewrite Exy. now apply N.compare_lt_iff in Lyz as ->.
  - rewrite <- Eyz. now apply N.compare_lt_iff in Lxy as ->.
  - assert (N_of_ascii x < N_of_ascii z)%N as Hlt by lia.
    now apply N.compare_lt_iff in Hlt as ->.
Qed.

Lemma key_le_trans a b c :
  key_le a b = true -> key_le b c = true -> key_le a c = true.
Proof.
  unfold key_le, String.leb.
  destruct (String.compare a b) eqn:Hab; try discriminate;
    destruct (String.compare b c) eqn:Hbc; try discriminate; intros _ _.
  - apply String.compare_eq_iff in Hab. subst a. now rewrite Hbc.
  - apply String.compare_eq_iff in Hab. subst a. now rewrite Hbc.
  - apply String.compare_eq_iff in Hbc. subst c. now rewrite Hab.
  - now rewrite (string_compare_lt_trans _ _ _ Hab Hbc).
Qed.

Context {A : Type}.
Implicit Types (kv : string * A) (l : list (string * A)).

(** Inserting two items with different keys commutes, whatever the list. *)
Lemma insert_item_comm a b l :
  fst a <> fst b ->
  insert_item a (insert_item b l) = insert_item b (insert_item a l).
Proof.
  intros Hne. induction l as [|x r IH]; simpl.
  - destruct (key_le (fst a) (fst b)) eqn:Hab, (key_le (fst b) (fst a)) eqn:Hba;
      try reflexivity.
    + exfalso. eauto using key_le_antisym.
    + destruct (key_le_total (fst a) (fst b)); congruence.
  - destruct (key_le (fst b) (fst x)) eqn:Hbx, (key_le (fst a) (fst x)) eqn:Hax;
      simpl; rewrite ?Hbx, ?Hax.
    + destruct (key_le (fst a) (fst b)) eqn:Hab, (key_le (fst b) (fst a)) eqn:Hba;
        rewrite ?Hbx, ?Hax; try reflexivity.
      * exfalso. eauto using key_le_antisym.
      * destruct (key_le_total (fst a) (fst b)); congruence.
    + destruct (key_le (fst a) (fst b)) eqn:Hab.
      * rewrite (key_le_trans _ _ _ Hab Hbx) in Hax. discriminate.
      * simpl; rewrite ?Hax, ?Hbx; reflexivity.
    + destruct (key_le (fst b) (fst a)) eqn:Hba.
      * rewrite (key_le_trans _ _ _ Hba Hax) in Hbx. discriminate.
      * simpl; rewrite ?Hax, ?Hbx; reflexivity.
    + now rewrite IH.
Qed.

Lemma insert_item_perm a l : Permutation (insert_item a l) (a :: l).
Proof.
  induction l as [|x r IH]; simpl; [reflexivity|].
  destruct (key_le (fst a) (fst x)); [reflexivity|].
  rewrite IH. apply perm_swap.
Qed.

Lemma sort_items_perm l : Permutation (sort_items l) l.
Proof.
  induction l as [|x r IH]; simpl; [reflexivity|].
  rewrite insert_item_perm. now constructor.
Qed.

(** The sorted order of a dictionary's items does not depend on the order
    in which they were inserted. *)
Lemma sort_items_order_free l l' :
  NoDup (map fst l) -> Permutation l l' -> sort_items l = sort_items l'.
Proof.
  intros Hnd Hp. induction Hp as [|x l l' Hp IH|x y l|l l' l'' Hp1 IH1 Hp2 IH2]; simpl.
  - reflexivity.
  - inversion Hnd; subst. now rewrite IH.
  - apply insert_item_comm. simpl in Hnd.
    apply NoDup_cons in Hnd as [Hnot _].
    intros Heq. apply Hnot. rewrite Heq. apply elem_of_cons. now left.
  - rewrite IH1 by assumption. apply IH2.
    now rewrite <- Hp1.
Qed.

End KeyOrder.

(** Rendering the values and then ordering the items gives what ordering
    the items and then rendering the values gives: the order looks at the
    keys only. *)
Lemma sort_items_map {A B} (f : A -> B) (l : list (string * A)) :
  sort_items (map (fun kv => (fst kv, f (snd kv))) l)
  = map (fun kv => (fst kv, f (snd kv))) (sort_items l).
Proof.
  induction l as [|kv r IH]; simpl; [reflexivity|]. rewrite IH.
  generalize (sort_items r) as s. intros s.
  induction s as [|x s IHs]; simpl; [reflexivity|].
  destruct (key_le (fst kv) (fst x)); simpl; [reflexivity|]. now rewrite IHs.
Qed.

Lemma wf_json_arr l : wf_json (JArr l) <-> Forall wf_json l.
Proof.
  simpl. induction l as [|x r IH]; [now split|].
  rewrite Forall_cons, <- IH. reflexivity.
Qed.

Lemma wf_json_obj kvs :
  wf_json (JObj kvs) <-> NoDup (map fst kvs) /\ Forall (fun kv => wf_json (snd kv)) kvs.
Proof.
  simpl. apply and_iff_compat_l.
  induction kvs as [|x r IH]; [now split|].
  rewrite Forall_cons, <- IH. reflexivity.
Qed.

Lemma dumps_sorted_reordered :
  forall r r', reordered r r' -> wf_json r -> dumps_sorted r = dumps_sorted r'.
Proof.
  fix IH 3. intros r r' H.
  destruct H as [v | l l' HF | kvs mid kvs' HF HP]; intros Hwf.
  - reflexivity.
  - apply wf_json_arr in Hwf. simpl. do 3 f_equal.
    induction HF as [|x y l l' Hxy HF IHF]; [reflexivity|].
    apply Forall_cons in Hwf as [Hx Hl]. simpl. f_equal; auto.
  - apply wf_json_obj in Hwf as [Hnd Hall]. simpl. do 4 f_equal.
    assert (map (fun kv => (fst kv, dumps_sorted (snd kv))) kvs
            = map (fun kv => (fst kv, dumps_sorted (snd kv))) mid) as Hmid.
    { clear Hnd HP. induction HF as [|x y l l' [Hk Hxy] HF IHF]; [reflexivity|].
      apply Forall_cons in Hall as [Hx Hl]. simpl. f_equal; auto.
      rewrite Hk. f_equal. auto. }
    apply sort_items_order_free.
    + now rewrite map_map.
    + rewrite Hmid. now apply Permutation_map.
Qed.


(** ** Fingerprint *)

(** C9. The fingerprint is a function of the record's content only: two
    copies of a record whose fields (at any depth) were inserted in
    different orders have the same digest; in particular computing it twice
    on the same record gives the same digest. *)
Theorem etag_insertion_order_free (md5_hexdigest : string -> string) (r r' : json) :
  wf_json r -> reordered r r' ->
  _etag md5_hexdigest r = _etag md5_hexdigest r'.
Proof.
  intros Hwf Hr. unfold _etag. f_equal. now apply dumps_sorted_reordered.
Qed.

Lemma etag_insertion_order_free_witness :
  _etag sample_digest
    (JObj [("objectId", JStr "p1"); ("planType", JStr "inNetwork");
           ("planCostShares", JObj [("copay", JNum 23); ("objectId", JStr "c1")])])
  = _etag sample_digest
      (JObj [("planCostShares", JObj [("objectId", JStr "c1"); ("copay", JNum 23)]);
             ("planType", JStr "inNetwork"); ("objectId", JStr "p1")]).
Proof.
  apply etag_insertion_order_free.
  - simpl. repeat split; compute_done.
  - eapply reordered_obj with
      (mid := [("objectId", JStr "p1"); ("planType", JStr "inNetwork");
               ("planCostShares",
                JObj [("objectId", JStr "c1"); ("copay", JNum 23)])]).
    + repeat constructor.
      eapply reordered_obj with (mid := [("copay", JNum 23); ("objectId", JStr "c1")]).
      * repeat constructor.
      * apply perm_swap.
    + etransitivity; [apply perm_skip, perm_swap|].
      etransitivity; [apply perm_swap|]. apply perm_skip, perm_swap.
Defined.

(** ** Dictionaries *)

Lemma dict_get_set_eq kvs k v : dict_get (dict_set kvs k v) k = Some v.
Proof.
  induction kvs as [|[k' v'] r IH]; simpl.
  - now rewrite String.eqb_refl.
  - destruct (String.eqb k' k) eqn:E; simpl.
    + now rewrite String.eqb_refl.
    + now rewrite E.
Qed.

Lemma dict_get_set_ne kvs k k' v :
  k <> k' -> dict_get (dict_set kvs k v) k' = dict_get kvs k'.
Proof.
  intros Hne. induction kvs as [|[k0 v0] r IH]; simpl.
  - apply String.eqb_neq in Hne. now rewrite Hne.
  - destruct (String.eqb k0 k) eqn:E; simpl.
    + apply String.eqb_eq in E. subst k0.
      apply String.eqb_neq in Hne. now rewrite Hne.
    + now rewrite IH.
Qed.

Lemma dict_set_set kvs k v v' :
  dict_set (dict_set kvs k v) k v' = dict_set kvs k v'.
Proof.
  induction kvs as [|[k0 v0] r IH]; simpl.
  - now rewrite String.eqb_refl.
  - destruct (String.eqb k0 k) eqn:E; simpl.
    + now rewrite String.eqb_refl.
    + now rewrite E, IH.
Qed.

(** ** The DELETE handler *)

(** C10. DELETE deletes the key and publishes the [delete] job whether or
    not a record is stored; the answer (404 when nothing was stored, 202
    otherwise) is chosen afterwards.  Only an unreachable broker changes
    the outcome: the key is deleted all the same and the answer is 503. *)
Theorem delete_plan_effects_precede_answer (object_id : string) (w : ApiWorld) :
  let key := plan_controller._key object_id in
  let job := JObj [("type", JStr "delete"); ("id", JStr object_id)] in
  plan_controller.delete_plan object_id w =
    if broker_up w then
      (mkApi (delete key (kv w)) (jobs w ++ [job]) true,
       inr (if truthy (default JNull (kv w !! key))
            then mkResponse 202 Empty None
            else mkResponse 404 (Message "Plan not found") None))
    else
      (mkApi (delete key (kv w)) (jobs w) false,
       inr (mkResponse 503 (MessageError "Queue unavailable" AMQPError) None)).
Proof.
  destruct w as [store js up]. simpl.
  unfold plan_controller.delete_plan, plan_controller._publish_safe, bind, ret,
    try_except, redis_service.get_data, redis_service.delete_data,
    queue_service.publish. simpl.
  destruct up; simpl; [|reflexivity].
  destruct (truthy (default JNull (store !! plan_controller._key object_id)));
    reflexivity.
Qed.

(** Deleting an id that was never stored: the job is on the queue and the
    answer is 404. *)
Lemma delete_plan_absent (object_id : string) (w : ApiWorld) :
  kv w !! plan_controller._key object_id = None ->
  broker_up w = true ->
  plan_controller.delete_plan object_id w =
    (mkApi (delete (plan_controller._key object_id) (kv w))
       (jobs w ++ [JObj [("type", JStr "delete"); ("id", JStr object_id)]]) true,
     inr (mkResponse 404 (Message "Plan not found") None)).
Proof.
  intros Hnone Hup.
  destruct w as [store js up]; simpl in *. subst up.
  unfold plan_controller.delete_plan, plan_controller._publish_safe, bind, ret,
    try_except, redis_service.get_data, redis_service.delete_data,
    queue_service.publish. simpl.
  now rewrite Hnone.
Qed.

(** ** The worker *)

Import elasticsearch_service worker.

Section WorkerFacts.

Context {S : Type}.
Variable es_exec : es_request -> S -> S * option exn.

Lemma on_msg_permanent tag job (w : World S) v e :
  dispatch es_exec job (es w) = (v, inl e) ->
  is_transient e = false ->
  on_msg es_exec tag job w = (buried tag job e v w, inr tt).
Proof.
  intros Hd Ht. unfold on_msg, try_except, bind, on_es, zoom.
  rewrite Hd. simpl. rewrite Ht.
  unfold bury, bind, basic_ack, to_dlq, emit, buried. simpl.
  now rewrite <- app_assoc.
Qed.

Lemma on_msg_transient tag kvs a (w : World S) v e :
  dispatch es_exec (JObj kvs) (es w) = (v, inl e) ->
  is_transient e = true ->
  default (JNum 0) (dict_get kvs "attempt") = JNum a ->
  on_msg es_exec tag (JObj kvs) w =
    if a + 1 <=? MAX_ATTEMPTS
    then (retried tag (with_attempt kvs (a + 1)) (a + 1) v w, inr tt)
    else (buried tag (with_attempt kvs (a + 1)) e v w, inr tt).
Proof.
  intros Hd Ht Ha. unfold on_msg, try_except, bind, on_es, zoom.
  rewrite Hd. simpl. rewrite Ht.
  unfold retry_or_bury, bind, lift, next_attempt, py_get_default. rewrite Ha.
  simpl. unfold bind, basic_ack. 
  destruct (a + 1 <=? MAX_ATTEMPTS).
  - unfold sleep, republish, emit, retried, backoff, bind, with_attempt. simpl.
    now rewrite <- !app_assoc.
  - unfold to_dlq, emit, buried, with_attempt. simpl.
    now rewrite <- !app_assoc.
Qed.

Lemma dispatch_unknown_type kvs t (v : EsWorld S) :
  dict_get kvs "type" = t ->
  is_str (default JNull t) "index" = false ->
  is_str (default JNull t) "patch" = false ->
  is_str (default JNull t) "delete" = false ->
  dispatch es_exec (JObj kvs) v = (v, inl (ValueError (UnknownJobType (default JNull t)))).
Proof.
  intros Ht H1 H2 H3. unfold dispatch, bind, lift, py_get. rewrite Ht.
  simpl. now rewrite H1, H2, H3.
Qed.

Lemma dispatch_index_without_id kvs fields (v : EsWorld S) :
  dict_get kvs "type" = Some (JStr "index") ->
  dict_get kvs "doc" = Some (JObj fields) ->
  truthy (default JNull (dict_get fields "objectId")) = false ->
  dispatch es_exec (JObj kvs) v = (v, inl (ValueError ObjectIdRequired)).
Proof.
  intros Ht Hdoc Hid. unfold dispatch, bind, lift, py_get, py_item.
  rewrite Ht. simpl. rewrite Hdoc. unfold index_plan, bind, lift, py_get.
  now rewrite Hid.
Qed.

End WorkerFacts.

Section ConsumerFacts.

Context {S : Type}.
Variable es_exec : es_request -> S -> S * option exn.

Lemma consume_empty n tag (w : World S) :
  queue w = [] -> consume es_exec n tag w = (w, inr tt).
Proof. intros Hq. destruct n; simpl; [reflexivity|]. now rewrite Hq. Qed.

Lemma with_attempt_again kvs a b :
  with_attempt (dict_set kvs "attempt" (JNum a)) b = with_attempt kvs b.
Proof. unfold with_attempt. now rewrite dict_set_set. Qed.

(** One failing delivery below the ceiling: the consumer goes on with the
    republished job at the tail of the queue. *)
Lemma consume_retry n tag kvs a rest (w : World S) :
  queue w = JObj kvs :: rest ->
  fails_transiently es_exec (JObj kvs) ->
  default (JNum 0) (dict_get kvs "attempt") = JNum a ->
  a + 1 <= MAX_ATTEMPTS ->
  exists v,
    consume es_exec (Datatypes.S n) tag w =
    consume es_exec n (tag + 1)
      (retried tag (with_attempt kvs (a + 1)) (a + 1) v
         (mkWorld (es w) rest (dlq w) (effects w))).
Proof.
  intros Hq Hf Ha Hle. destruct (Hf (es w)) as (v & e & Hd & Ht).
  exists v. simpl. rewrite Hq.
  rewrite (on_msg_transient es_exec tag kvs a _ v e); try assumption.
  apply Z.leb_le in Hle. now rewrite Hle.
Qed.

(** One failing delivery past the ceiling: dead-lettered. *)
Lemma consume_bury n tag kvs a rest (w : World S) :
  queue w = JObj kvs :: rest ->
  fails_transiently es_exec (JObj kvs) ->
  default (JNum 0) (dict_get kvs "attempt") = JNum a ->
  MAX_ATTEMPTS < a + 1 ->
  exists v e,
    is_transient e = true /\
    consume es_exec (Datatypes.S n) tag w =
    consume es_exec n (tag + 1)
      (buried tag (with_attempt kvs (a + 1)) e v
         (mkWorld (es w) rest (dlq w) (effects w))).
Proof.
  intros Hq Hf Ha Hlt. destruct (Hf (es w)) as (v & e & Hd & Ht).
  exists v, e. split; [assumption|]. simpl. rewrite Hq.
  rewrite (on_msg_transient es_exec tag kvs a _ v e); try assumption.
  apply Z.leb_gt in Hlt. now rewrite Hlt.
Qed.


(** A job that keeps failing is retried until its counter reaches the
    ceiling and is dead-lettered by the next delivery. *)
Lemma consume_until_buried kvs :
  (forall a, fails_transiently es_exec (with_attempt kvs a)) ->
  forall (k : nat) (a tag : Z) (fields : list (string * json)) (w : World S) (m : nat),
    (forall b, with_attempt fields b = with_attempt kvs b) ->
    fails_transiently es_exec (JObj fields) ->
    default (JNum 0) (dict_get fields "attempt") = JNum a ->
    a + Z.of_nat k = MAX_ATTEMPTS ->
    queue w = [JObj fields] ->
    exists w' e,
      consume es_exec (Datatypes.S k + m) tag w = (w', inr tt) /\
      is_transient e = true /\
      queue w' = [] /\
      dlq w' = (dlq w ++ [mkDeadLetter e (with_attempt kvs (MAX_ATTEMPTS + 1))])%list /\
      effects w' =
        (effects w ++ retry_effects k tag a kvs ++
           [Ack (tag + Z.of_nat k);
            DeadLetter (mkDeadLetter e (with_attempt kvs (MAX_ATTEMPTS + 1)))])%list.
Proof.
  intros Hf k. induction k as [|k IH]; intros a tag fields w m Hsame Hf0 Hat Hsum Hq.
  - destruct (consume_bury (0 + m) tag fields a [] w) as (v & e & Ht & E);
      [assumption|assumption|assumption|lia|].
    exists (buried tag (with_attempt fields (a + 1)) e v
              (mkWorld (es w) [] (dlq w) (effects w))), e.
    cbn [Nat.add] in *. rewrite E, consume_empty by reflexivity.
    replace a with MAX_ATTEMPTS by lia. rewrite Hsame, Z.add_0_r.
    repeat split; try assumption; reflexivity.
  - destruct (consume_retry (Datatypes.S k + m) tag fields a [] w) as (v & E);
      [assumption|assumption|assumption|lia|].
    cbn [Nat.add] in *. rewrite E. clear E. rewrite Hsame.
    destruct (IH (a + 1) (tag + 1) (dict_set kvs "attempt" (JNum (a + 1)))
                (retried tag (with_attempt kvs (a + 1)) (a + 1) v
                   (mkWorld (es w) [] (dlq w) (effects w))) m)
      as (w' & e & E & Ht & Hq' & Hd & He).
    + intros b. apply with_attempt_again.
    + apply Hf.
    + now rewrite dict_get_set_eq.
    + lia.
    + reflexivity.
    + exists w', e. rewrite E. repeat split; try assumption.
      rewrite He. simpl. rewrite <- !app_assoc. simpl.
      do 5 f_equal. f_equal. f_equal. lia.
Qed.

End ConsumerFacts.

(** C2. A delivery whose processing raises a transient error is
    acknowledged and its counter incremented; up to the ceiling of 5 the
    worker sleeps [min(2^attempt, 30)] and republishes the job with the new
    counter, past it the job goes to the dead-letter queue with the error.
    Hence a fresh job that fails transiently on every delivery is
    republished five times (counters 1 to 5, after sleeping 2, 4, 8, 16 and
    30) and the sixth delivery dead-letters it with counter 6. *)
Theorem transient_retry_ceiling :
  (forall (S : Type) (es_exec : es_request -> S -> S * option exn)
          (tag : Z) (kvs : list (string * json)) (a : Z) (w : World S)
          (v : EsWorld S) (e : exn),
      dispatch es_exec (JObj kvs) (es w) = (v, inl e) ->
      is_transient e = true ->
      default (JNum 0) (dict_get kvs "attempt") = JNum a ->
      0 <= a ->
      on_msg es_exec tag (JObj kvs) w =
        if a + 1 <=? 5
        then (retried tag (with_attempt kvs (a + 1)) (a + 1) v w, inr tt)
        else (buried tag (with_attempt kvs (a + 1)) e v w, inr tt))
  /\
  (forall (S : Type) (es_exec : es_request -> S -> S * option exn)
          (tag : Z) (kvs : list (string * json)) (w : World S) (n : nat),
      dict_get kvs "attempt" = None ->
      fails_transiently es_exec (JObj kvs) ->
      (forall a, fails_transiently es_exec (with_attempt kvs a)) ->
      queue w = [JObj kvs] ->
      (6 <= n)%nat ->
      exists w' e,
        consume es_exec n tag w = (w', inr tt) /\
        is_transient e = true /\
        queue w' = [] /\
        dlq w' = (dlq w ++ [mkDeadLetter e (with_attempt kvs 6)])%list /\
        effects w' =
          (effects w ++
           [Ack tag; Sleep 2; Republish (with_attempt kvs 1);
            Ack (tag + 1); Sleep 4; Republish (with_attempt kvs 2);
            Ack (tag + 2); Sleep 8; Republish (with_attempt kvs 3);
            Ack (tag + 3); Sleep 16; Republish (with_attempt kvs 4);
            Ack (tag + 4); Sleep 30; Republish (with_attempt kvs 5);
            Ack (tag + 5);
            DeadLetter (mkDeadLetter e (with_attempt kvs 6))])%list).
Proof.
  split.
  - intros S es_exec tag kvs a w v e Hd Ht Ha _.
    now apply on_msg_transient.
  - intros S es_exec tag kvs w n Hfresh Hf0 Hf Hq Hn.
    destruct (consume_until_buried es_exec kvs Hf 5 0 tag kvs w (n - 6))
      as (w' & e & E & Ht & Hq' & Hd & He);
      [reflexivity|assumption|now rewrite Hfresh|reflexivity|assumption|].
    exists w', e. replace (6 + (n - 6))%nat with n in E by lia.
    repeat split; try assumption.
    rewrite He. cbn [retry_effects]. rewrite <- !Z.add_assoc. reflexivity.
Qed.

Lemma transient_retry_ceiling_witness :
  on_msg down_exec 7 (JObj delete_job) (fresh_world (JObj delete_job)) =
    (retried 7 (with_attempt delete_job 1) 1
       (mkEsWorld empty_index [EsDelete (JStr "p1") (JStr "p1")])
       (fresh_world (JObj delete_job)), inr tt)
  /\
  exists w' e,
    consume down_exec 6 1 (fresh_world (JObj delete_job)) = (w', inr tt) /\
    is_transient e = true /\
    queue w' = [] /\
    dlq w' = [mkDeadLetter e (with_attempt delete_job 6)] /\
    effects w' =
      [Ack 1; Sleep 2; Republish (with_attempt delete_job 1);
       Ack 2; Sleep 4; Republish (with_attempt delete_job 2);
       Ack 3; Sleep 8; Republish (with_attempt delete_job 3);
       Ack 4; Sleep 16; Republish (with_attempt delete_job 4);
       Ack 5; Sleep 30; Republish (with_attempt delete_job 5);
       Ack 6; DeadLetter (mkDeadLetter e (with_attempt delete_job 6))].
Proof.
  split.
  - apply (proj1 transient_retry_ceiling Index down_exec 7 delete_job 0
             (fresh_world (JObj delete_job))
             (mkEsWorld empty_index [EsDelete (JStr "p1") (JStr "p1")])
             ESConnError); [reflexivity|reflexivity|reflexivity|lia].
  - apply (proj2 transient_retry_ceiling Index down_exec 1 delete_job
             (fresh_world (JObj delete_job)) 6%nat).
    + reflexivity.
    + intros v. eexists. exists ESConnError. split; reflexivity.
    + intros a v. eexists. exists ESConnError. split; reflexivity.
    + reflexivity.
    + lia.
Defined.

Lemma is_str_false (t : json) (s : string) : t <> JStr s -> is_str t s = false.
Proof.
  intros Hne. destruct t; simpl; try reflexivity.
  apply String.eqb_neq. congruence.
Qed.

(** C3. A delivery whose processing fails with anything but a transient
    error is acknowledged and goes to the dead-letter queue at once: the
    job is the one received (its counter is not touched), nothing is
    republished and the worker does not sleep.  An unrecognized [type] and
    an [index] job whose record has no [objectId] are two such failures,
    raised before any request reaches the index. *)
Theorem permanent_failure_dead_letters_at_once :
  (forall (S : Type) (es_exec : es_request -> S -> S * option exn)
          (tag : Z) (job : json) (w : World S) (v : EsWorld S) (e : exn),
      dispatch es_exec job (es w) = (v, inl e) ->
      is_transient e = false ->
      on_msg es_exec tag job w = (buried tag job e v w, inr tt))
  /\
  (forall (S : Type) (es_exec : es_request -> S -> S * option exn)
          (tag : Z) (kvs : list (string * json)) (w : World S),
      default JNull (dict_get kvs "type") <> JStr "index" ->
      default JNull (dict_get kvs "type") <> JStr "patch" ->
      default JNull (dict_get kvs "type") <> JStr "delete" ->
      on_msg es_exec tag (JObj kvs) w =
        (buried tag (JObj kvs)
           (ValueError (UnknownJobType (default JNull (dict_get kvs "type"))))
           (es w) w, inr tt))
  /\
  (forall (S : Type) (es_exec : es_request -> S -> S * option exn)
          (tag : Z) (kvs fields : list (string * json)) (w : World S),
      dict_get kvs "type" = Some (JStr "index") ->
      dict_get kvs "doc" = Some (JObj fields) ->
      truthy (default JNull (dict_get fields "objectId")) = false ->
      on_msg es_exec tag (JObj kvs) w =
        (buried tag (JObj kvs) (ValueError ObjectIdRequired) (es w) w, inr tt)).
Proof.
  split; [|split].
  - intros. now apply on_msg_permanent.
  - intros S es_exec tag kvs w H1 H2 H3.
    apply on_msg_permanent; [|reflexivity].
    apply dispatch_unknown_type; auto using is_str_false.
  - intros S es_exec tag kvs fields w Ht Hdoc Hid.
    apply on_msg_permanent; [|reflexivity].
    eapply dispatch_index_without_id; eassumption.
Qed.

Lemma permanent_failure_dead_letters_at_once_witness :
  let job := JObj [("type", JStr "reindex"); ("id", JStr "p1")] in
  let bad := JObj [("type", JStr "index"); ("id", JStr "p1");
                   ("doc", JObj [("planType", JStr "inNetwork")])] in
  on_msg mem_exec 1 job (fresh_world job) =
    (mkWorld (mkEsWorld empty_index []) [job]
       [mkDeadLetter (ValueError (UnknownJobType (JStr "reindex"))) job]
       [Ack 1; DeadLetter (mkDeadLetter (ValueError (UnknownJobType (JStr "reindex"))) job)],
     inr tt)
  /\
  on_msg mem_exec 1 bad (fresh_world bad) =
    (mkWorld (mkEsWorld empty_index []) [bad]
       [mkDeadLetter (ValueError ObjectIdRequired) bad]
       [Ack 1; DeadLetter (mkDeadLetter (ValueError ObjectIdRequired) bad)],
     inr tt).
Proof.
  split.
  - apply (proj1 permanent_failure_dead_letters_at_once Index mem_exec 1 _
             (fresh_world _) (mkEsWorld empty_index [])
             (ValueError (UnknownJobType (JStr "reindex")))); reflexivity.
  - apply (proj2 (proj2 permanent_failure_dead_letters_at_once) Index mem_exec 1 _
             [("planType", JStr "inNetwork")] (fresh_world _)); reflexivity.
Defined.

(** C1 (evaluation at the failing input). The PATCH handler publishes jobs
    of the shape [{"type": "patch", "id": .., "plan_doc": .., "child_ops":
    ..}]; the worker reads [job["doc"]], which such a job does not have:
    the lookup raises [KeyError], no request reaches the index, and the job
    is acknowledged and dead-lettered. *)
Theorem patch_job_is_dead_lettered
  (S : Type) (es_exec : es_request -> S -> S * option exn)
  (tag : Z) (object_id : string) (plan_doc child_ops : json) (w : World S) :
  let job := JObj [("type", JStr "patch"); ("id", JStr object_id);
                   ("plan_doc", plan_doc); ("child_ops", child_ops)] in
  on_msg es_exec tag job w = (buried tag job (KeyError "doc") (es w) w, inr tt).
Proof.
  intros job. apply on_msg_permanent; reflexivity.
Qed.

(** ** Conditional writes *)

Lemma stale_true (d digest : string) :
  d <> "" -> d <> digest -> plan_controller.stale (Some d) digest = true.
Proof.
  intros H1 H2. unfold plan_controller.stale.
  apply String.eqb_neq in H1, H2. now rewrite H1, H2.
Qed.

(** A PUT whose body fails validation is answered 400 whatever the
    [If-Match] header and the store hold, and changes nothing. *)
Lemma put_plan_invalid_body
  (md5_hexdigest : string -> string) (validate_schema : json -> bool * json)
  (object_id : string) (req : request) (w : ApiWorld) (errors : json) :
  validate_schema (py_or (get_json req) (JObj [])) = (false, errors) ->
  plan_controller.put_plan md5_hexdigest validate_schema object_id req w
  = (w, inr (mkResponse 400 (MessageErrors "Invalid data" errors) None)).
Proof. intros H. unfold plan_controller.put_plan. now rewrite H. Qed.

(** C4 (as stated) fails for PUT: the body is validated before the stored
    record is read, so a PUT with a body that fails validation and an
    [If-Match] that differs from the stored digest is answered 400, not
    with the conflict signal. *)
Lemma stale_put_with_invalid_body_is_400 :
  kv sample_store !! plan_controller._key "p1" = Some sample_plan /\
  if_match stale_invalid_put <> Some (_etag sample_digest sample_plan) /\
  plan_controller.put_plan sample_digest sample_validate "p1"
    stale_invalid_put sample_store
  = (sample_store,
     inr (mkResponse 400
            (MessageErrors "Invalid data" (JStr "'objectId' is a required property"))
            None)).
Proof.
  split; [apply lookup_insert_eq|]. split; [discriminate|reflexivity].
Qed.

(** C4 (amended). With a record stored under the id and an [If-Match]
    value that is not the record's digest, PATCH answers 412 and PUT
    answers 412 when its body passes validation and 400 when it does not;
    in each case the world is returned as it was: nothing is written to
    the store and no job is published. *)
Theorem stale_write_changes_nothing
  (md5_hexdigest : string -> string) (validate_schema : json -> bool * json)
  (object_id : string) (req : request) (w : ApiWorld) (existing : json) (d : string) :
  kv w !! plan_controller._key object_id = Some existing ->
  truthy existing = true ->
  if_match req = Some d ->
  d <> "" ->
  d <> _etag md5_hexdigest existing ->
  plan_controller.patch_plan md5_hexdigest validate_schema object_id req w
    = (w, inr (mkResponse 412 (Message "Resource changed") None))
  /\
  plan_controller.put_plan md5_hexdigest validate_schema object_id req w
    = (w, inr (let payload := py_or (get_json req) (JObj []) in
               if fst (validate_schema payload)
               then mkResponse 412 (Message "Resource changed") None
               else mkResponse 400
                      (MessageErrors "Invalid data" (snd (validate_schema payload)))
                      None)).
Proof.
  intros Hkv Htruthy Hreq Hd1 Hd2.
  pose proof (stale_true _ _ Hd1 Hd2) as Hstale. rewrite <- Hreq in Hstale.
  split.
  - unfold plan_controller.patch_plan, bind, redis_service.get_data, ret.
    rewrite Hkv. cbn [default from_option id]. now rewrite Htruthy, Hstale.
  - unfold plan_controller.put_plan.
    destruct (validate_schema (py_or (get_json req) (JObj []))) as [valid err].
    destruct valid; cbn [negb fst snd]; [|reflexivity].
    unfold bind, redis_service.get_data, ret. rewrite Hkv. cbn [default from_option id].
    now rewrite Htruthy, Hstale.
Qed.

Lemma stale_write_changes_nothing_witness :
  plan_controller.patch_plan sample_digest sample_validate "p1" stale_invalid_put
    sample_store
    = (sample_store, inr (mkResponse 412 (Message "Resource changed") None))
  /\
  plan_controller.put_plan sample_digest sample_validate "p1" stale_invalid_put
    sample_store
    = (sample_store,
       inr (mkResponse 400
              (MessageErrors "Invalid data" (JStr "'objectId' is a required property"))
              None)).
Proof.
  apply (stale_write_changes_nothing sample_digest sample_validate "p1"
           stale_invalid_put sample_store sample_plan "0123456789abcdef").
  - apply lookup_insert_eq.
  - reflexivity.
  - reflexivity.
  - discriminate.
  - discriminate.
Defined.

(** ** Requests issued by the fan-out indexer *)

Local Open Scope list_scope.

Section Emits.

Context {S : Type}.
Variable es_exec : es_request -> S -> S * option exn.
Variable P : es_request -> Prop.

Lemma emits_ret {A} (a : A) : emits (S:=S) P (ret a).
Proof. intros w. exists []. simpl. now rewrite app_nil_r. Qed.

Lemma emits_raise {A} (e : exn) : emits (S:=S) (A:=A) P (raise e).
Proof. intros w. exists []. simpl. now rewrite app_nil_r. Qed.

Lemma emits_lift {A} (r : result A) : emits (S:=S) P (lift r).
Proof. intros w. exists []. simpl. now rewrite app_nil_r. Qed.

Lemma emits_bind {A B} (m : M (EsWorld S) A) (k : A -> M (EsWorld S) B) :
  emits P m -> (forall a, emits P (k a)) -> emits P (bind m k).
Proof.
  intros Hm Hk w. unfold bind.
  destruct (Hm w) as (c1 & E1 & F1).
  destruct (m w) as [w1 [e|a]]; simpl in *.
  - exists c1. auto.
  - destruct (Hk a w1) as (c2 & E2 & F2).
    exists (c1 ++ c2). rewrite E2, E1, app_assoc. split; [reflexivity|].
    now apply Forall_app.
Qed.

Lemma emits_es_call (r : es_request) : P r -> emits P (es_call es_exec r).
Proof.
  intros Hr w. exists [r]. unfold es_call.
  destruct (es_exec r (es_state w)) as [s' failure]. simpl. auto.
Qed.

Lemma emits_for_each {A} (xs : list A) (body : A -> M (EsWorld S) unit) :
  (forall x, emits P (body x)) -> emits P (for_each xs body).
Proof.
  intros Hb. induction xs as [|x r IH]; simpl.
  - apply emits_ret.
  - apply emits_bind; auto.
Qed.

End Emits.

Section ChildUpserts.

Context {S : Type}.
Variable es_exec : es_request -> S -> S * option exn.

Lemma emits_upsert_child plan_id child_id rel doc :
  In rel child_relations ->
  emits (child_upsert_of plan_id) (_upsert_child es_exec plan_id child_id rel doc).
Proof.
  intros Hrel. unfold _upsert_child, py_splat.
  destruct doc; try (apply emits_bind; [apply emits_lift|intros; apply emits_raise]);
    try (intros w; exists []; simpl; now rewrite app_nil_r).
  apply emits_bind; [apply emits_lift|]. intros fields0.
  apply emits_es_call. eexists child_id, _, rel. split; [reflexivity|].
  split; [|assumption]. unfold dict_merge. simpl. apply dict_get_set_eq.
Qed.

Lemma emits_upsert_identified plan_id rel x :
  In rel child_relations ->
  emits (child_upsert_of plan_id) (upsert_identified es_exec plan_id rel x).
Proof.
  intros Hrel. unfold upsert_identified.
  apply emits_bind; [apply emits_lift|]. intros oid.
  destruct (truthy oid); [|apply emits_ret].
  apply emits_bind; [apply emits_lift|]. intros child_id.
  now apply emits_upsert_child.
Qed.

Lemma emits_fan_out_item plan_id item :
  emits (child_upsert_of plan_id) (fan_out_item es_exec plan_id item).
Proof.
  unfold fan_out_item.
  apply emits_bind; [apply emits_lift|]. intros svc.
  apply emits_bind; [apply emits_upsert_identified; simpl; auto|]. intros _.
  apply emits_bind; [apply emits_lift|]. intros pscs.
  apply emits_upsert_identified; simpl; auto.
Qed.

(** What follows [_upsert_parent] in [index_plan] and in [patch_plan]. *)
Lemma emits_children plan_id (first : M (EsWorld S) unit) (services : result json) :
  emits (child_upsert_of plan_id) first ->
  emits (child_upsert_of plan_id)
    (bind first (fun _ =>
       bind (lift services) (fun services =>
         bind (lift (py_iter (py_or services (JArr [])))) (fun items =>
           for_each items (fan_out_item es_exec plan_id))))).
Proof.
  intros Hfirst.
  apply emits_bind; [assumption|]. intros _.
  apply emits_bind; [apply emits_lift|]. intros sv.
  apply emits_bind; [apply emits_lift|]. intros items.
  apply emits_for_each. intros item. apply emits_fan_out_item.
Qed.

(** [_upsert_parent] followed by a computation that only writes children. *)
Lemma parent_then_children plan_id fields (rest : M (EsWorld S) unit) w :
  emits (child_upsert_of plan_id) rest ->
  exists p c,
    es_calls (fst (bind (_upsert_parent es_exec plan_id fields) (fun _ => rest) w))
    = es_calls w ++ p ++ c /\
    parent_upsert_of plan_id p /\ Forall (child_upsert_of plan_id) c.
Proof.
  intros Hrest. unfold bind, _upsert_parent.
  destruct (negb (truthy (JObj fields))).
  - simpl. destruct (Hrest w) as (c & E & F).
    exists [], c. simpl. repeat split; auto. now left.
  - unfold es_call.
    destruct (es_exec _ (es_state w)) as [s' [e|]]; simpl.
    + eexists [_], []. simpl. split; [reflexivity|]. split; [|constructor].
      right. eauto.
    + destruct (Hrest (mkEsWorld s' (es_calls w ++ [EsIndex plan_id
                 (JObj (dict_merge [("objectId", plan_id); ("objectType", JStr "plan");
                                    ("rel", JStr "plan")] fields)) plan_id])))
        as (c & E & F).
      eexists [_], c. rewrite E. simpl. rewrite <- app_assoc. simpl.
      split; [reflexivity|]. split; [|assumption]. right. eauto.
Qed.

End ChildUpserts.

(** C6. Whatever [index_plan] and [patch_plan] send to the index, on any
    input and whether they return or raise, is at most one write of the
    parent document followed by writes of child documents, and every child
    write is routed to the parent's id and names that id as [parent] in its
    join field [rel]. *)
Theorem child_upserts_routed_to_parent :
  (forall (S : Type) (es_exec : es_request -> S -> S * option exn)
          (plan_doc : json) (w : EsWorld S),
      exists p c,
        es_calls (fst (index_plan es_exec plan_doc w)) = es_calls w ++ p ++ c /\
        parent_upsert_of (record_id plan_doc) p /\
        Forall (child_upsert_of (record_id plan_doc)) c)
  /\
  (forall (S : Type) (es_exec : es_request -> S -> S * option exn)
          (plan_id updates : json) (w : EsWorld S),
      exists p c,
        es_calls (fst (patch_plan es_exec plan_id updates w)) = es_calls w ++ p ++ c /\
        parent_upsert_of plan_id p /\
        Forall (child_upsert_of plan_id) c).
Proof.
  split.
  - intros S es_exec plan_doc w.
    assert (exists p c : list es_request,
               es_calls w = es_calls w ++ p ++ c /\
               parent_upsert_of (record_id plan_doc) p /\
               Forall (child_upsert_of (record_id plan_doc)) c) as Hnone.
    { exists [], []. simpl. rewrite app_nil_r. repeat split; auto. now left. }
    destruct plan_doc as [| | | | |kvs]; try exact Hnone.
    unfold index_plan. unfold bind at 1. unfold lift at 1, py_get at 1.
    cbn [record_id].
    destruct (truthy (default JNull (dict_get kvs "objectId"))); [|exact Hnone].
    cbn [negb]. unfold bind at 1. unfold lift at 1, py_items.
    apply parent_then_children.
    apply emits_bind; [apply emits_lift|]. intros pcs.
    apply (emits_children es_exec _
             (upsert_identified es_exec _ "planCostShares" (py_or pcs (JObj [])))).
    apply emits_upsert_identified. simpl. auto.
  - intros S es_exec plan_id updates w.
    unfold patch_plan. unfold bind at 1. unfold lift at 1, py_items at 1.
    destruct updates as [| | | | |kvs];
      try (exists [], []; simpl; rewrite app_nil_r; repeat split; auto; now left).
    apply parent_then_children.
    apply (emits_children es_exec plan_id).
    destruct (dict_has kvs "planCostShares"); [|apply emits_ret].
    apply emits_bind; [apply emits_lift|]. intros pcs.
    apply emits_upsert_identified. simpl. auto.
Qed.

(** ** The in-memory index *)

Lemma json_eqb_refl : forall a, json_eqb a a = true.
Proof.
  fix IH 1. intros [| b | n | s | l | kvs]; simpl; try reflexivity.
  - now destruct b.
  - apply Z.eqb_refl.
  - apply String.eqb_refl.
  - induction l as [|x r IHr]; [reflexivity|]. now rewrite IH, IHr.
  - induction kvs as [|[k x] r IHr]; [reflexivity|].
    simpl. now rewrite String.eqb_refl, IH, IHr.
Qed.

Lemma json_eqb_true : forall a b, json_eqb a b = true -> a = b.
Proof.
  fix IH 1. intros [| b | n | s | l | kvs] [| b' | n' | s' | l' | kvs'];
    simpl; try discriminate; try reflexivity.
  - intros H. apply Bool.eqb_prop in H. now subst.
  - intros H. apply Z.eqb_eq in H. now subst.
  - intros H. apply String.eqb_eq in H. now subst.
  - intros H. f_equal. revert l' H.
    induction l as [|x r IHr]; intros [|y r'] H; try discriminate; [reflexivity|].
    apply andb_true_iff in H as [H1 H2]. f_equal; auto.
  - intros H. f_equal. revert kvs' H.
    induction kvs as [|[k x] r IHr]; intros [|[k' y] r'] H;
      try discriminate; [reflexivity|].
    simpl in H. apply andb_true_iff in H as [H12 H3].
    apply andb_true_iff in H12 as [H1 H2].
    apply String.eqb_eq in H1. apply IH in H2. subst. f_equal. auto.
Qed.

Lemma json_eqb_false a b : json_eqb a b = false -> a <> b.
Proof. intros H E. subst. now rewrite json_eqb_refl in H. Qed.

Lemma index_put_same idx id d : index_put idx id d id = d.
Proof. unfold index_put. now rewrite json_eqb_refl. Qed.

(** ** Cascading delete *)

(** In the in-memory index a [has_parent] query finds nothing once the
    parent document is absent: the join needs the parent. *)
Remark has_parent_needs_parent (idx : Index) (plan_id : json) (d : stored) :
  idx plan_id = None -> matches (HasParent "plan" plan_id) idx d = false.
Proof.
  intros H. unfold matches. destruct (rel_parent (st_source d)); [|reflexivity].
  rewrite H. apply andb_false_r.
Qed.

(** C8 (as stated) fails for a document that names [p1] as its parent but
    is routed to [q1], in an index that holds no document [p1]: the delete
    by id finds nothing, the [has_parent] query joins to a parent document
    and there is none, the routing query asks for [p1]; the three requests
    are sent, the call returns normally and the document is still there. *)
Lemma misrouted_orphan_survives_delete :
  let run := delete_plan_from_index mem_exec (JStr "p1")
               (mkEsWorld misrouted_index []) in
  rel_parent (st_source misrouted_child) = Some (JStr "p1") /\
  snd run = inr tt /\
  es_calls (fst run)
  = [EsDelete (JStr "p1") (JStr "p1");
     EsDeleteByQuery (HasParent "plan" (JStr "p1"));
     EsDeleteByQuery (TermRouting (JStr "p1"))] /\
  es_state (fst run) (JStr "s1") = Some misrouted_child.
Proof. repeat split. Qed.

(** C8 (amended). [delete_plan_from_index] sends three requests in this
    order: the delete of the parent document by id, where a "not found"
    answer is swallowed; the delete-by-query of the documents whose join
    relation has the parent [id]; the delete-by-query of the documents
    routed to [id].  On the in-memory index it always returns normally,
    also when the parent is missing, and afterwards there is no document
    under [id] and none routed to [id]; every document still present was
    there before.  When every document that names [id] as its parent is
    routed to [id], which is how [index_plan] writes them, no document
    that names [id] as its parent is left. *)
Theorem delete_plan_from_index_cascade :
  (forall (S : Type) (es_exec : es_request -> S -> S * option exn)
          (plan_id : json) (w : EsWorld S),
      (forall s, snd (es_exec (EsDelete plan_id plan_id) s) = None \/
                 snd (es_exec (EsDelete plan_id plan_id) s) = Some NotFoundError) ->
      (forall q s, snd (es_exec (EsDeleteByQuery q) s) = None) ->
      exists v,
        delete_plan_from_index es_exec plan_id w = (v, inr tt) /\
        es_calls v =
          es_calls w ++
          [EsDelete plan_id plan_id;
           EsDeleteByQuery (HasParent "plan" plan_id);
           EsDeleteByQuery (TermRouting plan_id)])
  /\
  (forall (plan_id : json) (w : EsWorld Index),
      exists v,
        delete_plan_from_index mem_exec plan_id w = (v, inr tt) /\
        es_calls v =
          es_calls w ++
          [EsDelete plan_id plan_id;
           EsDeleteByQuery (HasParent "plan" plan_id);
           EsDeleteByQuery (TermRouting plan_id)] /\
        es_state v plan_id = None /\
        (forall i d, es_state v i = Some d ->
                     st_routing d <> plan_id /\ es_state w i = Some d))
  /\
  (forall (plan_id : json) (w : EsWorld Index),
      (forall i d, es_state w i = Some d ->
                   rel_parent (st_source d) = Some plan_id ->
                   st_routing d = plan_id) ->
      forall i d,
        es_state (fst (delete_plan_from_index mem_exec plan_id w)) i = Some d ->
        rel_parent (st_source d) <> Some plan_id).
Proof.
  assert (forall (plan_id : json) (w : EsWorld Index),
             exists v,
               delete_plan_from_index mem_exec plan_id w = (v, inr tt) /\
               es_calls v =
                 es_calls w ++
                 [EsDelete plan_id plan_id;
                  EsDeleteByQuery (HasParent "plan" plan_id);
                  EsDeleteByQuery (TermRouting plan_id)] /\
               es_state v plan_id = None /\
               (forall i d, es_state v i = Some d ->
                            st_routing d <> plan_id /\ es_state w i = Some d))
    as Hmem; [|split; [|split; [exact Hmem|]]].
  - intros plan_id [idx calls].
    unfold delete_plan_from_index, bind, try_except, es_call, ret.
    cbn [es_state es_calls mem_exec].
    destruct (idx plan_id) as [d0|] eqn:E0; cbn [es_state es_calls mem_exec];
      eexists; (split; [reflexivity|]); cbn [es_state es_calls];
      (split; [now rewrite <- !app_assoc|]); split.
    + now rewrite index_put_same.
    + intros i d. unfold index_put.
      destruct (json_eqb i plan_id) eqn:Ei; [discriminate|].
      destruct (idx i) as [di|] eqn:Edi; [|discriminate].
      destruct (matches (HasParent "plan" plan_id) _ di); [discriminate|].
      cbn [matches].
      destruct (json_eqb (st_routing di) plan_id) eqn:Er; [discriminate|].
      intros [= <-]. split; [now apply json_eqb_false|reflexivity].
    + now rewrite E0.
    + intros i d.
      destruct (idx i) as [di|] eqn:Edi; [|discriminate].
      destruct (matches (HasParent "plan" plan_id) _ di); [discriminate|].
      cbn [matches].
      destruct (json_eqb (st_routing di) plan_id) eqn:Er; [discriminate|].
      intros [= <-]. split; [now apply json_eqb_false|reflexivity].
  - intros S es_exec plan_id w Hdel Hq.
    unfold delete_plan_from_index, bind, try_except, es_call, ret.
    pose proof (Hdel (es_state w)) as H1.
    destruct (es_exec (EsDelete plan_id plan_id) (es_state w)) as [s1 f1].
    simpl in H1. cbn [es_state es_calls].
    pose proof (Hq (HasParent "plan" plan_id) s1) as H2.
    destruct (es_exec (EsDeleteByQuery (HasParent "plan" plan_id)) s1) as [s2 f2]
      eqn:E2.
    simpl in H2. subst f2.
    pose proof (Hq (TermRouting plan_id) s2) as H3.
    destruct (es_exec (EsDeleteByQuery (TermRouting plan_id)) s2) as [s3 f3] eqn:E3.
    simpl in H3. subst f3.
    destruct H1 as [-> | ->]; cbn [es_state es_calls]; rewrite E2;
      cbn [es_state es_calls]; rewrite E3; eexists; (split; [reflexivity|]);
      cbn [es_calls]; now rewrite <- !app_assoc.
  - intros plan_id w Hrouted i d Hd.
    destruct (Hmem plan_id w) as (v & E & _ & _ & Hleft).
    rewrite E in Hd. cbn [fst] in Hd.
    destruct (Hleft i d Hd) as [Hr Hw].
    intros Hp. apply Hr. exact (Hrouted i d Hw Hp).
Qed.

Lemma delete_plan_from_index_cascade_witness :
  (exists v,
      delete_plan_from_index mem_exec (JStr "p1") (mkEsWorld empty_index [])
      = (v, inr tt) /\
      es_calls v =
        [EsDelete (JStr "p1") (JStr "p1");
         EsDeleteByQuery (HasParent "plan" (JStr "p1"));
         EsDeleteByQuery (TermRouting (JStr "p1"))])
  /\
  (family_index (JStr "s1") = Some routed_child /\
   rel_parent (st_source routed_child) = Some (JStr "p1") /\
   forall i d,
     es_state (fst (delete_plan_from_index mem_exec (JStr "p1")
                      (mkEsWorld family_index []))) i = Some d ->
     rel_parent (st_source d) <> Some (JStr "p1")).
Proof.
  split; [|split; [reflexivity|split; [reflexivity|]]].
  - apply (proj1 delete_plan_from_index_cascade Index mem_exec (JStr "p1")
             (mkEsWorld empty_index [])).
    + intros s. simpl. destruct (s (JStr "p1")); simpl; auto.
    + intros q s. reflexivity.
  - apply (proj2 (proj2 delete_plan_from_index_cascade) (JStr "p1")
             (mkEsWorld family_index [])).
    intros i d. cbn [es_state]. unfold family_index, other_index, index_put.
    destruct (json_eqb i (JStr "s1")); [intros [= <-] _; reflexivity|].
    destruct (json_eqb i (JStr "p1")); [intros [= <-]; discriminate|].
    destruct (json_eqb i (JStr "x1")); [intros [= <-]; discriminate|].
    discriminate.
Defined.

(** ** The fan-out of a well-shaped record *)

Section Runs.

Context {S : Type}.
Variable es_exec : es_request -> S -> S * option exn.
Hypothesis es_ok : forall id doc routing s,
  snd (es_exec (EsIndex id doc routing) s) = None.

Lemma runs_ret {A} (a : A) : runs (S:=S) (ret a) a [].
Proof. intros w. exists w. simpl. now rewrite app_nil_r. Qed.

Lemma runs_lift {A} (a : A) : runs (S:=S) (lift (inr a)) a [].
Proof. intros w. exists w. simpl. now rewrite app_nil_r. Qed.

Lemma runs_bind {A B} (m : M (EsWorld S) A) (k : A -> M (EsWorld S) B) a b c1 c2 :
  runs m a c1 -> runs (k a) b c2 -> runs (bind m k) b (c1 ++ c2).
Proof.
  intros Hm Hk w. unfold bind.
  destruct (Hm w) as (w1 & E1 & C1). rewrite E1.
  destruct (Hk w1) as (w2 & E2 & C2). exists w2.
  split; [assumption|]. now rewrite C2, C1, app_assoc.
Qed.

Lemma runs_es_call id doc routing :
  runs (es_call es_exec (EsIndex id doc routing)) tt [EsIndex id doc routing].
Proof.
  intros w. unfold es_call. pose proof (es_ok id doc routing (es_state w)) as H.
  destruct (es_exec _ (es_state w)) as [s' f]. simpl in H. subst f.
  eexists. split; reflexivity.
Qed.

Lemma runs_for_each {A} (body : A -> M (EsWorld S) unit) (out : A -> list es_request)
      (xs : list A) :
  Forall (fun x => runs (body x) tt (out x)) xs ->
  runs (for_each xs body) tt (flat_map out xs).
Proof.
  induction 1 as [|x r Hx Hr IH]; simpl.
  - apply runs_ret.
  - eapply runs_bind; eauto.
Qed.

Lemma runs_upsert_identified plan_id rel x :
  sub_document x = true ->
  runs (upsert_identified es_exec plan_id rel (py_or x (JObj []))) tt
    (map (child_request plan_id) (identified rel x)).
Proof.
  intros Hx.
  assert (forall fields,
             runs (upsert_identified es_exec plan_id rel (JObj fields)) tt
               (map (child_request plan_id) (identified rel (JObj fields)))) as Hobj.
  { intros fields. unfold upsert_identified, identified, py_get, py_item.
    destruct (dict_get fields "objectId") as [cid|] eqn:Eid; cbn [default from_option id].
    - change (@nil es_request) with (@nil es_request ++ []).
      destruct (truthy cid) eqn:Et.
      + apply (runs_bind _ _ cid tt [] _ (runs_lift cid)). rewrite Et.
        apply (runs_bind _ _ cid tt [] _ (runs_lift cid)).
        unfold _upsert_child, py_splat.
        apply (runs_bind _ _ fields tt [] _ (runs_lift fields)).
        unfold child_request. cbn [fst snd map]. rewrite Eid.
        apply runs_es_call.
      + apply (runs_bind _ _ cid tt [] _ (runs_lift cid)). rewrite Et.
        apply runs_ret.
    - apply (runs_bind _ _ JNull tt [] [] (runs_lift JNull)). apply runs_ret. }
  destruct x as [| b | n | s | l | fields]; simpl in Hx.
  - apply (Hobj []).
  - destruct b; [discriminate|]. apply (Hobj []).
  - unfold py_or. simpl. apply negb_true_iff in Hx. rewrite Hx. apply (Hobj []).
  - unfold py_or. simpl. apply negb_true_iff in Hx. rewrite Hx. apply (Hobj []).
  - destruct l; [|discriminate]. apply (Hobj []).
  - unfold py_or. simpl. destruct fields; apply Hobj.
Qed.

Lemma runs_fan_out_item plan_id item :
  item_shaped item = true ->
  runs (fan_out_item es_exec plan_id item) tt
    (map (child_request plan_id) (identified_in_item item)).
Proof.
  destruct item as [| | | | |fields]; try discriminate.
  intros H. apply andb_true_iff in H as [H1 H2].
  unfold fan_out_item, identified_in_item, py_get. rewrite map_app.
  apply (runs_bind _ _ _ tt [] _ (runs_lift _)).
  eapply runs_bind; [now apply runs_upsert_identified|].
  apply (runs_bind _ _ _ tt [] _ (runs_lift _)).
  now apply runs_upsert_identified.
Qed.

End Runs.

Section FanOut.

Context {S : Type}.
Variable es_exec : es_request -> S -> S * option exn.
Hypothesis es_ok : forall id doc routing s,
  snd (es_exec (EsIndex id doc routing) s) = None.

(** The part of [index_plan] after [_upsert_parent]. *)
Lemma runs_children plan_id kvs :
  plan_shaped kvs = true ->
  runs
    (bind (lift (py_get (JObj kvs) "planCostShares")) (fun pcs =>
     bind (upsert_identified es_exec plan_id "planCostShares" (py_or pcs (JObj [])))
       (fun _ =>
     bind (lift (py_get_default (JObj kvs) "linkedPlanServices" (JArr [])))
       (fun services =>
     bind (lift (py_iter (py_or services (JArr [])))) (fun items =>
     for_each items (fan_out_item es_exec plan_id))))))
    tt (map (child_request plan_id) (identified_children kvs)).
Proof.
  intros Hshape. apply andb_true_iff in Hshape as [Hpcs Hsvc].
  unfold identified_children, py_get, py_get_default. rewrite map_app.
  apply (runs_bind _ _ _ tt [] _ (runs_lift _)).
  eapply runs_bind; [now apply runs_upsert_identified|].
  apply (runs_bind _ _ _ tt [] _ (runs_lift _)).
  destruct (default (JArr []) (dict_get kvs "linkedPlanServices"))
    as [| b | n | s | items | fields]; simpl in Hsvc.
  - apply (runs_bind _ _ _ tt [] _ (runs_lift _)). apply runs_ret.
  - destruct b; [discriminate|].
    apply (runs_bind _ _ _ tt [] _ (runs_lift _)). apply runs_ret.
  - apply negb_true_iff in Hsvc. unfold py_or. simpl. rewrite Hsvc.
    apply (runs_bind _ _ _ tt [] _ (runs_lift _)). apply runs_ret.
  - apply negb_true_iff in Hsvc. unfold py_or. simpl. rewrite Hsvc.
    apply (runs_bind _ _ _ tt [] _ (runs_lift _)). apply runs_ret.
  - assert (py_or (JArr items) (JArr []) = JArr items) as -> by now destruct items.
    apply (runs_bind _ _ _ tt [] _ (runs_lift _)).
    assert (forall (f : json -> list (string * list (string * json))) l,
               map (child_request plan_id) (flat_map f l)
               = flat_map (fun x => map (child_request plan_id) (f x)) l) as Hfm.
    { intros f l. induction l as [|x r IH]; simpl; [reflexivity|].
      now rewrite map_app, IH. }
    rewrite Hfm. apply runs_for_each.
    apply Forall_forall. intros x Hx.
    apply runs_fan_out_item; auto.
    apply (proj1 (forallb_forall _ _) Hsvc). now apply list_elem_of_In.
  - destruct fields; [|discriminate].
    apply (runs_bind _ _ _ tt [] _ (runs_lift _)). apply runs_ret.
Qed.

End FanOut.

(** C5 (as stated) fails on the record of the scenario: it carries an
    [objectId] but none of [_org], [planType], [creationDate], so
    [_upsert_parent] returns without writing; the only request is the write
    of the linked service, and no document [p1] is in the index. *)
Lemma bare_plan_has_no_parent_upsert :
  let run := index_plan mem_exec bare_plan (mkEsWorld empty_index []) in
  truthy (record_id bare_plan) = true /\
  snd run = inr tt /\
  es_calls (fst run)
  = [EsIndex (JStr "s1")
       (JObj [("objectId", JStr "s1");
              ("rel", JObj [("name", JStr "linkedPlanServices");
                            ("parent", JStr "p1")])])
       (JStr "p1")] /\
  es_state (fst run) (JStr "p1") = None.
Proof. repeat split. Qed.

Section ParentDocument.

Context {S : Type}.
Variable es_exec : es_request -> S -> S * option exn.
Hypothesis es_ok : forall id doc routing s,
  snd (es_exec (EsIndex id doc routing) s) = None.

(** The parent write, when there is one, carries the three tags and the
    plan-level fields of the record and nothing else. *)
Lemma runs_upsert_parent plan_id kvs :
  exists parent,
    runs (_upsert_parent es_exec plan_id (pick_fields plan_level_fields kvs)) tt parent /\
    if existsb (dict_has kvs) plan_level_fields then
      exists doc,
        parent = [EsIndex plan_id (JObj doc) plan_id] /\
        (forall k, In k (keys doc) -> In k (parent_tags ++ plan_level_fields)) /\
        dict_get doc "objectId" = Some plan_id /\
        dict_get doc "objectType" = Some (JStr "plan") /\
        dict_get doc "rel" = Some (JStr "plan") /\
        (forall k, In k plan_level_fields -> dict_get doc k = dict_get kvs k)
    else parent = [].
Proof.
  unfold _upsert_parent, pick_fields, plan_level_fields, dict_has. cbn [fold_left existsb].
  destruct (dict_get kvs "_org") as [v1|] eqn:E1;
    destruct (dict_get kvs "planType") as [v2|] eqn:E2;
    destruct (dict_get kvs "creationDate") as [v3|] eqn:E3;
    cbn [orb dict_set truthy negb String.eqb Ascii.eqb Bool.eqb];
    (eexists; split; [first [apply (runs_es_call es_exec es_ok) | apply runs_ret]|]);
    try reflexivity;
    (eexists; split; [reflexivity|]);
    (split; [cbn; intuition|]);
    (split; [reflexivity|]); (split; [reflexivity|]); (split; [reflexivity|]);
    intros k [<-|[<-|[<-|[]]]]; cbn; congruence.
Qed.

End ParentDocument.

(** C5 (amended). For a record that carries an [objectId] and has the
    shape the indexer expects, and an index that accepts the writes,
    [index_plan] returns after issuing: one write of the parent document
    when the record has at least one of [_org], [planType], [creationDate]
    (the document holds the identity and relation tags and those fields,
    nothing else) and no parent write otherwise; then one child write for
    each identified child, in the order cost share, then each linked
    service followed by its cost share. *)
Theorem index_plan_fan_out
  (S : Type) (es_exec : es_request -> S -> S * option exn)
  (kvs : list (string * json)) (plan_id : json) (w : EsWorld S) :
  (forall id doc routing s, snd (es_exec (EsIndex id doc routing) s) = None) ->
  dict_get kvs "objectId" = Some plan_id ->
  truthy plan_id = true ->
  plan_shaped kvs = true ->
  exists v parent,
    index_plan es_exec (JObj kvs) w = (v, inr tt) /\
    es_calls v =
      es_calls w ++ parent ++ map (child_request plan_id) (identified_children kvs) /\
    if existsb (dict_has kvs) plan_level_fields then
      exists doc,
        parent = [EsIndex plan_id (JObj doc) plan_id] /\
        (forall k, In k (keys doc) -> In k (parent_tags ++ plan_level_fields)) /\
        dict_get doc "objectId" = Some plan_id /\
        dict_get doc "objectType" = Some (JStr "plan") /\
        dict_get doc "rel" = Some (JStr "plan") /\
        (forall k, In k plan_level_fields -> dict_get doc k = dict_get kvs k)
    else parent = [].
Proof.
  intros Hok Hid Htruthy Hshape.
  destruct (runs_upsert_parent es_exec Hok plan_id kvs) as (parent & Hparent & Hdoc).
  pose proof (runs_children es_exec Hok plan_id kvs Hshape) as Hchildren.
  match type of Hchildren with
  | runs ?rest _ _ =>
      destruct (runs_bind _ (fun _ : unit => rest) tt tt _ _ Hparent Hchildren w)
        as (v & E & C)
  end.
  exists v, parent. split; [|split; [assumption|assumption]].
  unfold index_plan. unfold bind at 1. unfold lift at 1, py_get at 1.
  rewrite Hid. cbn [default from_option id]. rewrite Htruthy. cbn [negb].
  unfold bind at 1. unfold lift at 1, py_items. exact E.
Qed.

Lemma index_plan_fan_out_witness :
  exists v,
    index_plan mem_exec sample_plan (mkEsWorld empty_index []) = (v, inr tt) /\
    es_calls v =
      [EsIndex (JStr "p1")
         (JObj [("objectId", JStr "p1"); ("objectType", JStr "plan");
                ("rel", JStr "plan"); ("_org", JStr "example.com");
                ("planType", JStr "inNetwork")])
         (JStr "p1");
       EsIndex (JStr "c1")
         (JObj [("objectId", JStr "c1"); ("copay", JNum 23);
                ("rel", JObj [("name", JStr "planCostShares"); ("parent", JStr "p1")])])
         (JStr "p1");
       EsIndex (JStr "s1")
         (JObj [("objectId", JStr "s1");
                ("rel", JObj [("name", JStr "linkedPlanServices");
                              ("parent", JStr "p1")])])
         (JStr "p1");
       EsIndex (JStr "sc1")
         (JObj [("objectId", JStr "sc1"); ("copay", JNum 0);
                ("rel", JObj [("name", JStr "planserviceCostShares");
                              ("parent", JStr "p1")])])
         (JStr "p1")].
Proof.
  destruct (index_plan_fan_out Index mem_exec
              [("objectId", JStr "p1"); ("_org", JStr "example.com");
               ("planType", JStr "inNetwork");
               ("planCostShares",
                JObj [("objectId", JStr "c1"); ("copay", JNum 23)]);
               ("linkedPlanServices",
                JArr [JObj [("linkedService", JObj [("objectId", JStr "s1")]);
                            ("planserviceCostShares",
                             JObj [("objectId", JStr "sc1"); ("copay", JNum 0)])]])]
              (JStr "p1") (mkEsWorld empty_index []))
    as (v & parent & E & C & D).
  - reflexivity.
  - reflexivity.
  - reflexivity.
  - reflexivity.
  - exists v. split; [exact E|].
    injection E as <-. reflexivity.
Defined.

(** ** Idempotence of the fan-out *)

Lemma apply_all_app c1 c2 idx :
  apply_all (c1 ++ c2) idx = apply_all c2 (apply_all c1 idx).
Proof. unfold apply_all. apply fold_left_app. Qed.

Lemma apply_all_lookup c : forall idx id,
  Forall is_upsert c ->
  apply_all c idx id = match written c id with Some d => Some d | None => idx id end.
Proof.
  induction c as [|r rest IH]; intros idx id Hc; [reflexivity|].
  apply Forall_cons in Hc as [Hr Hrest].
  change (apply_all (r :: rest) idx) with (apply_all rest (fst (mem_exec r idx))).
  rewrite IH by assumption. simpl.
  destruct (written rest id); [reflexivity|].
  destruct r as [i document routing| |]; try contradiction.
  cbn [mem_exec fst]. unfold index_put. now destruct (json_eqb id i).
Qed.

(** Replaying the same writes changes nothing. *)
Lemma apply_all_twice c idx id :
  Forall is_upsert c ->
  apply_all c (apply_all c idx) id = apply_all c idx id.
Proof.
  intros Hc. rewrite (apply_all_lookup c (apply_all c idx)) by assumption.
  rewrite (apply_all_lookup c idx) by assumption.
  now destruct (written c id).
Qed.

Lemma uniform_ret {A} (a : A) : uniform (ret a).
Proof.
  exists [], (inr a). split; [constructor|].
  intros [s calls]. simpl. now rewrite app_nil_r.
Qed.

Lemma uniform_raise {A} (e : exn) : uniform (A:=A) (raise e).
Proof.
  exists [], (inl e). split; [constructor|].
  intros [s calls]. simpl. unfold raise. now rewrite app_nil_r.
Qed.

Lemma uniform_lift {A} (r : result A) : uniform (lift r).
Proof.
  exists [], r. split; [constructor|].
  intros [s calls]. simpl. unfold lift. now rewrite app_nil_r.
Qed.

Lemma uniform_bind {A B} (m : M (EsWorld Index) A) (k : A -> M (EsWorld Index) B) :
  uniform m -> (forall a, uniform (k a)) -> uniform (bind m k).
Proof.
  intros (c1 & res1 & F1 & E1) Hk. destruct res1 as [e|a].
  - exists c1, (inl e). split; [assumption|]. intros w. unfold bind. now rewrite E1.
  - destruct (Hk a) as (c2 & res2 & F2 & E2).
    exists (c1 ++ c2), res2. split; [now apply Forall_app|].
    intros w. unfold bind. rewrite E1, E2. cbn [es_state es_calls].
    now rewrite apply_all_app, app_assoc.
Qed.

Lemma uniform_index id document routing :
  uniform (es_call mem_exec (EsIndex id document routing)).
Proof.
  exists [EsIndex id document routing], (inr tt). split; [repeat constructor|].
  intros w. reflexivity.
Qed.

Lemma uniform_for_each {A} (xs : list A) (body : A -> M (EsWorld Index) unit) :
  (forall x, uniform (body x)) -> uniform (for_each xs body).
Proof.
  intros Hb. induction xs as [|x r IH]; simpl.
  - apply uniform_ret.
  - apply uniform_bind; auto.
Qed.

Lemma uniform_upsert_identified plan_id rel x :
  uniform (upsert_identified mem_exec plan_id rel x).
Proof.
  unfold upsert_identified.
  apply uniform_bind; [apply uniform_lift|]. intros oid.
  destruct (truthy oid); [|apply uniform_ret].
  apply uniform_bind; [apply uniform_lift|]. intros child_id.
  unfold _upsert_child.
  apply uniform_bind; [apply uniform_lift|]. intros fields.
  apply uniform_index.
Qed.

Lemma uniform_index_plan plan_doc : uniform (index_plan mem_exec plan_doc).
Proof.
  unfold index_plan.
  apply uniform_bind; [apply uniform_lift|]. intros plan_id.
  destruct (negb (truthy plan_id)); [apply uniform_raise|].
  apply uniform_bind; [apply uniform_lift|]. intros fields.
  apply uniform_bind.
  { unfold _upsert_parent. destruct (negb _); [apply uniform_ret|apply uniform_index]. }
  intros _.
  apply uniform_bind; [apply uniform_lift|]. intros pcs.
  apply uniform_bind; [apply uniform_upsert_identified|]. intros _.
  apply uniform_bind; [apply uniform_lift|]. intros services.
  apply uniform_bind; [apply uniform_lift|]. intros items.
  apply uniform_for_each. intros item. unfold fan_out_item.
  apply uniform_bind; [apply uniform_lift|]. intros svc.
  apply uniform_bind; [apply uniform_upsert_identified|]. intros _.
  apply uniform_bind; [apply uniform_lift|]. intros pscs.
  apply uniform_upsert_identified.
Qed.

(** C7. Applying [index_plan] to the same record a second time leaves the
    index as the first application left it: under every id the same
    document with the same fields and the same routing value (or no
    document), and the second application ends as the first did. *)
Theorem index_plan_idempotent (plan_doc : json) (w : EsWorld Index) :
  let once := index_plan mem_exec plan_doc w in
  let twice := index_plan mem_exec plan_doc (fst once) in
  (forall id, es_state (fst twice) id = es_state (fst once) id) /\
  snd twice = snd once.
Proof.
  destruct (uniform_index_plan plan_doc) as (c & res & Hc & E).
  cbn zeta. rewrite !E. cbn [fst snd es_state].
  split; [|reflexivity].
  intros id. now apply apply_all_twice.
Qed.

(** After indexing [sample_plan] the index holds the parent and its three
    children, each routed to [p1]. *)
Example index_plan_sample_contents :
  let idx := es_state (fst (index_plan mem_exec sample_plan (mkEsWorld empty_index []))) in
  option_map st_routing (idx (JStr "p1")) = Some (JStr "p1") /\
  option_map st_routing (idx (JStr "c1")) = Some (JStr "p1") /\
  option_map st_routing (idx (JStr "s1")) = Some (JStr "p1") /\
  option_map st_routing (idx (JStr "sc1")) = Some (JStr "p1") /\
  idx (JStr "other") = None.
Proof. repeat split. Qed.

(** ** What the PATCH handler publishes *)

(** Every PATCH that is answered 200 has published one job of the shape
    [{"type": "patch", "id": .., "plan_doc": .., "child_ops": ..}]: the job
    has no ["doc"] field. *)
Lemma patch_plan_publishes_patch_job
  (md5_hexdigest : string -> string) (validate_schema : json -> bool * json)
  (object_id : string) (req : request) (w w' : ApiWorld) (r : response) :
  plan_controller.patch_plan md5_hexdigest validate_schema object_id req w = (w', inr r) ->
  status r = 200 ->
  exists plan_doc child_ops,
    jobs w' =
      jobs w ++ [JObj [("type", JStr "patch"); ("id", JStr object_id);
                       ("plan_doc", plan_doc); ("child_ops", child_ops)]].
Proof.
  unfold plan_controller.patch_plan, bind, ret, lift, redis_service.get_data,
    redis_service.set_data, plan_controller._publish_safe, try_except,
    queue_service.publish.
  destruct (negb (truthy _)); [intros [= <- <-]; discriminate|].
  destruct (plan_controller.stale _ _); [intros [= <- <-]; discriminate|].
  destruct (py_splat _) as [e|old]; [discriminate|].
  destruct (py_items _) as [e|upd]; [discriminate|].
  destruct (validate_schema _) as [valid err].
  destruct (negb valid); [intros [= <- <-]; discriminate|].
  destruct (py_get_default _ _ _) as [e|services]; [discriminate|].
  destruct (py_iter services) as [e|items]; [discriminate|].
  destruct (plan_controller.summarize_items _ _ _) as [e|ops]; [discriminate|].
  cbn [kv jobs broker_up].
  destruct (broker_up w); cbn [bind ret]; intros [= <- <-]; [|discriminate].
  intros _. cbn [jobs]. eauto.
Qed.

(** End to end: the handler accepts the PATCH and publishes its job; the
    worker dead-letters that job and the index is never asked to change. *)
Example sample_patch_is_lost :
  let api := plan_controller.patch_plan sample_digest sample_validate "p1"
               sample_patch sample_store in
  option_map status (match snd api with inr r => Some r | inl _ => None end) = Some 200 /\
  jobs (fst api) = [sample_patch_job] /\
  on_msg mem_exec 1 sample_patch_job (fresh_world sample_patch_job)
  = (mkWorld (mkEsWorld empty_index []) [sample_patch_job]
       [mkDeadLetter (KeyError "doc") sample_patch_job]
       [Ack 1; DeadLetter (mkDeadLetter (KeyError "doc") sample_patch_job)],
     inr tt).
Proof. repeat split; vm_compute; reflexivity. Qed.

(** * Further properties of the code *)

(** ** Key order *)

Lemma insert_item_sorted {A} (kv : string * A) (l : list (string * A)) :
  keys_sorted l = true -> keys_sorted (insert_item kv l) = true.
Proof.
  induction l as [|x r IH]; intros Hs; [reflexivity|].
  cbn [insert_item]. destruct (key_le (fst kv) (fst x)) eqn:E.
  - cbn [keys_sorted]. rewrite E. exact Hs.
  - assert (key_le (fst x) (fst kv) = true) as Hx
      by (destruct (key_le_total (fst kv) (fst x)); congruence).
    destruct r as [|y r'].
    + cbn. now rewrite Hx.
    + cbn [keys_sorted] in Hs. apply andb_true_iff in Hs as [Hxy Hr].
      specialize (IH Hr). cbn [insert_item] in IH |- *.
      destruct (key_le (fst kv) (fst y)) eqn:Ey.
      * cbn [keys_sorted] in IH |- *. now rewrite Hx, IH.
      * cbn [keys_sorted] in IH |- *. now rewrite Hxy, IH.
Qed.

Lemma sort_items_sorted {A} (l : list (string * A)) : keys_sorted (sort_items l) = true.
Proof.
  induction l as [|x r IH]; [reflexivity|]. cbn [sort_items].
  now apply insert_item_sorted.
Qed.

Lemma sort_items_of_sorted {A} (l : list (string * A)) :
  keys_sorted l = true -> sort_items l = l.
Proof.
  induction l as [|x r IH]; intros Hs; [reflexivity|].
  cbn [sort_items]. destruct r as [|y r']; [reflexivity|].
  cbn [keys_sorted] in Hs. apply andb_true_iff in Hs as [Hxy Hr].
  rewrite (IH Hr). cbn [insert_item]. now rewrite Hxy.
Qed.

Lemma sort_items_idem {A} (l : list (string * A)) :
  sort_items (sort_items l) = sort_items l.
Proof. apply sort_items_of_sorted, sort_items_sorted. Qed.

(** ** The canonical form kept in the store *)

Lemma canon_idem : forall v, canon (canon v) = canon v.
Proof.
  fix IH 1. intros [| b | n | s | l | kvs]; try reflexivity.
  - cbn [canon]. f_equal. rewrite map_map.
    induction l as [|x r IHr]; [reflexivity|]. cbn [map]. now rewrite IH, IHr.
  - cbn [canon]. f_equal.
    rewrite (sort_items_map canon), sort_items_idem, <- (sort_items_map canon).
    f_equal. rewrite map_map. cbn [fst snd].
    induction kvs as [|[k x] r IHr]; [reflexivity|]. cbn [map fst snd].
    now rewrite IH, IHr.
Qed.

Lemma dumps_sorted_canon : forall v, dumps_sorted (canon v) = dumps_sorted v.
Proof.
  fix IH 1. intros [| b | n | s | l | kvs]; try reflexivity.
  - cbn [canon dumps_sorted]. do 3 f_equal. rewrite map_map.
    induction l as [|x r IHr]; [reflexivity|]. cbn [map]. now rewrite IH, IHr.
  - cbn [canon dumps_sorted]. do 4 f_equal.
    rewrite (sort_items_map dumps_sorted), sort_items_idem,
      <- (sort_items_map dumps_sorted).
    f_equal. rewrite map_map. cbn [fst snd].
    induction kvs as [|[k x] r IHr]; [reflexivity|]. cbn [map fst snd].
    now rewrite IH, IHr.
Qed.

Lemma truthy_canon v : truthy (canon v) = truthy v.
Proof.
  destruct v as [| b | n | s | l | kvs]; try reflexivity.
  - now destruct l.
  - cbn [canon truthy]. destruct kvs as [|kv r]; [reflexivity|].
    cbn [map sort_items].
    destruct (sort_items (map (fun kv0 => (fst kv0, canon (snd kv0))) r)) as [|y s];
      cbn [insert_item]; [reflexivity|].
    now destruct (key_le _ _).
Qed.

Lemma reordered_canon : forall v, reordered v (canon v).
Proof.
  fix IH 1. intros [| b | n | s | l | kvs]; try apply reordered_refl.
  - cbn [canon]. apply reordered_arr.
    induction l as [|x r IHr]; constructor; auto.
  - cbn [canon].
    apply reordered_obj with (mid := map (fun kv => (fst kv, canon (snd kv))) kvs).
    + induction kvs as [|[k x] r IHr]; constructor; auto.
    + symmetry. apply sort_items_perm.
Qed.

Lemma canon_reordered :
  forall r r', reordered r r' -> wf_json r -> canon r = canon r'.
Proof.
  fix IH 3. intros r r' H.
  destruct H as [v | l l' HF | kvs mid kvs' HF HP]; intros Hwf.
  - reflexivity.
  - apply wf_json_arr in Hwf. cbn [canon]. f_equal.
    induction HF as [|x y l l' Hxy HF IHF]; [reflexivity|].
    apply Forall_cons in Hwf as [Hx Hl]. cbn [map]. f_equal; auto.
  - apply wf_json_obj in Hwf as [Hnd Hall]. cbn [canon]. f_equal.
    assert (map (fun kv => (fst kv, canon (snd kv))) kvs
            = map (fun kv => (fst kv, canon (snd kv))) mid) as Hmid.
    { clear Hnd HP. induction HF as [|x y l l' [Hk Hxy] HF IHF]; [reflexivity|].
      apply Forall_cons in Hall as [Hx Hl]. cbn [map]. f_equal; auto.
      rewrite Hk. f_equal. auto. }
    apply sort_items_order_free.
    + now rewrite map_map.
    + rewrite Hmid. now apply Permutation_map.
Qed.

(** ** The record store *)

(** X1. Reading a key back after [set_data] returns the record that was
    written up to the order of its fields (every dictionary comes back in
    key order), with the same truth value and the same fingerprint; a
    second round trip changes nothing more. *)
Theorem store_round_trip (md5_hexdigest : string -> string)
        (key : string) (value : json) (w : ApiWorld) :
  exists back,
    redis_service.get_data key (fst (redis_service.set_data key value w))
      = (fst (redis_service.set_data key value w), inr back) /\
    reordered value back /\
    truthy back = truthy value /\
    _etag md5_hexdigest back = _etag md5_hexdigest value /\
    redis_service.set_data key back w = redis_service.set_data key value w.
Proof.
  exists (canon value). unfold redis_service.get_data, redis_service.set_data.
  cbn [fst kv]. rewrite lookup_insert_eq. cbn [default from_option id].
  repeat split.
  - apply reordered_canon.
  - apply truthy_canon.
  - unfold _etag. now rewrite dumps_sorted_canon.
  - now rewrite canon_idem.
Qed.

(** X2. Two copies of a record that differ only in the order in which
    their fields were inserted leave the store in the same state. *)
Theorem store_ignores_insertion_order (key : string) (r r' : json) (w : ApiWorld) :
  wf_json r -> reordered r r' ->
  redis_service.set_data key r w = redis_service.set_data key r' w.
Proof.
  intros Hwf Hr. unfold redis_service.set_data.
  now rewrite (canon_reordered r r' Hr Hwf).
Qed.

Lemma store_ignores_insertion_order_witness :
  redis_service.set_data "plan_p1"
    (JObj [("objectId", JStr "p1"); ("planType", JStr "inNetwork")]) sample_store
  = redis_service.set_data "plan_p1"
      (JObj [("planType", JStr "inNetwork"); ("objectId", JStr "p1")]) sample_store.
Proof.
  apply store_ignores_insertion_order.
  - simpl. repeat split; compute_done.
  - eapply reordered_obj with
      (mid := [("objectId", JStr "p1"); ("planType", JStr "inNetwork")]).
    + repeat constructor.
    + apply perm_swap.
Defined.

(** ** The handlers, one after another *)

Lemma py_or_obj kvs : py_or (JObj kvs) (JObj []) = JObj kvs.
Proof. now destruct kvs. Qed.

(** What [put_plan] does once the body is valid and the precondition does
    not reject: the record is stored first, the job published second. *)
Lemma put_plan_accepted
  (md5_hexdigest : string -> string) (validate_schema : json -> bool * json)
  (object_id : string) (req : request) (w : ApiWorld) (errors : json) :
  let payload := py_or (get_json req) (JObj []) in
  let key := plan_controller._key object_id in
  let existing := default JNull (kv w !! key) in
  validate_schema payload = (true, errors) ->
  truthy existing && plan_controller.stale (if_match req) (_etag md5_hexdigest existing)
    = false ->
  plan_controller.put_plan md5_hexdigest validate_schema object_id req w =
    if broker_up w then
      (mkApi (<[key := canon payload]> (kv w))
         (jobs w ++ [JObj [("type", JStr "index"); ("id", JStr object_id);
                           ("doc", payload)]]) true,
       inr (mkResponse 201 (Created "Plan created successfully" object_id)
              (Some (_etag md5_hexdigest payload))))
    else
      (mkApi (<[key := canon payload]> (kv w)) (jobs w) false,
       inr (mkResponse 503 (MessageError "Queue unavailable" AMQPError) None)).
Proof.
  intros payload key existing Hvalid Hpre.
  unfold plan_controller.put_plan. fold payload. rewrite Hvalid. cbn [negb].
  unfold bind at 1. unfold redis_service.get_data at 1. fold key. fold existing.
  rewrite Hpre.
  unfold bind, ret, redis_service.set_data, plan_controller._publish_safe,
    try_except, queue_service.publish.
  cbn [kv jobs broker_up]. now destruct (broker_up w).
Qed.

(** A PUT answered 201 has stored the body and published its job. *)
Lemma put_plan_201
  (md5_hexdigest : string -> string) (validate_schema : json -> bool * json)
  (object_id : string) (req : request) (w w1 : ApiWorld) (r : response) :
  plan_controller.put_plan md5_hexdigest validate_schema object_id req w = (w1, inr r) ->
  status r = 201 ->
  let payload := py_or (get_json req) (JObj []) in
  kv w1 = <[plan_controller._key object_id := canon payload]> (kv w) /\
  jobs w1 = jobs w ++ [JObj [("type", JStr "index"); ("id", JStr object_id);
                             ("doc", payload)]] /\
  etag r = Some (_etag md5_hexdigest payload).
Proof.
  intros Hput Hstatus payload. revert Hput.
  unfold plan_controller.put_plan. fold payload.
  destruct (validate_schema payload) as [valid errors] eqn:Hvalid.
  destruct valid; cbn [negb];
    [|intros [= <- <-]; discriminate].
  unfold bind at 1. unfold redis_service.get_data at 1. cbn [kv].
  destruct (truthy _ && plan_controller.stale _ _);
    [intros [= <- <-]; discriminate|].
  unfold bind, ret, redis_service.set_data, plan_controller._publish_safe,
    try_except, queue_service.publish.
  cbn [kv jobs broker_up].
  destruct (broker_up w); intros [= <- <-]; [|discriminate].
  repeat split.
Qed.

(** X3. The ETag a PUT answers with is the one the next GET computes: a
    GET that presents it in [If-None-Match] is answered 304, any other GET
    returns the stored record (in key order) under that ETag.  The
    exception is an empty body: it is stored, and GET then answers 404. *)
Theorem put_then_conditional_get
  (md5_hexdigest : string -> string) (validate_schema : json -> bool * json)
  (object_id : string) (req : request) (w w1 : ApiWorld) (r : response) :
  plan_controller.put_plan md5_hexdigest validate_schema object_id req w = (w1, inr r) ->
  status r = 201 ->
  let payload := py_or (get_json req) (JObj []) in
  let tag := _etag md5_hexdigest payload in
  etag r = Some tag /\
  forall h,
    plan_handlers.get_plan md5_hexdigest object_id h w1 =
      (w1, inr (if negb (truthy payload) then
                  mkReply 404 (JsonBody (JObj [("message", JStr "Not found")])) []
                else if match h with Some x => String.eqb x tag | None => false end
                then mkReply 304 NoBody []
                else mkReply 200 (JsonBody (canon payload)) [("ETag", tag)])).
Proof.
  intros Hput Hstatus payload tag.
  destruct (put_plan_201 _ _ _ _ _ _ _ Hput Hstatus) as (Hkv & _ & Hetag).
  split; [exact Hetag|]. intros h.
  unfold plan_handlers.get_plan, bind, redis_service.get_data, ret.
  rewrite Hkv, lookup_insert_eq. cbn [default from_option id].
  rewrite truthy_canon. fold payload.
  assert (_etag md5_hexdigest (canon payload) = tag) as ->
    by (unfold tag, _etag; now rewrite dumps_sorted_canon).
  destruct (truthy payload); cbn [negb]; [|reflexivity].
  now destruct (match h with Some x => String.eqb x tag | None => false end).
Qed.

Lemma put_then_conditional_get_witness :
  let req := mkRequest sample_plan None in
  let w1 := fst (plan_controller.put_plan sample_digest sample_validate "p1" req
                   sample_store) in
  plan_handlers.get_plan sample_digest "p1"
    (Some (_etag sample_digest sample_plan)) w1
  = (w1, inr (mkReply 304 NoBody [])).
Proof.
  intros req w1.
  destruct (put_then_conditional_get sample_digest sample_validate "p1" req
              sample_store w1
              (mkResponse 201 (Created "Plan created successfully" "p1")
                 (Some (_etag sample_digest sample_plan))))
    as [_ Hget].
  - vm_compute. reflexivity.
  - reflexivity.
  - rewrite (Hget (Some (_etag sample_digest sample_plan))).
    vm_compute. reflexivity.
Defined.

Lemma not_stale (h : option string) (digest : string) :
  h = None \/ h = Some ""%string \/ h = Some digest ->
  plan_controller.stale h digest = false.
Proof.
  intros [-> | [-> | ->]]; unfold plan_controller.stale; [reflexivity|reflexivity|].
  rewrite (String.eqb_refl digest). apply andb_false_r.
Qed.

(** X4. A PUT with a valid body is accepted when nothing is stored under
    the id (whatever [If-Match] says), when [If-Match] is absent or empty,
    or when it equals the digest of the stored record.  The record is
    written before the job is published: with the broker reachable the job
    goes to the tail of the queue and the answer is 201; with the broker
    unreachable the answer is 503 and the record stays written, with no
    job for it. *)
Theorem put_plan_stores_before_publishing
  (md5_hexdigest : string -> string) (validate_schema : json -> bool * json)
  (object_id : string) (req : request) (w : ApiWorld) (errors : json) :
  let payload := py_or (get_json req) (JObj []) in
  let key := plan_controller._key object_id in
  let existing := default JNull (kv w !! key) in
  let out := plan_controller.put_plan md5_hexdigest validate_schema object_id req w in
  validate_schema payload = (true, errors) ->
  truthy existing = false \/ if_match req = None \/ if_match req = Some ""%string \/
    if_match req = Some (_etag md5_hexdigest existing) ->
  kv (fst out) = <[key := canon payload]> (kv w) /\
  (broker_up w = true ->
   jobs (fst out) = jobs w ++ [JObj [("type", JStr "index"); ("id", JStr object_id);
                                     ("doc", payload)]] /\
   snd out = inr (mkResponse 201 (Created "Plan created successfully" object_id)
                    (Some (_etag md5_hexdigest payload)))) /\
  (broker_up w = false ->
   jobs (fst out) = jobs w /\
   snd out = inr (mkResponse 503 (MessageError "Queue unavailable" AMQPError) None)).
Proof.
  intros payload key existing out Hvalid Hpre.
  assert (truthy existing &&
          plan_controller.stale (if_match req) (_etag md5_hexdigest existing) = false)
    as Hgo.
  { destruct Hpre as [-> | Hh]; [reflexivity|].
    rewrite (not_stale _ _ Hh). apply andb_false_r. }
  unfold out.
  rewrite (put_plan_accepted md5_hexdigest validate_schema object_id req w errors
             Hvalid Hgo).
  fold payload key.
  destruct (broker_up w); cbn [fst snd kv jobs]; repeat split; intros; congruence.
Qed.

Lemma put_plan_stores_before_publishing_witness :
  let down := mkApi (kv sample_store) [] false in
  let out := plan_controller.put_plan sample_digest sample_validate "p1"
               (mkRequest sample_plan (Some "0123456789abcdef"))
               (mkApi ∅ [] false) in
  kv (fst out) = <[plan_controller._key "p1" := canon sample_plan]> ∅ /\
  jobs (fst out) = [] /\
  snd out = inr (mkResponse 503 (MessageError "Queue unavailable" AMQPError) None).
Proof.
  intros down out.
  destruct (put_plan_stores_before_publishing sample_digest sample_validate "p1"
              (mkRequest sample_plan (Some "0123456789abcdef"))
              (mkApi ∅ [] false) JNull) as (Hkv & _ & Hdown).
  - reflexivity.
  - left. reflexivity.
  - destruct (Hdown eq_refl) as [Hj Hr]. auto.
Defined.

(** X5. After a DELETE the record is gone whatever the broker does: a GET
    answers 404, and a second DELETE answers 404 while publishing one more
    [delete] job (or 503 when the broker is unreachable). *)
Theorem delete_then_absent
  (md5_hexdigest : string -> string) (object_id : string) (w : ApiWorld) :
  let w1 := fst (plan_controller.delete_plan object_id w) in
  let job := JObj [("type", JStr "delete"); ("id", JStr object_id)] in
  (forall h,
      plan_handlers.get_plan md5_hexdigest object_id h w1 =
        (w1, inr (mkReply 404 (JsonBody (JObj [("message", JStr "Not found")])) []))) /\
  plan_controller.delete_plan object_id w1 =
    if broker_up w then
      (mkApi (kv w1) (jobs w ++ [job; job]) true,
       inr (mkResponse 404 (Message "Plan not found") None))
    else
      (w1, inr (mkResponse 503 (MessageError "Queue unavailable" AMQPError) None)).
Proof.
  intros w1 job.
  assert (kv w1 = delete (plan_controller._key object_id) (kv w) /\
          broker_up w1 = broker_up w /\
          jobs w1 = if broker_up w then jobs w ++ [job] else jobs w) as (Hkv & Hup & Hj).
  { unfold w1, plan_controller.delete_plan, plan_controller._publish_safe, bind, ret,
      try_except, redis_service.get_data, redis_service.delete_data,
      queue_service.publish. cbn [kv jobs broker_up].
    destruct (broker_up w);
      destruct (negb (truthy (default JNull (kv w !! plan_controller._key object_id))));
      repeat split. }
  split.
  - intros h. unfold plan_handlers.get_plan, bind, redis_service.get_data, ret.
    now rewrite Hkv, lookup_delete_eq.
  - unfold plan_controller.delete_plan, plan_controller._publish_safe, bind, ret,
      try_except, redis_service.get_data, redis_service.delete_data,
      queue_service.publish.
    clearbody w1. destruct w1 as [k1 j1 u1]. cbn [kv jobs broker_up] in *.
    subst k1 u1 j1. rewrite lookup_delete_eq, delete_delete_eq.
    cbn [default from_option id truthy negb].
    destruct (broker_up w); [now rewrite <- app_assoc|reflexivity].
Qed.

(** X6. A POST whose body is valid and carries a non-empty string
    [objectId] stores the body under that id, replacing whatever was there
    (no precondition is looked at), publishes the [index] job and answers
    201 with the ETag and the location of the record; a GET of that id
    presenting the ETag is then answered 304. *)
Theorem create_then_get
  (md5_hexdigest : string -> string) (validate_schema : json -> bool * json)
  (container_repr : json -> string)
  (kvs : list (string * json)) (object_id : string) (w : ApiWorld) (errors : json) :
  validate_schema (JObj kvs) = (true, errors) ->
  dict_get kvs "objectId" = Some (JStr object_id) ->
  object_id <> ""%string ->
  broker_up w = true ->
  let tag := _etag md5_hexdigest (JObj kvs) in
  let w1 := mkApi (<[plan_controller._key object_id := canon (JObj kvs)]> (kv w))
              (jobs w ++ [JObj [("type", JStr "index"); ("id", JStr object_id);
                                ("doc", JObj kvs)]]) true in
  plan_handlers.create_plan md5_hexdigest validate_schema container_repr (JObj kvs) w
    = (w1, inr (mkReply 201
                  (JsonBody (JObj [("message", JStr "Plan created successfully");
                                   ("objectId", JStr object_id)]))
                  [("ETag", tag);
                   ("Location", ("/api/v1/plan/" ++ object_id)%string)])) /\
  plan_handlers.get_plan md5_hexdigest object_id (Some tag) w1
    = (w1, inr (mkReply 304 NoBody [])).
Proof.
  intros Hvalid Hid Hne Hup tag w1.
  assert (kvs <> []) as Hkvs by (intros ->; discriminate).
  split.
  - unfold plan_handlers.create_plan. rewrite py_or_obj, Hvalid. cbn [negb].
    unfold bind at 1. unfold lift at 1, py_get. rewrite Hid.
    cbn [default from_option id truthy plan_handlers.py_str].
    apply String.eqb_neq in Hne. rewrite Hne. cbn [negb].
    unfold bind, ret, redis_service.set_data, plan_controller._publish_safe,
      try_except, queue_service.publish. cbn [kv jobs broker_up].
    rewrite Hup. reflexivity.
  - unfold plan_handlers.get_plan, bind, redis_service.get_data, ret, w1.
    cbn [kv]. rewrite lookup_insert_eq. cbn [default from_option id].
    rewrite truthy_canon.
    assert (truthy (JObj kvs) = true) as -> by now destruct kvs.
    cbn [negb].
    assert (_etag md5_hexdigest (canon (JObj kvs)) = tag) as ->
      by (unfold tag, _etag; now rewrite dumps_sorted_canon).
    now rewrite String.eqb_refl.
Qed.

Lemma create_then_get_witness :
  fst (plan_handlers.create_plan sample_digest sample_validate (fun _ => ""%string)
         sample_plan (mkApi ∅ [] true))
  = mkApi (<[plan_controller._key "p1" := canon sample_plan]> ∅)
      [JObj [("type", JStr "index"); ("id", JStr "p1"); ("doc", sample_plan)]] true.
Proof.
  destruct (create_then_get sample_digest sample_validate (fun _ => ""%string)
              [("objectId", JStr "p1"); ("_org", JStr "example.com");
               ("planType", JStr "inNetwork");
               ("planCostShares",
                JObj [("objectId", JStr "c1"); ("copay", JNum 23)]);
               ("linkedPlanServices",
                JArr [JObj [("linkedService", JObj [("objectId", JStr "s1")]);
                            ("planserviceCostShares",
                             JObj [("objectId", JStr "sc1"); ("copay", JNum 0)])]])]
              "p1" (mkApi ∅ [] true) JNull) as [Hcreate _].
  - reflexivity.
  - reflexivity.
  - discriminate.
  - reflexivity.
  - unfold sample_plan. rewrite Hcreate. reflexivity.
Defined.

(** X7. A POST writes to the store or to the queue only when its body
    passed validation and carries a truthy [objectId]; in every other case
    (invalid body, missing, null or empty id, a body that is not an object)
    the world is left as it was. *)
Theorem create_plan_writes_only_identified
  (md5_hexdigest : string -> string) (validate_schema : json -> bool * json)
  (container_repr : json -> string) (body : json) (w : ApiWorld) :
  let data := py_or body (JObj []) in
  fst (plan_handlers.create_plan md5_hexdigest validate_schema container_repr body w)
    <> w ->
  fst (validate_schema data) = true /\
  exists kvs oid,
    data = JObj kvs /\ dict_get kvs "objectId" = Some oid /\ truthy oid = true.
Proof.
  intros data. unfold plan_handlers.create_plan. fold data.
  destruct (validate_schema data) as [valid errors].
  destruct valid; cbn [negb fst]; [|intros H; now contradiction H].
  unfold bind at 1. unfold lift at 1, py_get.
  destruct data as [| | | | |kvs]; try (intros H; now contradiction H).
  destruct (dict_get kvs "objectId") as [oid|] eqn:Hid; cbn [default from_option id];
    [|intros H; now contradiction H].
  destruct (truthy oid) eqn:Ht; cbn [negb]; [|intros H; now contradiction H].
  intros _. split; [reflexivity|]. eauto.
Qed.

Lemma create_plan_writes_only_identified_witness :
  fst (sample_validate (py_or sample_plan (JObj []))) = true /\
  exists kvs id,
    py_or sample_plan (JObj []) = JObj kvs /\
    dict_get kvs "objectId" = Some id /\ truthy id = true.
Proof.
  apply (create_plan_writes_only_identified sample_digest sample_validate
           (fun _ => ""%string) sample_plan (mkApi ∅ [] false)).
  intros H. apply (f_equal kv) in H. apply (f_equal (fun m => m !! "plan_p1"%string)) in H.
  vm_compute in H. discriminate.
Defined.

(** ** Merging dictionaries *)

Lemma dict_get_notin kvs k : ~ In k (map fst kvs) -> dict_get kvs k = None.
Proof.
  induction kvs as [|[k' v] r IH]; intros Hn; [reflexivity|].
  cbn [dict_get]. destruct (String.eqb k' k) eqn:E.
  - apply String.eqb_eq in E. subst. exfalso. apply Hn. now left.
  - apply IH. intros Hin. apply Hn. now right.
Qed.

(** [{**a, **b}[k]] is [b[k]] when [b] has [k] and [a[k]] otherwise. *)
Lemma dict_get_merge b : forall a k,
  NoDup (map fst b) ->
  dict_get (dict_merge a b) k =
    match dict_get b k with Some v => Some v | None => dict_get a k end.
Proof.
  induction b as [|[k' v] r IH]; intros a k Hnd; [reflexivity|].
  cbn [map fst] in Hnd. apply NoDup_cons in Hnd as [Hnotin Hnd].
  change (dict_merge a ((k', v) :: r)) with (dict_merge (dict_set a k' v) r).
  rewrite IH by assumption. cbn [dict_get].
  destruct (String.eqb k' k) eqn:E.
  - apply String.eqb_eq in E. subst k'.
    rewrite dict_get_notin; [apply dict_get_set_eq|].
    intros Hin. apply Hnotin. now apply list_elem_of_In.
  - apply String.eqb_neq in E. destruct (dict_get r k); [reflexivity|].
    now apply dict_get_set_ne.
Qed.

Lemma dict_get_filter_key (kvs : list (string * json)) (skip k : string) :
  dict_get (List.filter (fun kv => negb (String.eqb (fst kv) skip)) kvs) k =
    if String.eqb k skip then None else dict_get kvs k.
Proof.
  induction kvs as [|[k' v] r IH]; cbn [List.filter dict_get fst].
  - now destruct (String.eqb k skip).
  - destruct (String.eqb k' skip) eqn:Es; cbn [negb dict_get].
    + rewrite IH. destruct (String.eqb k skip) eqn:Ek; [reflexivity|].
      destruct (String.eqb k' k) eqn:E; [|reflexivity].
      apply String.eqb_eq in E, Es. apply String.eqb_neq in Ek. congruence.
    + rewrite IH. destruct (String.eqb k' k) eqn:E; [|reflexivity].
      apply String.eqb_eq in E. subst k'. now rewrite Es.
Qed.

Lemma NoDup_filter_keys (kvs : list (string * json)) (f : string * json -> bool) :
  NoDup (map fst kvs) -> NoDup (map fst (List.filter f kvs)).
Proof.
  induction kvs as [|kv r IH]; intros Hnd; [constructor|].
  cbn [map] in Hnd. apply NoDup_cons in Hnd as [Hnotin Hnd].
  cbn [List.filter]. destruct (f kv); [|auto].
  cbn [map]. apply NoDup_cons. split; [|auto].
  intros Hin. apply Hnotin. apply list_elem_of_In in Hin. apply list_elem_of_In.
  apply in_map_iff in Hin as (x & Hx & Hf). apply filter_In in Hf as [Hf _].
  apply in_map_iff. eauto.
Qed.

(** X8. A PATCH that is answered 200 has stored the merge of the record
    and the body: every field named in the body has the body's value
    ([linkedPlanServices] is replaced as a whole, not merged), every other
    field keeps the value it had; the ETag of the answer is the digest of
    the merged record. *)
Theorem patch_plan_merges
  (md5_hexdigest : string -> string) (validate_schema : json -> bool * json)
  (object_id : string) (req : request) (w w1 : ApiWorld) (r : response)
  (old upd : list (string * json)) :
  plan_controller.patch_plan md5_hexdigest validate_schema object_id req w = (w1, inr r) ->
  status r = 200 ->
  kv w !! plan_controller._key object_id = Some (JObj old) ->
  get_json req = JObj upd ->
  NoDup (map fst upd) ->
  exists merged,
    kv w1 = <[plan_controller._key object_id := canon (JObj merged)]> (kv w) /\
    etag r = Some (_etag md5_hexdigest (JObj merged)) /\
    forall k, dict_get merged k =
                match dict_get upd k with Some v => Some v | None => dict_get old k end.
Proof.
  intros Hpatch Hstatus Hold Hbody Hnd. revert Hpatch.
  unfold plan_controller.patch_plan, bind, ret, lift, redis_service.get_data,
    redis_service.set_data, plan_controller._publish_safe, try_except,
    queue_service.publish.
  rewrite Hold, Hbody, py_or_obj. cbn [default from_option id py_splat py_items].
  destruct (negb (truthy (JObj old))); [intros [= <- <-]; discriminate|].
  destruct (plan_controller.stale _ _); [intros [= <- <-]; discriminate|].
  set (merged0 := dict_merge old
         (List.filter (fun kv => negb (String.eqb (fst kv) "linkedPlanServices")) upd)).
  set (merged := match dict_get upd "linkedPlanServices" with
                 | Some v => dict_set merged0 "linkedPlanServices" v
                 | None => merged0
                 end).
  destruct (validate_schema (JObj merged)) as [valid err].
  destruct (negb valid); [intros [= <- <-]; discriminate|].
  destruct (py_get_default _ _ _) as [e|services]; [discriminate|].
  destruct (py_iter services) as [e|items]; [discriminate|].
  destruct (plan_controller.summarize_items _ _ _) as [e|ops]; [discriminate|].
  cbn [kv jobs broker_up].
  destruct (broker_up w); intros [= <- <-]; [|discriminate].
  exists merged. cbn [kv etag]. split; [reflexivity|]. split; [reflexivity|].
  intros k.
  assert (forall k', dict_get merged0 k' =
                     if String.eqb k' "linkedPlanServices" then dict_get old k'
                     else match dict_get upd k' with
                          | Some v => Some v
                          | None => dict_get old k'
                          end) as Hm0.
  { intros k'. unfold merged0.
    rewrite dict_get_merge by now apply NoDup_filter_keys.
    rewrite dict_get_filter_key. now destruct (String.eqb k' "linkedPlanServices"). }
  unfold merged.
  destruct (String.eqb k "linkedPlanServices") eqn:Ek.
  - apply String.eqb_eq in Ek. subst k.
    destruct (dict_get upd "linkedPlanServices") as [v|].
    + apply dict_get_set_eq.
    + now rewrite Hm0.
  - apply String.eqb_neq in Ek.
    destruct (dict_get upd "linkedPlanServices") as [v|].
    + rewrite dict_get_set_ne by congruence. rewrite Hm0.
      apply String.eqb_neq in Ek. now rewrite Ek.
    + rewrite Hm0. apply String.eqb_neq in Ek. now rewrite Ek.
Qed.

Lemma patch_plan_merges_witness :
  exists merged,
    kv (fst (plan_controller.patch_plan sample_digest sample_validate "p1"
               sample_patch sample_store))
    = <[plan_controller._key "p1" := canon (JObj merged)]> (kv sample_store) /\
    dict_get merged "planType" = Some (JStr "outOfNetwork") /\
    dict_get merged "_org" = Some (JStr "example.com").
Proof.
  destruct (patch_plan_merges sample_digest sample_validate "p1" sample_patch
              sample_store
              (fst (plan_controller.patch_plan sample_digest sample_validate "p1"
                      sample_patch sample_store))
              (mkResponse 200
                 (Patched "p1" [JObj [("type", JStr "plan");
                                      ("planType", JStr "outOfNetwork")]])
                 (Some (_etag sample_digest
                          (JObj [("objectId", JStr "p1"); ("_org", JStr "example.com");
                                 ("planType", JStr "outOfNetwork");
                                 ("planCostShares",
                                  JObj [("objectId", JStr "c1"); ("copay", JNum 23)]);
                                 ("linkedPlanServices",
                                  JArr [JObj [("linkedService",
                                               JObj [("objectId", JStr "s1")]);
                                              ("planserviceCostShares",
                                               JObj [("objectId", JStr "sc1");
                                                     ("copay", JNum 0)])]])]))))
              [("objectId", JStr "p1"); ("_org", JStr "example.com");
               ("planType", JStr "inNetwork");
               ("planCostShares",
                JObj [("objectId", JStr "c1"); ("copay", JNum 23)]);
               ("linkedPlanServices",
                JArr [JObj [("linkedService", JObj [("objectId", JStr "s1")]);
                            ("planserviceCostShares",
                             JObj [("objectId", JStr "sc1"); ("copay", JNum 0)])]])]
              [("planType", JStr "outOfNetwork")])
    as (merged & Hkv & _ & Hget).
  - vm_compute. reflexivity.
  - reflexivity.
  - apply lookup_insert_eq.
  - reflexivity.
  - compute_done.
  - exists merged. split; [exact Hkv|]. split; rewrite Hget; reflexivity.
Defined.

(** ** The indexer against the index *)

Section FailFast.

Context {S : Type}.
Variable es_exec : es_request -> S -> S * option exn.

Lemma replay_app c1 c2 s s1 :
  replay es_exec c1 s = (s1, None, []) ->
  replay es_exec (c1 ++ c2) s = replay es_exec c2 s1.
Proof.
  revert s. induction c1 as [|r rest IH]; intros s H.
  - cbn in H. now injection H as ->.
  - cbn [replay app] in *. destruct (es_exec r s) as [s' [e|]]; [discriminate|].
    now apply IH.
Qed.

Lemma fail_fast_pure {A} (r : result A) : fail_fast es_exec (lift r).
Proof.
  intros w. exists [], None. cbn. rewrite app_nil_r. repeat split. discriminate.
Qed.

Lemma fail_fast_ret {A} (a : A) : fail_fast es_exec (ret a).
Proof. apply (fail_fast_pure (inr a)). Qed.

Lemma fail_fast_raise {A} (e : exn) : fail_fast es_exec (A:=A) (raise e).
Proof. apply (fail_fast_pure (inl e)). Qed.

Lemma fail_fast_es_call r : fail_fast es_exec (es_call es_exec r).
Proof.
  intros w. unfold es_call. exists [r]. cbn [replay].
  destruct (es_exec r (es_state w)) as [s' [e|]]; cbn [fst snd es_calls es_state].
  - exists (Some e). repeat split. now intros ? [= <-].
  - exists None. repeat split. discriminate.
Qed.

Lemma fail_fast_bind {A B} (m : M (EsWorld S) A) (k : A -> M (EsWorld S) B) :
  fail_fast es_exec m -> (forall a, fail_fast es_exec (k a)) ->
  fail_fast es_exec (bind m k).
Proof.
  intros Hm Hk w. unfold bind.
  destruct (Hm w) as (c1 & f1 & E1 & R1 & F1).
  destruct (m w) as [w1 [e|a]]; cbn [fst snd] in *.
  - exists c1, f1. split; [assumption|]. split; [assumption|].
    intros e0 H0. specialize (F1 e0 H0). now injection F1 as ->.
  - destruct f1 as [e|]; [specialize (F1 e eq_refl); discriminate|].
    destruct (Hk a w1) as (c2 & f2 & E2 & R2 & F2).
    exists (c1 ++ c2), f2. rewrite E2, E1, app_assoc. split; [reflexivity|].
    split; [|assumption]. now rewrite (replay_app _ _ _ _ R1).
Qed.

Lemma fail_fast_for_each {A} (xs : list A) (body : A -> M (EsWorld S) unit) :
  (forall x, fail_fast es_exec (body x)) -> fail_fast es_exec (for_each xs body).
Proof.
  intros Hb. induction xs as [|x r IH]; cbn [for_each].
  - apply fail_fast_ret.
  - apply fail_fast_bind; auto.
Qed.

Lemma fail_fast_upsert_identified plan_id rel x :
  fail_fast es_exec (upsert_identified es_exec plan_id rel x).
Proof.
  unfold upsert_identified.
  apply fail_fast_bind; [apply fail_fast_pure|]. intros oid.
  destruct (truthy oid); [|apply fail_fast_ret].
  apply fail_fast_bind; [apply fail_fast_pure|]. intros child_id.
  unfold _upsert_child.
  apply fail_fast_bind; [apply fail_fast_pure|]. intros fields.
  apply fail_fast_es_call.
Qed.

Lemma fail_fast_upsert_parent plan_id fields :
  fail_fast es_exec (_upsert_parent es_exec plan_id fields).
Proof.
  unfold _upsert_parent. destruct (negb _); [apply fail_fast_ret|apply fail_fast_es_call].
Qed.

Lemma fail_fast_items plan_id (services : result json) :
  fail_fast es_exec
    (bind (lift services) (fun services =>
       bind (lift (py_iter (py_or services (JArr [])))) (fun items =>
         for_each items (fan_out_item es_exec plan_id)))).
Proof.
  apply fail_fast_bind; [apply fail_fast_pure|]. intros sv.
  apply fail_fast_bind; [apply fail_fast_pure|]. intros items.
  apply fail_fast_for_each. intros item. unfold fan_out_item.
  apply fail_fast_bind; [apply fail_fast_pure|]. intros svc.
  apply fail_fast_bind; [apply fail_fast_upsert_identified|]. intros _.
  apply fail_fast_bind; [apply fail_fast_pure|]. intros pscs.
  apply fail_fast_upsert_identified.
Qed.

End FailFast.

(** X9. [index_plan] and [patch_plan] send their writes one after the
    other and stop at the first one the index refuses: the exception of
    that write is the exception of the call, no later write is sent, and
    the writes already made stay (nothing is undone).  When the call
    returns normally every write succeeded. *)
Theorem fan_out_stops_at_first_failure :
  (forall (S : Type) (es_exec : es_request -> S -> S * option exn) (plan_doc : json),
      fail_fast es_exec (index_plan es_exec plan_doc))
  /\
  (forall (S : Type) (es_exec : es_request -> S -> S * option exn)
          (plan_id updates : json),
      fail_fast es_exec (patch_plan es_exec plan_id updates)).
Proof.
  split.
  - intros S es_exec plan_doc. unfold index_plan.
    apply fail_fast_bind; [apply fail_fast_pure|]. intros plan_id.
    destruct (negb (truthy plan_id)); [apply fail_fast_raise|].
    apply fail_fast_bind; [apply fail_fast_pure|]. intros fields.
    apply fail_fast_bind; [apply fail_fast_upsert_parent|]. intros _.
    apply fail_fast_bind; [apply fail_fast_pure|]. intros pcs.
    apply fail_fast_bind; [apply fail_fast_upsert_identified|]. intros _.
    apply fail_fast_items.
  - intros S es_exec plan_id updates. unfold patch_plan.
    apply fail_fast_bind; [apply fail_fast_pure|]. intros fields.
    apply fail_fast_bind; [apply fail_fast_upsert_parent|]. intros _.
    apply fail_fast_bind.
    { destruct (dict_has fields "planCostShares"); [|apply fail_fast_ret].
      apply fail_fast_bind; [apply fail_fast_pure|]. intros pcs.
      apply fail_fast_upsert_identified. }
    intros _. apply fail_fast_items.
Qed.

(** With the cluster unreachable, indexing [sample_plan] sends the parent
    write, raises the connection error and sends nothing else. *)
Example index_plan_cluster_down :
  index_plan down_exec sample_plan (mkEsWorld empty_index [])
  = (mkEsWorld empty_index
       [EsIndex (JStr "p1")
          (JObj [("objectId", JStr "p1"); ("objectType", JStr "plan");
                 ("rel", JStr "plan"); ("_org", JStr "example.com");
                 ("planType", JStr "inNetwork")])
          (JStr "p1")],
     inl ESConnError).
Proof. reflexivity. Qed.

Lemma emits_index_plan_routed {S} (es_exec : es_request -> S -> S * option exn)
      (plan_doc : json) :
  emits (routed_to (record_id plan_doc)) (index_plan es_exec plan_doc).
Proof.
  assert (forall pid rel x,
             emits (routed_to pid) (upsert_identified es_exec pid rel x)) as Hchild.
  { intros pid rel x. unfold upsert_identified.
    apply emits_bind; [apply emits_lift|]. intros oid.
    destruct (truthy oid); [|apply emits_ret].
    apply emits_bind; [apply emits_lift|]. intros child_id.
    unfold _upsert_child.
    apply emits_bind; [apply emits_lift|]. intros fields.
    apply emits_es_call. unfold routed_to. eauto. }
  unfold index_plan.
  destruct plan_doc as [| | | | |kvs];
    try (apply emits_bind; [apply emits_lift|]; intros ?; apply emits_raise);
    try (intros w; exists []; cbn; now rewrite app_nil_r).
  intros w. unfold bind at 1. unfold lift at 1, py_get. cbn [record_id].
  set (pid := default JNull (dict_get kvs "objectId")).
  destruct (negb (truthy pid)); [apply emits_raise|].
  revert w. apply emits_bind; [apply emits_lift|]. intros fields.
  apply emits_bind.
  { unfold _upsert_parent. destruct (negb _); [apply emits_ret|].
    apply emits_es_call. unfold routed_to. eauto. }
  intros _.
  apply emits_bind; [apply emits_lift|]. intros pcs.
  apply emits_bind; [apply Hchild|]. intros _.
  apply emits_bind; [apply emits_lift|]. intros services.
  apply emits_bind; [apply emits_lift|]. intros items.
  apply emits_for_each. intros item. unfold fan_out_item.
  apply emits_bind; [apply emits_lift|]. intros svc.
  apply emits_bind; [apply Hchild|]. intros _.
  apply emits_bind; [apply emits_lift|]. intros pscs.
  apply Hchild.
Qed.

Lemma written_routed c plan_id id d :
  Forall (routed_to plan_id) c -> written c id = Some d -> st_routing d = plan_id.
Proof.
  induction c as [|r rest IH]; intros Hc Hw; [discriminate|].
  apply Forall_cons in Hc as [Hr Hrest]. cbn [written] in Hw.
  destruct (written rest id) as [d'|] eqn:E.
  - injection Hw as <-. now apply IH.
  - destruct Hr as (i & document & ->).
    destruct (json_eqb id i); [|discriminate]. now injection Hw as <-.
Qed.

(** What the cascade leaves in the in-memory index. *)
Lemma mem_delete_survivors (plan_id : json) (w : EsWorld Index) (i : json) (d : stored) :
  es_state (fst (delete_plan_from_index mem_exec plan_id w)) i = Some d ->
  st_routing d <> plan_id /\ i <> plan_id /\ es_state w i = Some d.
Proof.
  destruct w as [idx calls].
  unfold delete_plan_from_index, bind, try_except, es_call, ret.
  cbn [es_state es_calls mem_exec].
  assert (forall idx1 : Index,
             (forall j dj, idx1 j = Some dj -> j <> plan_id /\ idx j = Some dj) ->
             match idx1 i with
             | Some d0 =>
                 if matches (HasParent "plan" plan_id) idx1 d0 then None
                 else if json_eqb (st_routing d0) plan_id then None else Some d0
             | None => None
             end = Some d ->
             st_routing d <> plan_id /\ i <> plan_id /\ idx i = Some d) as Hgen.
  { intros idx1 Hsub. destruct (idx1 i) as [d0|] eqn:E; [|discriminate].
    destruct (matches _ _ d0); [discriminate|].
    destruct (json_eqb (st_routing d0) plan_id) eqn:Er; [discriminate|].
    intros [= <-]. destruct (Hsub _ _ E). auto using json_eqb_false. }
  destruct (idx plan_id) as [d0|] eqn:E0; cbn [fst es_state es_calls mem_exec].
  - intros H. apply (Hgen (index_put idx plan_id None)).
    + intros j dj. unfold index_put.
      destruct (json_eqb j plan_id) eqn:Ej; [discriminate|].
      auto using json_eqb_false.
    + revert H. destruct (index_put idx plan_id None i) as [d1|]; [|discriminate].
      destruct (matches (HasParent "plan" plan_id) (index_put idx plan_id None) d1);
        [discriminate|].
      cbn [matches]. auto.
  - intros H. apply (Hgen idx).
    + intros j dj Hj. split; [|assumption]. intros ->. congruence.
    + revert H. destruct (idx i) as [d1|]; [|discriminate].
      destruct (matches (HasParent "plan" plan_id) idx d1); [discriminate|].
      cbn [matches]. auto.
Qed.

(** X10. Indexing a record and then deleting its id leaves, in the
    in-memory index, none of the documents the indexing wrote: every
    document still present was in the index before the indexing, unchanged,
    is not routed to the id and is not the document of the id. *)
Theorem index_then_delete_leaves_nothing (plan_doc : json) (w : EsWorld Index) :
  let indexed := fst (index_plan mem_exec plan_doc w) in
  let deleted := fst (delete_plan_from_index mem_exec (record_id plan_doc) indexed) in
  forall i d,
    es_state deleted i = Some d ->
    es_state w i = Some d /\ st_routing d <> record_id plan_doc /\ i <> record_id plan_doc.
Proof.
  intros indexed deleted i d Hd.
  apply mem_delete_survivors in Hd as (Hr & Hi & Hd).
  split; [|auto].
  destruct (uniform_index_plan plan_doc) as (c & res & Hc & E).
  destruct (emits_index_plan_routed mem_exec plan_doc w) as (c' & Ecalls & Hrouted).
  fold indexed in Ecalls. unfold indexed in *. rewrite E in Hd, Ecalls.
  cbn [fst es_state es_calls] in Hd, Ecalls.
  apply app_inv_head in Ecalls. subst c'.
  rewrite apply_all_lookup in Hd by assumption.
  destruct (written c i) as [d'|] eqn:Ew; [|assumption].
  injection Hd as ->. exfalso. apply Hr. eapply written_routed; eassumption.
Qed.

Lemma index_then_delete_leaves_nothing_witness :
  other_index (JStr "x1") = Some (mkStored (JStr "q1") (JObj [("objectId", JStr "x1")])) /\
  JStr "q1" <> JStr "p1" /\ JStr "x1" <> JStr "p1".
Proof.
  apply (index_then_delete_leaves_nothing sample_plan (mkEsWorld other_index [])
           (JStr "x1") (mkStored (JStr "q1") (JObj [("objectId", JStr "x1")]))).
  reflexivity.
Defined.

(** From an empty index: index [sample_plan], delete [p1], nothing is left
    under the four ids that were written. *)
Example index_then_delete_sample :
  let idx := es_state
               (fst (delete_plan_from_index mem_exec (JStr "p1")
                       (fst (index_plan mem_exec sample_plan
                               (mkEsWorld empty_index []))))) in
  idx (JStr "p1") = None /\ idx (JStr "c1") = None /\
  idx (JStr "s1") = None /\ idx (JStr "sc1") = None.
Proof. repeat split. Qed.

(** X11. The cascade swallows one thing only, a "not found" answer to the
    delete of the parent.  Any other exception of that delete ends the
    call at once, before the two queries are sent; an exception of the
    first query ("not found" included) ends it before the second query is
    sent. *)
Theorem delete_cascade_aborts :
  (forall (S : Type) (es_exec : es_request -> S -> S * option exn)
          (plan_id : json) (w : EsWorld S) (s1 : S) (e : exn),
      es_exec (EsDelete plan_id plan_id) (es_state w) = (s1, Some e) ->
      e <> NotFoundError ->
      delete_plan_from_index es_exec plan_id w
      = (mkEsWorld s1 (es_calls w ++ [EsDelete plan_id plan_id]), inl e))
  /\
  (forall (S : Type) (es_exec : es_request -> S -> S * option exn)
          (plan_id : json) (w : EsWorld S) (s1 s2 : S) (f : option exn) (e : exn),
      es_exec (EsDelete plan_id plan_id) (es_state w) = (s1, f) ->
      f = None \/ f = Some NotFoundError ->
      es_exec (EsDeleteByQuery (HasParent "plan" plan_id)) s1 = (s2, Some e) ->
      delete_plan_from_index es_exec plan_id w
      = (mkEsWorld s2 (es_calls w ++ [EsDelete plan_id plan_id;
                                       EsDeleteByQuery (HasParent "plan" plan_id)]),
         inl e)).
Proof.
  split.
  - intros S es_exec plan_id w s1 e Hdel Hne.
    unfold delete_plan_from_index, bind, try_except, es_call. rewrite Hdel.
    destruct e; try reflexivity. now contradiction Hne.
  - intros S es_exec plan_id w s1 s2 f e Hdel Hf Hq.
    unfold delete_plan_from_index, bind, try_except, es_call, ret. rewrite Hdel.
    destruct Hf as [-> | ->]; cbn [es_state es_calls]; rewrite Hq;
      now rewrite <- app_assoc.
Qed.

Lemma delete_cascade_aborts_witness :
  delete_plan_from_index down_exec (JStr "p1") (mkEsWorld empty_index [])
  = (mkEsWorld empty_index [EsDelete (JStr "p1") (JStr "p1")], inl ESConnError).
Proof.
  apply (proj1 delete_cascade_aborts Index down_exec (JStr "p1")
           (mkEsWorld empty_index []) empty_index ESConnError).
  - reflexivity.
  - discriminate.
Defined.

Lemma filter_no_child_keys (kvs : list (string * json)) :
  dict_get kvs "planCostShares" = None ->
  dict_get kvs "linkedPlanServices" = None ->
  List.filter (fun kv => negb (String.eqb (fst kv) "planCostShares"
                               || String.eqb (fst kv) "linkedPlanServices")) kvs = kvs.
Proof.
  induction kvs as [|[k v] r IH]; intros H1 H2; [reflexivity|].
  cbn [dict_get] in H1, H2. cbn [List.filter fst].
  destruct (String.eqb k "planCostShares"); [discriminate|].
  destruct (String.eqb k "linkedPlanServices"); [discriminate|].
  cbn [orb negb]. now rewrite IH.
Qed.

(** X12. A patch that names plan-level fields only (no [planCostShares],
    no [linkedPlanServices]) sends one request: the write of the parent
    document, made of the three tags overridden and extended by the fields
    of the patch and by nothing else.  On the in-memory index every other
    document is left as it was, and the parent document is replaced by
    that one (fields indexed earlier and absent from the patch are not in
    it).  An empty patch sends nothing. *)
Theorem patch_plan_plan_level_only
  (plan_id : json) (kvs : list (string * json)) (w : EsWorld Index) :
  dict_get kvs "planCostShares" = None ->
  dict_get kvs "linkedPlanServices" = None ->
  let doc := JObj (dict_merge [("objectId", plan_id); ("objectType", JStr "plan");
                               ("rel", JStr "plan")] kvs) in
  exists v,
    patch_plan mem_exec plan_id (JObj kvs) w = (v, inr tt) /\
    es_calls v = es_calls w ++ (match kvs with
                                | [] => []
                                | _ => [EsIndex plan_id doc plan_id]
                                end) /\
    (forall i, i <> plan_id -> es_state v i = es_state w i) /\
    es_state v plan_id = match kvs with
                         | [] => es_state w plan_id
                         | _ => Some (mkStored plan_id doc)
                         end.
Proof.
  intros Hpcs Hlps doc.
  unfold patch_plan, bind, lift, py_items, py_get_default, dict_has.
  rewrite (filter_no_child_keys kvs Hpcs Hlps), Hpcs, Hlps.
  cbn [default from_option id py_or truthy py_iter for_each].
  unfold _upsert_parent, ret, es_call.
  destruct kvs as [|kv r]; cbn [truthy negb mem_exec es_state es_calls].
  - eexists. split; [reflexivity|]. cbn [es_calls es_state].
    rewrite app_nil_r. auto.
  - eexists. split; [reflexivity|]. cbn [es_calls es_state].
    split; [reflexivity|]. split.
    + intros i Hi. unfold index_put.
      destruct (json_eqb i plan_id) eqn:E; [|reflexivity].
      apply json_eqb_true in E. contradiction.
    + apply index_put_same.
Qed.

Lemma patch_plan_plan_level_only_witness :
  exists v,
    patch_plan mem_exec (JStr "p1") (JObj [("planType", JStr "outOfNetwork")])
      (fst (index_plan mem_exec sample_plan (mkEsWorld empty_index []))) = (v, inr tt) /\
    es_state v (JStr "p1")
    = Some (mkStored (JStr "p1")
              (JObj [("objectId", JStr "p1"); ("objectType", JStr "plan");
                     ("rel", JStr "plan"); ("planType", JStr "outOfNetwork")])) /\
    es_state v (JStr "c1")
    = es_state (fst (index_plan mem_exec sample_plan (mkEsWorld empty_index [])))
        (JStr "c1").
Proof.
  destruct (patch_plan_plan_level_only (JStr "p1") [("planType", JStr "outOfNetwork")]
              (fst (index_plan mem_exec sample_plan (mkEsWorld empty_index []))))
    as (v & E & _ & Hother & Hparent).
  - reflexivity.
  - reflexivity.
  - exists v. split; [exact E|]. split; [exact Hparent|].
    apply Hother. discriminate.
Defined.

(** ** The worker, delivery by delivery *)



(** X14. The attempt counter does not influence processing: the job the
    worker republishes is dispatched exactly as the job it received. *)
Theorem dispatch_ignores_attempt
  (S : Type) (es_exec : es_request -> S -> S * option exn)
  (kvs : list (string * json)) (attempt : Z) (v : EsWorld S) :
  dispatch es_exec (with_attempt kvs attempt) v = dispatch es_exec (JObj kvs) v.
Proof.
  unfold dispatch, with_attempt, bind, lift, py_get, py_item.
  rewrite !dict_get_set_ne by discriminate. reflexivity.
Qed.

(** X15. A job whose [attempt] field is not a number cannot be retried:
    when its processing fails transiently, [job.get("attempt", 0) + 1]
    raises [TypeError] inside the handler, and [on_msg] raises without
    acknowledging, republishing or dead-lettering. *)
Theorem malformed_attempt_escapes
  (S : Type) (es_exec : es_request -> S -> S * option exn)
  (tag : Z) (kvs : list (string * json)) (x : json) (w : World S)
  (v : EsWorld S) (e : exn) :
  dispatch es_exec (JObj kvs) (es w) = (v, inl e) ->
  is_transient e = true ->
  dict_get kvs "attempt" = Some x ->
  match x with JNum _ | JBool _ => False | _ => True end ->
  on_msg es_exec tag (JObj kvs) w
  = (mkWorld v (queue w) (dlq w) (effects w), inl TypeError).
Proof.
  intros Hd Ht Hx Hbad. unfold on_msg, try_except, bind, on_es, zoom.
  rewrite Hd. cbn [fst snd]. rewrite Ht.
  unfold retry_or_bury, bind, lift, next_attempt, py_get_default. rewrite Hx.
  cbn [default from_option id]. now destruct x.
Qed.

Lemma malformed_attempt_escapes_witness :
  let job := [("type", JStr "delete"); ("id", JStr "p1"); ("attempt", JStr "3")] in
  on_msg down_exec 1 (JObj job) (fresh_world (JObj job))
  = (mkWorld (mkEsWorld empty_index [EsDelete (JStr "p1") (JStr "p1")])
       [JObj job] [] [], inl TypeError).
Proof.
  intros job.
  apply (malformed_attempt_escapes Index down_exec 1 job (JStr "3")
           (fresh_world (JObj job))
           (mkEsWorld empty_index [EsDelete (JStr "p1") (JStr "p1")]) ESConnError).
  - reflexivity.
  - reflexivity.
  - reflexivity.
  - exact I.
Defined.

Lemma on_msg_success {S} (es_exec : es_request -> S -> S * option exn)
      (tag : Z) (job : json) (w : World S) (v : EsWorld S) :
  dispatch es_exec job (es w) = (v, inr tt) ->
  on_msg es_exec tag job w
  = (mkWorld v (queue w) (dlq w) (effects w ++ [Ack tag]), inr tt).
Proof.
  intros Hd. unfold on_msg, try_except, bind, on_es, zoom. now rewrite Hd.
Qed.

(** X16. Jobs whose processing succeeds are consumed in queue order, one
    acknowledgement each with increasing delivery tags; after [n]
    deliveries the first [n] jobs are gone from the queue, nothing was
    republished or dead-lettered. *)
Theorem consume_in_order
  (S : Type) (es_exec : es_request -> S -> S * option exn) (n : nat) :
  forall (tag : Z) (w : World S),
    (forall job, In job (queue w) ->
                 forall v, exists v', dispatch es_exec job v = (v', inr tt)) ->
    exists w',
      consume es_exec n tag w = (w', inr tt) /\
      queue w' = drop n (queue w) /\
      dlq w' = dlq w /\
      effects w' =
        effects w ++
        map (fun k => Ack (tag + Z.of_nat k)) (seq 0 (Nat.min n (length (queue w)))).
Proof.
  induction n as [|n IH]; intros tag w Hok.
  - exists w. cbn. rewrite app_nil_r. auto.
  - cbn [consume]. destruct (queue w) as [|job rest] eqn:Hq.
    + exists w. cbn. rewrite app_nil_r, Hq. auto.
    + destruct (Hok job (or_introl eq_refl) (es w)) as [v Hd].
      rewrite (on_msg_success es_exec tag job _ v) by exact Hd.
      cbn [es queue dlq effects].
      destruct (IH (tag + 1) (mkWorld v rest (dlq w) (effects w ++ [Ack tag])))
        as (w' & E & Hq' & Hd' & He').
      { cbn [queue]. intros j Hj. apply Hok. now right. }
      exists w'. cbn [queue dlq effects] in *. rewrite E.
      split; [reflexivity|]. split; [assumption|]. split; [assumption|].
      rewrite He', <- app_assoc. f_equal. cbn [length Nat.min seq map app].
      f_equal; [f_equal; lia|].
      rewrite <- seq_shift, map_map. apply map_ext. intros k. f_equal. lia.
Qed.

Lemma consume_in_order_witness :
  let a := JObj [("type", JStr "index"); ("doc", sample_plan)] in
  let b := JObj [("type", JStr "delete"); ("id", JStr "p1")] in
  exists w',
    consume mem_exec 2 1 (mkWorld (mkEsWorld empty_index []) [a; b] [] []) = (w', inr tt) /\
    queue w' = [] /\ dlq w' = [] /\ effects w' = [Ack 1; Ack 2].
Proof.
  intros a b.
  destruct (consume_in_order Index mem_exec 2 1
              (mkWorld (mkEsWorld empty_index []) [a; b] [] []))
    as (w' & E & Hq & Hd & He).
  - intros job [<- | [<- | []]] [idx calls]; subst a b.
    + eexists. cbv. reflexivity.
    + unfold dispatch, delete_plan_from_index, bind, lift, try_except, es_call, ret.
      cbn [py_get py_item dict_get String.eqb Ascii.eqb Bool.eqb default from_option
             id is_str es_state es_calls mem_exec].
      destruct (idx (JStr "p1")); eexists; reflexivity.
  - exists w'. auto.
Defined.

(** X17. The backoff before a retry is a whole number of seconds between
    1 and 30 that never decreases with the counter: it is [2^attempt] up
    to the fourth attempt and 30 from the fifth on. *)
Theorem backoff_bounds (attempt : Z) :
  0 <= attempt ->
  1 <= backoff attempt <= 30 /\
  (attempt <= 4 -> backoff attempt = 2 ^ attempt) /\
  (5 <= attempt -> backoff attempt = 30) /\
  (forall later, attempt <= later -> backoff attempt <= backoff later).
Proof.
  intros H0. unfold backoff.
  assert (forall a b, 0 <= a <= b -> 2 ^ a <= 2 ^ b) as Hmono
    by (intros a b Hab; apply Z.pow_le_mono_r; lia).
  assert (1 <= 2 ^ attempt) as H1 by (apply (Hmono 0 attempt); lia).
  repeat split.
  - lia.
  - lia.
  - intros H4. pose proof (Hmono attempt 4 ltac:(lia)) as H. cbn in H. lia.
  - intros H5. pose proof (Hmono 5 attempt ltac:(lia)) as H. cbn in H. lia.
  - intros later Hl. pose proof (Hmono attempt later ltac:(lia)). lia.
Qed.

Lemma backoff_bounds_witness :
  1 <= backoff 3 <= 30 /\ backoff 3 = 8.
Proof.
  destruct (backoff_bounds 3) as (Hb & H4 & _); [lia|].
  split; [exact Hb|]. rewrite H4 by lia. reflexivity.
Defined.

(** ** Authentication *)

(** Without a bearer header, or with a token that is not the demo token
    and does not verify, the decorator answers by itself and the handler is
    not run. *)
Lemma require_auth_refuses {R}
  (DEMO_BEARER : option string) (verify : string -> auth.verify_error + json)
  (fn : M ApiWorld R) (authorization : string) (w : ApiWorld) :
  String.prefix "Bearer " authorization = false \/
  (auth.is_demo DEMO_BEARER (auth.bearer_token authorization) = false /\
   exists e, verify (auth.bearer_token authorization) = inl e) ->
  exists status message detail,
    auth.require_auth DEMO_BEARER verify fn authorization w
    = (w, inr (auth.Denied status message detail)) /\
    (status = 401 \/
     status = 503 /\ verify (auth.bearer_token authorization) = inl auth.RequestException).
Proof.
  unfold auth.require_auth. intros [Hp | (Hdemo & e & He)].
  - rewrite Hp. cbn [negb]. do 3 eexists. split; [reflexivity|]. now left.
  - destruct (String.prefix "Bearer " authorization); cbn [negb].
    + rewrite Hdemo, He. destruct e; do 3 eexists; (split; [reflexivity|]); auto.
    + do 3 eexists. split; [reflexivity|]. now left.
Qed.

(** X18. None of the five routes touches the store or the queue for a
    request that is not authenticated: when the [Authorization] header
    does not start with ["Bearer "], or the token is not the demo token
    and its verification raises, the world is returned as it was. *)
Theorem unauthenticated_routes_change_nothing
  (md5_hexdigest : string -> string) (validate_schema : json -> bool * json)
  (container_repr : json -> string)
  (DEMO_BEARER : option string) (verify : string -> auth.verify_error + json)
  (authorization : string) (w : ApiWorld) :
  String.prefix "Bearer " authorization = false \/
  (auth.is_demo DEMO_BEARER (auth.bearer_token authorization) = false /\
   exists e, verify (auth.bearer_token authorization) = inl e) ->
  (forall body,
      fst (plan_routes.create md5_hexdigest validate_schema container_repr
             DEMO_BEARER verify body authorization w) = w) /\
  (forall object_id h,
      fst (plan_routes.get_ md5_hexdigest DEMO_BEARER verify object_id h
             authorization w) = w) /\
  (forall object_id req,
      fst (plan_routes.put_ md5_hexdigest validate_schema DEMO_BEARER verify
             object_id req authorization w) = w) /\
  (forall object_id req,
      fst (plan_routes.patch_ md5_hexdigest validate_schema DEMO_BEARER verify
             object_id req authorization w) = w) /\
  (forall object_id,
      fst (plan_routes.delete_ DEMO_BEARER verify object_id authorization w) = w).
Proof.
  intros Hno.
  assert (forall R (fn : M ApiWorld R),
             fst (auth.require_auth DEMO_BEARER verify fn authorization w) = w) as H.
  { intros R fn.
    destruct (require_auth_refuses DEMO_BEARER verify fn authorization w Hno)
      as (st & msg & det & E & _).
    now rewrite E. }
  repeat split; intros; apply H.
Qed.

Lemma unauthenticated_routes_change_nothing_witness :
  fst (plan_routes.delete_ (Some "letmein"%string) (fun _ => inl auth.OtherJWTError)
         "p1" "Bearer wrong" sample_store) = sample_store.
Proof.
  apply (unauthenticated_routes_change_nothing sample_digest sample_validate
           (fun _ => ""%string) (Some "letmein"%string)
           (fun _ => inl auth.OtherJWTError) "Bearer wrong" sample_store).
  right. split; [reflexivity|]. eexists. reflexivity.
Defined.

(** X19. With a token that verifies, the handler runs inside the [try] of
    the decorator: an exception that escapes the handler is answered as
    401 "Auth error", and what the handler had done before raising stays
    done.  With the demo token the handler runs outside the [try] and the
    exception propagates. *)
Theorem handler_exception_behind_auth {R}
  (DEMO_BEARER : option string) (verify : string -> auth.verify_error + json)
  (fn : M ApiWorld R) (authorization : string) (w w1 : ApiWorld) (e : exn) :
  String.prefix "Bearer " authorization = true ->
  fn w = (w1, inl e) ->
  auth.require_auth DEMO_BEARER verify fn authorization w =
    if auth.is_demo DEMO_BEARER (auth.bearer_token authorization) then (w1, inl e)
    else match verify (auth.bearer_token authorization) with
         | inr _ => (w1, inr (auth.Denied 401 "Auth error" (Some (inr e))))
         | inl e' => (w, inr (auth.refuse e'))
         end.
Proof.
  intros Hp Hfn. unfold auth.require_auth. rewrite Hp. cbn [negb].
  destruct (auth.is_demo _ _); [now rewrite Hfn|].
  destruct (verify _); [reflexivity|]. now rewrite Hfn.
Qed.

(** A PATCH whose body is a JSON list, sent with a token that verifies:
    the handler raises [AttributeError] on [updates.items()] and the
    client is told 401 "Auth error". *)
Lemma handler_exception_behind_auth_witness :
  plan_routes.patch_ sample_digest sample_validate None (fun _ => inr (JObj []))
    "p1" (mkRequest (JArr [JNum 1]) None) "Bearer some.signed.token" sample_store
  = (sample_store, inr (auth.Denied 401 "Auth error" (Some (inr AttributeError)))).
Proof.
  apply (handler_exception_behind_auth None (fun _ => inr (JObj []))
           (plan_controller.patch_plan sample_digest sample_validate "p1"
              (mkRequest (JArr [JNum 1]) None))
           "Bearer some.signed.token" sample_store sample_store AttributeError).
  - reflexivity.
  - vm_compute. reflexivity.
Defined.

(** ** Index set-up *)

(** X20. Setting the index up is idempotent.  From any state of the
    cluster [ensure_index] returns normally with the index present and
    aliased, creating the index only when it was missing; a second call
    sends the existence check and the alias request and nothing else, and
    leaves the cluster as the first call left it. *)
Theorem ensure_index_idempotent (w : index_setup.AdminWorld cluster) :
  let once := index_setup.ensure_index cluster_exec w in
  let twice := index_setup.ensure_index cluster_exec (fst once) in
  snd once = inr tt /\
  index_setup.admin_state (fst once) = mkCluster true true /\
  index_setup.admin_calls (fst once)
  = index_setup.admin_calls w ++
    (if has_index (index_setup.admin_state w)
     then [IndicesExists; IndicesPutAlias]
     else [IndicesExists; IndicesCreate index_setup.index_body; IndicesPutAlias]) /\
  snd twice = inr tt /\
  index_setup.admin_state (fst twice) = index_setup.admin_state (fst once) /\
  index_setup.admin_calls (fst twice)
  = index_setup.admin_calls (fst once) ++ [IndicesExists; IndicesPutAlias].
Proof.
  destruct w as [[hi ha] calls].
  unfold index_setup.ensure_index, index_setup._ensure_alias, index_setup.admin_call,
    bind, ret.
  destruct hi; cbn; rewrite <- ?app_assoc; repeat split.
Qed.

(** ** From the handlers to the worker *)

(** X21. The jobs that PUT and DELETE publish are jobs the worker
    understands: the job of a PUT answered 201 is dispatched to
    [index_plan] on the body that was stored, and the job of a DELETE is
    dispatched to [delete_plan_from_index] on the id of the request. *)
Theorem published_jobs_reach_the_indexer :
  (forall (md5_hexdigest : string -> string) (validate_schema : json -> bool * json)
          (object_id : string) (req : request) (w w1 : ApiWorld) (r : response),
      plan_controller.put_plan md5_hexdigest validate_schema object_id req w
        = (w1, inr r) ->
      status r = 201 ->
      exists job,
        jobs w1 = jobs w ++ [job] /\
        forall (S : Type) (es_exec : es_request -> S -> S * option exn) (v : EsWorld S),
          dispatch es_exec job v
          = index_plan es_exec (py_or (get_json req) (JObj [])) v)
  /\
  (forall (object_id : string) (w : ApiWorld),
      broker_up w = true ->
      exists job,
        jobs (fst (plan_controller.delete_plan object_id w)) = jobs w ++ [job] /\
        forall (S : Type) (es_exec : es_request -> S -> S * option exn) (v : EsWorld S),
          dispatch es_exec job v
          = delete_plan_from_index es_exec (JStr object_id) v).
Proof.
  split.
  - intros md5_hexdigest validate_schema object_id req w w1 r Hput Hstatus.
    destruct (put_plan_201 _ _ _ _ _ _ _ Hput Hstatus) as (_ & Hjobs & _).
    eexists. split; [exact Hjobs|]. reflexivity.
  - intros object_id w Hup.
    unfold plan_controller.delete_plan, plan_controller._publish_safe, bind, ret,
      try_except, redis_service.get_data, redis_service.delete_data,
      queue_service.publish. cbn [kv jobs broker_up]. rewrite Hup.
    eexists. split.
    + destruct (negb (truthy _)); reflexivity.
    + reflexivity.
Qed.

Lemma published_jobs_reach_the_indexer_witness :
  exists job,
    jobs (fst (plan_controller.delete_plan "p1" sample_store)) = [job] /\
    dispatch mem_exec job (mkEsWorld empty_index [])
    = delete_plan_from_index mem_exec (JStr "p1") (mkEsWorld empty_index []).
Proof.
  destruct (proj2 published_jobs_reach_the_indexer "p1" sample_store eq_refl)
    as (job & Hj & Hd).
  exists job. split; [exact Hj|]. apply Hd.
Defined.

(** ** Reading several keys *)

Lemma dict_get_fold_set (f : string -> json) (keys : list string) :
  forall acc k,
    dict_get (fold_left (fun a k0 => dict_set a k0 (f k0)) keys acc) k =
      if bool_decide (k ∈ keys) then Some (f k) else dict_get acc k.
Proof.
  induction keys as [|k0 r IH]; intros acc k; cbn [fold_left].
  - rewrite bool_decide_eq_false_2; [reflexivity|]. apply not_elem_of_nil.
  - rewrite IH. destruct (bool_decide (k ∈ r)) eqn:Er.
    + apply bool_decide_eq_true in Er.
      rewrite bool_decide_eq_true_2; [reflexivity|]. apply elem_of_cons. now right.
    + apply bool_decide_eq_false in Er.
      destruct (String.eqb k0 k) eqn:E.
      * apply String.eqb_eq in E. subst k0.
        rewrite bool_decide_eq_true_2 by (apply elem_of_cons; now left).
        apply dict_get_set_eq.
      * apply String.eqb_neq in E.
        rewrite bool_decide_eq_false_2.
        -- now apply dict_get_set_ne.
        -- intros [?|?]%elem_of_cons; congruence.
Qed.

(** X22. [mget] agrees with [get_data] key by key: the dict it returns
    has an entry exactly for the keys asked for, and the entry of a key is
    what [get_data] returns for it ([None] for a key that is not stored);
    the store is not changed. *)
Theorem mget_agrees_with_get_data (keys : list string) (w : ApiWorld) :
  exists d,
    redis_reads.mget keys w = (w, inr d) /\
    forall k,
      dict_get d k =
        if bool_decide (k ∈ keys)
        then match redis_service.get_data k w with
             | (_, inr v) => Some v
             | (_, inl _) => None
             end
        else None.
Proof.
  unfold redis_reads.mget, redis_service.get_data. eexists. split; [reflexivity|].
  intros k.
  assert (forall (acc : list (string * json)),
             fold_left
               (fun acc0 (kv0 : string * option json) =>
                  dict_set acc0 (fst kv0) (default JNull (snd kv0)))
               (combine keys (map (fun k0 => kv w !! k0) keys)) acc
             = fold_left (fun a k0 => dict_set a k0 (default JNull (kv w !! k0)))
                 keys acc) as ->.
  { induction keys as [|k0 r IH]; intros acc; [reflexivity|].
    cbn [map combine fold_left fst snd]. apply IH. }
  now rewrite (dict_get_fold_set (fun k0 => default JNull (kv w !! k0))).
Qed.

(** ** Deleting twice *)

(** X23. The cascade is idempotent on the in-memory index: running
    [delete_plan_from_index] a second time on the same id returns
    normally and leaves every document as the first run left it. *)
Theorem delete_plan_from_index_twice (plan_id : json) (w : EsWorld Index) :
  let once := delete_plan_from_index mem_exec plan_id w in
  let twice := delete_plan_from_index mem_exec plan_id (fst once) in
  snd once = inr tt /\ snd twice = inr tt /\
  forall i, es_state (fst twice) i = es_state (fst once) i.
Proof.
  cbn zeta.
  assert (forall v : EsWorld Index,
             snd (delete_plan_from_index mem_exec plan_id v) = inr tt) as Hret.
  { intros [idx calls].
    unfold delete_plan_from_index, bind, try_except, es_call, ret.
    cbn [es_state es_calls mem_exec]. now destruct (idx plan_id). }
  split; [apply Hret|]. split; [apply Hret|].
  intros i.
  set (once := fst (delete_plan_from_index mem_exec plan_id w)).
  destruct (es_state once i) as [d|] eqn:E1.
  - apply mem_delete_survivors in E1 as E1'. destruct E1' as (Hr & Hi & _).
    assert (es_state once plan_id = None) as Hnone.
    { destruct (es_state once plan_id) as [d0|] eqn:E0; [|reflexivity].
      apply mem_delete_survivors in E0 as (_ & Hne & _). now contradiction Hne. }
    destruct once as [idx calls]. cbn [es_state] in *.
    unfold delete_plan_from_index, bind, try_except, es_call, ret.
    cbn [es_state es_calls mem_exec]. rewrite Hnone.
    cbn [fst es_state es_calls mem_exec]. rewrite E1.
    rewrite (has_parent_needs_parent idx plan_id d Hnone).
    cbn [matches].
    destruct (json_eqb (st_routing d) plan_id) eqn:Er; [|reflexivity].
    apply json_eqb_true in Er. contradiction.
  - destruct (es_state (fst (delete_plan_from_index mem_exec plan_id once)) i)
      as [d|] eqn:E2; [|reflexivity].
    apply mem_delete_survivors in E2 as (_ & _ & E2). congruence.
Qed.
